(** * ML knowledge graph: entity normalisation, relation validation,
      graph construction and question parsing

    A shallow embedding of

    - [src/knowledge_graph/entity_normalizer.py] ([EntityNormalizer]),
    - [src/knowledge_graph/relation_extractor.py] ([RelationExtractor]),
    - [src/knowledge_graph/kg_builder.py] ([KnowledgeGraphBuilder]),
    - [src/query_system/kg_executor.py] ([KGExecutor.get_stats]),
    - [src/query_system/query_processor.py] ([QueryProcessor]),

    with the properties the specification states about them.

    Python strings are sequences of Unicode code points; they are modelled
    as [list N].  [str.lower] and the [\w] class of [re] are driven by the
    Unicode tables, which are not reproduced here: the development is
    parametric in them and, where a result depends on their value, assumes
    only how they act on ASCII text. *)

From Stdlib Require Import String Ascii List ZArith NArith QArith Lia Bool.
From Stdlib Require Import DecimalNat DecimalFacts.
From stdpp Require Import base decidable countable gmap list.

Import ListNotations.
Local Open Scope N_scope.
#[local] Set Warnings "-clear-no-such-hyp".
Local Open Scope list_scope.

(** ** Python strings *)

Abbreviation pystr := (list N).

(** [cp "abc"] is the Python string with the code points of an ASCII
    literal. *)
Fixpoint cp (s : string) : pystr :=
  match s with
  | EmptyString => []
  | String a r => N_of_ascii a :: cp r
  end.
Arguments cp : simpl never.

(** Code points of the non-ASCII letters that occur in the patterns. *)
Definition a_acute : N := 225.   (* U+00E1 *)
Definition a_tilde : N := 227.   (* U+00E3 *)
Definition c_cedil : N := 231.   (* U+00E7 *)
Definition e_acute : N := 233.   (* U+00E9 *)

(** [str.isspace] on one code point; also the class [\s] of [re] on [str]
    patterns and the characters removed by [str.strip()] and
    [str.split()]. *)
Definition isspace (c : N) : bool :=
  ((9 <=? c) && (c <=? 13)) || ((28 <=? c) && (c <=? 32))
  || (c =? 133) || (c =? 160) || (c =? 5760)
  || ((8192 <=? c) && (c <=? 8202))
  || (c =? 8232) || (c =? 8233) || (c =? 8239) || (c =? 8287)
  || (c =? 12288).

Definition is_ascii_lower (c : N) : bool := (97 <=? c) && (c <=? 122).
Definition is_ascii_upper (c : N) : bool := (65 <=? c) && (c <=? 90).
Definition is_ascii_digit (c : N) : bool := (48 <=? c) && (c <=? 57).
Definition underscore : N := 95.
Definition hyphen : N := 45.

Definition is_ascii (c : N) : bool := c <? 128.
Definition ascii_only (s : pystr) : bool := forallb is_ascii s.

(** [[A-Za-z0-9_]]: what [\w] matches among the ASCII characters. *)
Definition is_ascii_word (c : N) : bool :=
  is_ascii_lower c || is_ascii_upper c || is_ascii_digit c || (c =? underscore).

(** [[a-z0-9]] *)
Definition word_char (c : N) : bool := is_ascii_lower c || is_ascii_digit c.

(** The characters of a plain name: ASCII letters, digits and
    whitespace. *)
Definition plain_char (c : N) : bool :=
  is_ascii_lower c || is_ascii_upper c || is_ascii_digit c
  || (isspace c && is_ascii c).

Definition plain_name (name : pystr) : bool := forallb plain_char name.

(** [str.lower] restricted to ASCII text: [A-Z] go to [a-z], every other
    ASCII character stays. *)
Definition ascii_lower_char (c : N) : N :=
  if is_ascii_upper c then c + 32 else c.

Definition ascii_lower (s : pystr) : pystr := List.map ascii_lower_char s.

(** A [\w] whose value on the ASCII characters is spelled out. *)
Definition word_on_ascii (re_word : N -> bool) (c : N) : bool :=
  if is_ascii c then is_ascii_word c else re_word c.

(** A [str.lower] whose value on ASCII text is spelled out. *)
Definition lower_on_ascii (lower : pystr -> pystr) (s : pystr) : pystr :=
  if ascii_only s then ascii_lower s else lower s.

Fixpoint lstrip_by (p : N -> bool) (s : pystr) : pystr :=
  match s with
  | [] => []
  | c :: r => if p c then lstrip_by p r else s
  end.

Definition strip_by (p : N -> bool) (s : pystr) : pystr :=
  rev (lstrip_by p (rev (lstrip_by p s))).

(** The right half of [strip_by], by recursion on the string. *)
Fixpoint rstrip_by (p : N -> bool) (s : pystr) : pystr :=
  match s with
  | [] => []
  | c :: r =>
      match rstrip_by p r with
      | [] => if p c then [] else [c]
      | r' => c :: r'
      end
  end.

(** [s.strip()] *)
Definition strip (s : pystr) : pystr := strip_by isspace s.

(** [s.strip('_')] *)
Definition strip_underscores (s : pystr) : pystr :=
  strip_by (N.eqb underscore) s.

(** [s.split()]: the maximal runs of non-whitespace characters, in order.
    [cur] holds the characters of the current run, last first. *)
Fixpoint split_ws_aux (cur : pystr) (s : pystr) : list pystr :=
  match s with
  | [] => match cur with [] => [] | _ => [rev cur] end
  | c :: r =>
      if isspace c
      then match cur with
           | [] => split_ws_aux [] r
           | _ => rev cur :: split_ws_aux [] r
           end
      else split_ws_aux (c :: cur) r
  end.

Definition split_ws (s : pystr) : list pystr := split_ws_aux [] s.

(** [sep.join(parts)] *)
Fixpoint join (sep : pystr) (parts : list pystr) : pystr :=
  match parts with
  | [] => []
  | [p] => p
  | p :: rest => p ++ sep ++ join sep rest
  end.

Definition pystr_eqb (a b : pystr) : bool := bool_decide (a = b).

Fixpoint is_prefix (a b : pystr) : bool :=
  match a, b with
  | [], _ => true
  | x :: a', y :: b' => (x =? y) && is_prefix a' b'
  | _ :: _, [] => false
  end.

(** [a in b] on strings: [a] occurs in [b] as a contiguous substring. *)
Fixpoint str_in (a b : pystr) : bool :=
  is_prefix a b ||
  match b with
  | [] => false
  | _ :: b' => str_in a b'
  end.

(** [x in l] on a list of strings. *)
Definition str_mem (x : pystr) (l : list pystr) : bool :=
  existsb (pystr_eqb x) l.

(** [str(n)] for a non-negative integer: its decimal digits. *)
Fixpoint uint_digits (d : Decimal.uint) : pystr :=
  match d with
  | Decimal.Nil => []
  | Decimal.D0 r => 48 :: uint_digits r
  | Decimal.D1 r => 49 :: uint_digits r
  | Decimal.D2 r => 50 :: uint_digits r
  | Decimal.D3 r => 51 :: uint_digits r
  | Decimal.D4 r => 52 :: uint_digits r
  | Decimal.D5 r => 53 :: uint_digits r
  | Decimal.D6 r => 54 :: uint_digits r
  | Decimal.D7 r => 55 :: uint_digits r
  | Decimal.D8 r => 56 :: uint_digits r
  | Decimal.D9 r => 57 :: uint_digits r
  end.

Definition str_of_nat (n : nat) : pystr := uint_digits (Nat.to_uint n).

(** ** Exceptions *)

Inductive pyexc :=
| IndexError | KeyError | AttributeError | TypeError | LLMError.

Inductive result (A : Type) :=
| Ok (a : A)
| Raise (e : pyexc).
Arguments Ok {A} a.
Arguments Raise {A} e.

Definition bind {A B} (r : result A) (f : A -> result B) : result B :=
  match r with
  | Ok a => f a
  | Raise e => Raise e
  end.

Notation "'try!' x := r 'in' k" := (bind r (fun x => k))
  (at level 10, x name, r at level 100, k at level 200).

(** ** Regular expressions

    The fragment of Python's [re] the question patterns use, with the
    backtracking semantics of [re.search]: alternatives are tried left to
    right, [+], [*] and [?] are greedy, [*?] is lazy, and the leftmost
    starting position that admits a match wins.  Every quantifier in the
    patterns applies to a single character class, which is how [Chars]
    carries it. *)

Inductive quant := One | Opt | Star | Plus | LazyStar.

Inductive regex :=
| Empty
| Chars (p : N -> bool) (q : quant)
| Seq (r1 r2 : regex)
| Alt (r1 r2 : regex)
| Grp (i : nat) (r : regex).        (* the [i]-th capturing group *)

(** A match object: the text of each capturing group that took part. *)
Abbreviation captures := (list (nat * pystr)).

Section Matcher.
Context {A : Type}.

Fixpoint rep_greedy (p : N -> bool) (s : pystr)
    (k : pystr -> option A) : option A :=
  match s with
  | c :: s' =>
      if p c
      then match rep_greedy p s' k with
           | Some a => Some a
           | None => k s
           end
      else k s
  | [] => k s
  end.

Fixpoint rep_lazy (p : N -> bool) (s : pystr)
    (k : pystr -> option A) : option A :=
  match k s with
  | Some a => Some a
  | None =>
      match s with
      | c :: s' => if p c then rep_lazy p s' k else None
      | [] => None
      end
  end.

Definition match_chars (p : N -> bool) (q : quant) (s : pystr)
    (k : pystr -> option A) : option A :=
  match q with
  | One =>
      match s with
      | c :: s' => if p c then k s' else None
      | [] => None
      end
  | Opt =>
      match s with
      | c :: s' =>
          if p c
          then match k s' with Some a => Some a | None => k s end
          else k s
      | [] => k s
      end
  | Star => rep_greedy p s k
  | Plus =>
      match s with
      | c :: s' => if p c then rep_greedy p s' k else None
      | [] => None
      end
  | LazyStar => rep_lazy p s k
  end.

Fixpoint rmatch (r : regex) (s : pystr) (caps : captures)
    (k : pystr -> captures -> option A) : option A :=
  match r with
  | Empty => k s caps
  | Chars p q => match_chars p q s (fun s' => k s' caps)
  | Seq r1 r2 => rmatch r1 s caps (fun s' caps' => rmatch r2 s' caps' k)
  | Alt r1 r2 =>
      match rmatch r1 s caps k with
      | Some a => Some a
      | None => rmatch r2 s caps k
      end
  | Grp i r1 =>
      rmatch r1 s caps
        (fun s' caps' =>
           k s' ((i, firstn (length s - length s') s) :: caps'))
  end.
End Matcher.

(** [re.search(r, s)]: the match at the leftmost position that has one. *)
Fixpoint re_search (r : regex) (s : pystr) : option captures :=
  match rmatch r s [] (fun _ caps => Some caps) with
  | Some caps => Some caps
  | None =>
      match s with
      | [] => None
      | _ :: s' => re_search r s'
      end
  end.

(** [m.group(i)]; [None] when the group took no part in the match. *)
Fixpoint group (i : nat) (m : captures) : option pystr :=
  match m with
  | [] => None
  | (j, s) :: m' => if Nat.eqb i j then Some s else group i m'
  end.

(** The characters a pattern letter matches under [re.IGNORECASE], for the
    letters that occur in the patterns: both cases of the letter and, for
    [i], [s] and [k], the code points U+0130, U+0131, U+017F and U+212A
    that Unicode case folding identifies with them. *)
Definition ci_char (c x : N) : bool :=
  (x =? c)
  || (is_ascii_lower c && (x =? c - 32))
  || ((c =? 105) && ((x =? 304) || (x =? 305)))
  || ((c =? 115) && (x =? 383))
  || ((c =? 107) && (x =? 8490))
  || (((c =? a_acute) || (c =? a_tilde) || (c =? c_cedil) || (c =? e_acute))
      && (x =? c - 32)).

(** [.]: every character but the newline. *)
Definition any_char (x : N) : bool := negb (x =? 10).

(** [[a-zA-Z_\s]] under [re.IGNORECASE]. *)
Definition entity_char (x : N) : bool :=
  is_ascii_lower x || is_ascii_upper x || (x =? underscore) || isspace x
  || (x =? 304) || (x =? 305) || (x =? 383) || (x =? 8490).

(** A literal piece of a pattern, matched case-insensitively. *)
Fixpoint lit (s : pystr) : regex :=
  match s with
  | [] => Empty
  | c :: r => Seq (Chars (ci_char c) One) (lit r)
  end.

Definition L (s : string) : regex := lit (cp s).

(** One pattern letter, optional: [x?]. *)
Definition opt (s : string) : regex :=
  match cp s with
  | c :: _ => Chars (ci_char c) Opt
  | [] => Empty
  end.

Fixpoint seq (rs : list regex) : regex :=
  match rs with
  | [] => Empty
  | [r] => r
  | r :: rest => Seq r (seq rest)
  end.

Fixpoint alt (rs : list regex) : regex :=
  match rs with
  | [] => Empty
  | [r] => r
  | r :: rest => Alt r (alt rest)
  end.

Definition ws1 : regex := Chars isspace Plus.            (* \s+ *)
Definition dot_star : regex := Chars any_char Star.       (* .*  *)
Definition dot_lazy : regex := Chars any_char LazyStar.   (* .*? *)
Definition ent (i : nat) : regex :=                       (* ([a-zA-Z_\s]+) *)
  Grp i (Chars entity_char Plus).

(** ** Python values

    What [json.loads] returns: the shape of a reply of the language model
    after parsing.  A dictionary is kept as the list of its items, in
    insertion order. *)

#[warnings="-register-all"]
Inductive pyval :=
| PyNone
| PyBool (b : bool)
| PyInt (z : Z)
| PyFloat (q : Q)
| PyStr (s : pystr)
| PyList (l : list pyval)
| PyDict (d : list (pystr * pyval)).

Abbreviation pydict := (list (pystr * pyval)).

(** [d.get(k)] *)
Fixpoint dict_get (d : pydict) (k : pystr) : option pyval :=
  match d with
  | [] => None
  | (k', v) :: d' => if pystr_eqb k k' then Some v else dict_get d' k
  end.

(** [d[k] = v] *)
Fixpoint dict_set (k : pystr) (v : pyval) (d : pydict) : pydict :=
  match d with
  | [] => [(k, v)]
  | (k', v') :: d' =>
      if pystr_eqb k k' then (k', v) :: d' else (k', v') :: dict_set k v d'
  end.

(** [d[k]] *)
Definition dict_item (d : pydict) (k : pystr) : result pyval :=
  match dict_get d k with
  | Some v => Ok v
  | None => Raise KeyError
  end.

(** [d.get(k, '').strip()]: only a string has [strip]. *)
Definition get_stripped (d : pydict) (k : pystr) : result pystr :=
  match dict_get d k with
  | None => Ok (strip [])
  | Some (PyStr s) => Ok (strip s)
  | Some _ => Raise AttributeError
  end.

(** [v.get]: only a dictionary has [get]. *)
Definition as_dict (v : pyval) : result pydict :=
  match v with
  | PyDict d => Ok d
  | _ => Raise AttributeError
  end.

(** [for x in v]: the items a [for] loop visits. *)
Definition py_iter (v : pyval) : result (list pyval) :=
  match v with
  | PyList l => Ok l
  | PyStr s => Ok (List.map (fun c => PyStr [c]) s)
  | PyDict d => Ok (List.map (fun kv => PyStr (fst kv)) d)
  | _ => Raise TypeError
  end.

(** [next((x for x in l if p(x)), default)] *)
Definition first_or {A} (p : A -> bool) (l : list A) (default : A) : A :=
  match List.find p l with
  | Some x => x
  | None => default
  end.

(** ** The dataclasses of the extraction stage *)

Module EntityExtractor.
Record EntityCandidate := {
  text : pystr;
  label : pystr;
  start_char : Z;
  end_char : Z;
  chunk_id : pystr;
  source : pystr;
  confidence : Q
}.
End EntityExtractor.

Module ChunkLoader.
Record TextChunk := {
  chunk_id : pystr;
  content : pystr;
  source_book : pystr;
  chunk_number : Z;
  word_count : Z
}.
End ChunkLoader.

(** ** Entity normaliser ([entity_normalizer.py]) *)

Module EntityNormalizer.
Import EntityExtractor.

Record NormalizedEntity := {
  canonical_name : pystr;
  entity_type : pyval;
  aliases : list pyval;
  frequency : nat;
  confidence : Q;
  source_chunks : list pystr;
  original_labels : list pystr
}.

(** [Counter(xs)]: the distinct items in order of first occurrence, each
    with its number of occurrences. *)
Fixpoint counter_incr (k : pystr) (c : list (pystr * nat))
    : list (pystr * nat) :=
  match c with
  | [] => [(k, 1%nat)]
  | (k', n) :: c' =>
      if pystr_eqb k k' then (k', S n) :: c' else (k', n) :: counter_incr k c'
  end.

Definition Counter (xs : list pystr) : list (pystr * nat) :=
  fold_left (fun c k => counter_incr k c) xs [].

(** [[l[i:i + n] for i in range(0, len(l), n)]] *)
Fixpoint batches_of (fuel n : nat) (l : list pystr) : list (list pystr) :=
  match fuel with
  | O => []
  | S fuel' =>
      match l with
      | [] => []
      | _ => firstn n l :: batches_of fuel' n (skipn n l)
      end
  end.

(** *** [_group_similar_entities] *)
Definition _group_similar_entities (entities : list EntityCandidate)
    (batch_size : nat) : list (list pystr) :=
  let entity_counts := Counter (List.map (fun e => strip (text e)) entities) in
  let frequent_entities :=
    List.map fst
      (List.filter (fun kc => (2 <=? snd kc)%nat || (3 <? length (fst kc))%nat)
         entity_counts) in
  batches_of (length frequent_entities) batch_size frequent_entities.

Section WithPython.
(** [str.lower] *)
Variable lower : pystr -> pystr.
(** [list(set(xs))]: the distinct items of [xs] in the iteration order
    of the set, which Python leaves open. *)
Variable set_iter : list pystr -> list pystr.
(** The language model: what [_parse_llm_response] makes of the reply
    to the prompt for batch number [i], or [None] when the call or the
    access to the reply raises. *)
Variable llm : nat -> list pystr -> option pyval.

(** [sum(1 for e in entities if e.text.strip().lower() == alias.lower())];
    [alias.lower()] is evaluated once per candidate. *)
Definition count_alias (entities : list EntityCandidate) (alias : pyval)
    : result nat :=
  match entities with
  | [] => Ok 0%nat
  | _ =>
      match alias with
      | PyStr a =>
          Ok (length (List.filter
                (fun e => pystr_eqb (lower (strip (text e))) (lower a))
                entities))
      | _ => Raise AttributeError
      end
  end.

(** [sum(... for alias in [canonical_name] + aliases)] *)
Fixpoint total_frequency (entities : list EntityCandidate)
    (names : list pyval) : result nat :=
  match names with
  | [] => Ok 0%nat
  | alias :: rest =>
      try! c := count_alias entities alias in
      try! r := total_frequency entities rest in
      Ok (c + r)%nat
  end.

(** [[alias.lower() for alias in [canonical_name] + aliases]] *)
Fixpoint lowered (names : list pyval) : result (list pystr) :=
  match names with
  | [] => Ok []
  | PyStr a :: rest =>
      try! r := lowered rest in Ok (lower a :: r)
  | _ :: _ => Raise AttributeError
  end.

(** The candidates [e] with [e.text.strip().lower() in [alias.lower()
    ...]]; the list of lowered names is built once per candidate. *)
Definition mentions (entities : list EntityCandidate) (names : list pyval)
    : result (list EntityCandidate) :=
  match entities with
  | [] => Ok []
  | _ =>
      try! ls := lowered names in
      Ok (List.filter (fun e => str_mem (lower (strip (text e))) ls)
            entities)
  end.

(** [[canonical_name] + aliases]: the right operand has to be a list. *)
Definition as_list (v : pyval) : result (list pyval) :=
  match v with
  | PyList l => Ok l
  | _ => Raise TypeError
  end.

(** The body of the loop over one batch (lines 249-286): [Ok None] is
    the [continue] on an empty name, [Raise] an exception that the
    inner [except] swallows, [Ok (Some e)] the entity written to the
    mapping. *)
Definition build_entity (entities : list EntityCandidate)
    (norm_entity : pyval) : result (option NormalizedEntity) :=
  try! d := as_dict norm_entity in
  try! canonical_name := get_stripped d (cp "canonical_name") in
  match canonical_name with
  | [] => Ok None
  | _ =>
      let aliases := default (PyList []) (dict_get d (cp "aliases")) in
      let entity_type := default (PyStr (cp "OTHER")) (dict_get d (cp "type")) in
      try! alias_items := as_list aliases in
      let names := PyStr canonical_name :: alias_items in
      try! total_freq := total_frequency entities names in
      try! ms := mentions entities names in
      let source_chunks := set_iter (List.map chunk_id ms) in
      try! ms' := mentions entities names in
      let original_labels := set_iter (List.map label ms') in
      Ok (Some {| canonical_name := canonical_name;
                  entity_type := entity_type;
                  aliases := alias_items;
                  frequency := total_freq;
                  confidence := 1;
                  source_chunks := source_chunks;
                  original_labels := original_labels |})
  end.

(** [all_normalized[canonical_name] = normalized_entity], or nothing
    when the record was skipped. *)
Definition store_entity (entities : list EntityCandidate)
    (all_normalized : gmap pystr NormalizedEntity) (norm_entity : pyval)
    : gmap pystr NormalizedEntity :=
  match build_entity entities norm_entity with
  | Ok (Some e) => <[ canonical_name e := e ]> all_normalized
  | _ => all_normalized
  end.

(** One round of the loop over the batches. *)
Definition process_batch (entities : list EntityCandidate)
    (all_normalized : gmap pystr NormalizedEntity)
    (ib : nat * list pystr) : gmap pystr NormalizedEntity :=
  match llm (fst ib) (snd ib) with
  | None => all_normalized
  | Some normalized_batch =>
      match py_iter normalized_batch with
      | Raise _ => all_normalized
      | Ok items => fold_left (store_entity entities) items all_normalized
      end
  end.

(** [enumerate(l)] *)
Definition enumerate {A} (l : list A) : list (nat * A) :=
  combine (List.seq 0 (length l)) l.

(** *** [normalize_entities] *)
Definition normalize_entities (entities : list EntityCandidate)
    : gmap pystr NormalizedEntity :=
  let entity_batches := _group_similar_entities entities 20 in
  fold_left (process_batch entities) (enumerate entity_batches) ∅.

(** *** Vocabulary of the properties *)

(** The number of candidates whose stripped text is [name] up to case. *)
Definition occurrences (entities : list EntityCandidate) (name : pystr)
    : nat :=
  length (List.filter
            (fun e => pystr_eqb (lower (strip (text e))) (lower name))
            entities).

(** The records the loop body sees for batch number [i]. *)
Definition batch_items (ib : nat * list pystr) : list pyval :=
  match llm (fst ib) (snd ib) with
  | None => []
  | Some normalized_batch =>
      match py_iter normalized_batch with
      | Raise _ => []
      | Ok items => items
      end
  end.

(** The record is written to the mapping under the key [name]. *)
Definition yields (entities : list EntityCandidate) (name : pystr)
    (norm_entity : pyval) : bool :=
  match build_entity entities norm_entity with
  | Ok (Some e) => pystr_eqb (canonical_name e) name
  | _ => false
  end.

(** The records of the batches after batch number [j]. *)
Definition later_items (entities : list EntityCandidate) (j : nat)
    : list pyval :=
  concat (List.map batch_items
            (skipn (S j) (enumerate (_group_similar_entities entities 20)))).
(** A candidate mention of one of the names. *)
Definition mentioned (entities : list EntityCandidate) (names : list pyval)
    : Prop :=
  exists a, In (PyStr a) names /\ (1 <= occurrences entities a)%nat.

(** Every entry of the mapping was built from a record, under its own
    canonical name. *)
Definition built (entities : list EntityCandidate)
    (m : gmap pystr NormalizedEntity) : Prop :=
  forall n e, m !! n = Some e ->
    canonical_name e = n
    /\ exists norm_entity, build_entity entities norm_entity = Ok (Some e).
End WithPython.

End EntityNormalizer.

(** ** Relation extractor ([relation_extractor.py]) *)

Module RelationExtractor.
Import ChunkLoader.

Record Relation := {
  subject : pystr;
  predicate : pystr;
  object : pystr;
  chunk_id : pystr;
  confidence : Q;
  context : pystr
}.

(** [self.relation_schema], in the order of the dictionary literal. *)
Definition relation_schema : list (pystr * pystr) :=
  [ (cp "is_a", cp "X is a type of Y");
    (cp "part_of", cp "X is part of Y");
    (cp "subclass_of", cp "X is a subclass of Y");
    (cp "uses", cp "X uses Y");
    (cp "implements", cp "X implements Y");
    (cp "optimizes", cp "X optimizes Y");
    (cp "applies_to", cp "X applies to Y");
    (cp "solves", cp "X solves Y");
    (cp "requires", cp "X requires Y");
    (cp "depends_on", cp "X depends on Y");
    (cp "based_on", cp "X is based on Y");
    (cp "extends", cp "X extends Y");
    (cp "outperforms", cp "X outperforms Y");
    (cp "compared_to", cp "X compared to Y");
    (cp "equivalent_to", cp "X is equivalent to Y");
    (cp "precedes", cp "X precedes Y");
    (cp "evolved_from", cp "X evolved from Y");
    (cp "trained_on", cp "X is trained on Y");
    (cp "evaluated_on", cp "X is evaluated on Y");
    (cp "measures", cp "X measures Y");
    (cp "predicts", cp "X predicts Y");
    (cp "created_by", cp "X was created by Y");
    (cp "proposed_by", cp "X was proposed by Y");
    (cp "developed_by", cp "X was developed by Y") ].

(** [self.relation_schema.keys()] *)
Definition schema_keys : list pystr := List.map fst relation_schema.

Definition nonempty (s : pystr) : bool :=
  match s with [] => false | _ => true end.

Section WithPython.
(** [str.lower] *)
Variable lower : pystr -> pystr.
(** The language model: what [_parse_relations_response] makes of the
    reply for a chunk text and its entities, or [None] when the call or
    the access to the reply raises. *)
Variable llm : pystr -> list pystr -> option pyval.

(** [x.lower() in e.lower() or e.lower() in x.lower()] *)
Definition fuzzy_match (x e : pystr) : bool :=
  str_in (lower x) (lower e) || str_in (lower e) (lower x).

(** [p.lower() == predicate.lower()] *)
Definition same_predicate (predicate p : pystr) : bool :=
  pystr_eqb (lower p) (lower predicate).

(** The body of the loop of [_filter_valid_relations]: [Ok None] when
    the relation is passed over, [Ok (Some d)] the dictionary appended
    to [valid_relations], [Raise] an exception the [except] swallows. *)
Definition validate_relation (entities : list pystr) (relation : pyval)
    : result (option pydict) :=
  try! d := as_dict relation in
  try! subject := get_stripped d (cp "subject") in
  try! predicate := get_stripped d (cp "predicate") in
  try! obj := get_stripped d (cp "object") in
  try! context := get_stripped d (cp "context") in
  if negb (nonempty subject && nonempty predicate && nonempty obj)
  then Ok None
  else
    let subject_valid := existsb (fuzzy_match subject) entities in
    let object_valid := existsb (fuzzy_match obj) entities in
    let predicate_valid :=
      str_mem (lower predicate) (List.map lower schema_keys) in
    if subject_valid && object_valid && predicate_valid
    then
      let subject_exact := first_or (fuzzy_match subject) entities subject in
      let object_exact := first_or (fuzzy_match obj) entities obj in
      let predicate_exact :=
        first_or (same_predicate predicate) schema_keys predicate in
      let d := dict_set (cp "subject") (PyStr subject_exact) d in
      let d := dict_set (cp "predicate") (PyStr predicate_exact) d in
      let d := dict_set (cp "object") (PyStr object_exact) d in
      let d := dict_set (cp "context")
                 (PyStr (if nonempty context then context
                         else cp "Extracted from text")) d in
      Ok (Some d)
    else Ok None.

(** The loop of [_filter_valid_relations] over the items. *)
Fixpoint filter_items (entities : list pystr) (items : list pyval)
    : list pydict :=
  match items with
  | [] => []
  | relation :: rest =>
      match validate_relation entities relation with
      | Ok (Some d) => d :: filter_items entities rest
      | _ => filter_items entities rest
      end
  end.

(** *** [_filter_valid_relations] *)
Definition _filter_valid_relations (relations : pyval)
    (entities : list pystr) : result (list pydict) :=
  try! items := py_iter relations in
  Ok (filter_items entities items).

(** [rel_data[k]] where the [Relation] dataclass wants a string. *)
Definition item_str (d : pydict) (k : pystr) : result pystr :=
  try! v := dict_item d k in
  match v with
  | PyStr s => Ok s
  | _ => Raise TypeError
  end.

(** [Relation(subject=rel_data['subject'], ...)] *)
Definition make_relation (chunk : TextChunk) (rel_data : pydict)
    : result Relation :=
  try! s := item_str rel_data (cp "subject") in
  try! p := item_str rel_data (cp "predicate") in
  try! o := item_str rel_data (cp "object") in
  try! c := item_str rel_data (cp "context") in
  Ok {| subject := s; predicate := p; object := o;
        chunk_id := ChunkLoader.chunk_id chunk; confidence := 1;
        context := c |}.

(** The conversion loop: an exception leaves the loop, and the function
    returns what was appended up to then. *)
Fixpoint convert (chunk : TextChunk) (valid_relations : list pydict)
    : list Relation :=
  match valid_relations with
  | [] => []
  | rel_data :: rest =>
      match make_relation chunk rel_data with
      | Ok r => r :: convert chunk rest
      | Raise _ => []
      end
  end.

(** *** [extract_relations_from_chunk] *)
Definition extract_relations_from_chunk (chunk : TextChunk)
    (entities_in_chunk : list pystr) : list Relation :=
  if (length entities_in_chunk <? 2)%nat then []
  else
    match llm (content chunk) entities_in_chunk with
    | None => []
    | Some raw_relations =>
        match _filter_valid_relations raw_relations entities_in_chunk with
        | Raise _ => []
        | Ok valid_relations => convert chunk valid_relations
        end
    end.
(** *** Vocabulary of the properties *)

(** What [validate_relation] accepts: the stripped fields of the
    candidate pass the three checks, and the dictionary it hands on
    holds the rewritten fields. *)
Record accepted (entities : list pystr) (relation : pyval) (d' : pydict)
    (s p o : pystr) : Prop := {
  acc_subject_valid : existsb (fuzzy_match s) entities = true;
  acc_object_valid : existsb (fuzzy_match o) entities = true;
  acc_predicate_valid :
    str_mem (lower p) (List.map lower schema_keys) = true;
  acc_subject :
    dict_get d' (cp "subject")
    = Some (PyStr (first_or (fuzzy_match s) entities s));
  acc_predicate :
    dict_get d' (cp "predicate")
    = Some (PyStr (first_or (same_predicate p) schema_keys p));
  acc_object :
    dict_get d' (cp "object")
    = Some (PyStr (first_or (fuzzy_match o) entities o));
  acc_context : exists c, dict_get d' (cp "context") = Some (PyStr c)
}.
End WithPython.

End RelationExtractor.

(** ** RDF graphs

    An [rdflib.Graph] over the default in-memory store is a set of
    triples: adding a triple that is present leaves the graph as it is. *)

#[global] Instance Q_eq_dec : EqDecision Q.
Proof. solve_decision. Defined.

#[global] Instance Q_countable : Countable Q :=
  inj_countable' (fun q => (Qnum q, Qden q)) (fun p => Qmake (fst p) (snd p))
    (fun q => match q with Qmake _ _ => eq_refl end).

Inductive node :=
| URIRef (iri : pystr)
| Literal (lexical : pystr)                (* Literal(s) *)
| LiteralInteger (z : Z)                   (* Literal(n, datatype=XSD.integer) *)
| LiteralFloat (q : Q).                    (* Literal(x, datatype=XSD.float) *)

#[global] Instance node_eq_dec : EqDecision node.
Proof. solve_decision. Defined.

#[global] Instance node_countable : Countable node :=
  inj_countable'
    (fun n => match n with
              | URIRef s => inl (inl s)
              | Literal s => inl (inr s)
              | LiteralInteger z => inr (inl z)
              | LiteralFloat q => inr (inr q)
              end)
    (fun x => match x with
              | inl (inl s) => URIRef s
              | inl (inr s) => Literal s
              | inr (inl z) => LiteralInteger z
              | inr (inr q) => LiteralFloat q
              end)
    (fun n => match n with
              | URIRef _ | Literal _ | LiteralInteger _ | LiteralFloat _ =>
                  eq_refl
              end).

Abbreviation triple := (node * node * node)%type.
Abbreviation rdf_graph := (gset triple).

(** [graph.add((s, p, o))] *)
Definition graph_add (t : triple) (g : rdf_graph) : rdf_graph := {[ t ]} ∪ g.

Definition subject_of (t : triple) : node := fst (fst t).

(** The namespaces of rdflib and of the project. *)
Definition RDF_NS : pystr := cp "http://www.w3.org/1999/02/22-rdf-syntax-ns#".
Definition RDFS_NS : pystr := cp "http://www.w3.org/2000/01/rdf-schema#".
Definition OWL_NS : pystr := cp "http://www.w3.org/2002/07/owl#".
Definition ML_NS : pystr := cp "http://ml-kg.org/ontology/".
Definition ENTITY_NS : pystr := cp "http://ml-kg.org/entity/".
Definition RELATION_NS : pystr := cp "http://ml-kg.org/relation/".

(** [ns[name]] and [ns.name] *)
Definition ns_term (ns name : pystr) : node := URIRef (ns ++ name).

Definition RDF_type : node := ns_term RDF_NS (cp "type").
Definition RDFS_label : node := ns_term RDFS_NS (cp "label").
Definition RDFS_comment : node := ns_term RDFS_NS (cp "comment").
Definition RDFS_subClassOf : node := ns_term RDFS_NS (cp "subClassOf").
Definition OWL_Class : node := ns_term OWL_NS (cp "Class").
Definition OWL_ObjectProperty : node := ns_term OWL_NS (cp "ObjectProperty").
Definition ML (name : string) : node := ns_term ML_NS (cp name).

(** ** Knowledge graph builder ([kg_builder.py]) *)

Module KnowledgeGraphBuilder.
Import RelationExtractor.

(** [self.graph] and the counters of [self.stats] the builder reads
    back. *)
Record builder := {
  graph : rdf_graph;
  entities_added : nat;
  relations_added : nat;
  relation_types : gmap pystr nat
}.

(** [KnowledgeGraphBuilder()] *)
Definition new_builder : builder :=
  {| graph := ∅; entities_added := 0; relations_added := 0;
     relation_types := ∅ |}.

Definition with_graph (g : rdf_graph) (b : builder) : builder :=
  {| graph := g; entities_added := entities_added b;
     relations_added := relations_added b;
     relation_types := relation_types b |}.

(** [re.sub(r'\s+', '_', s)]: every maximal run of whitespace becomes one
    underscore.  [in_run] tells that the previous character was
    whitespace. *)
Fixpoint sub_ws_runs (in_run : bool) (s : pystr) : pystr :=
  match s with
  | [] => []
  | c :: r =>
      if isspace c
      then if in_run then sub_ws_runs true r
           else underscore :: sub_ws_runs true r
      else c :: sub_ws_runs false r
  end.

(** [s.replace('_', ' ')] *)
Definition underscores_to_spaces (s : pystr) : pystr :=
  List.map (fun c => if c =? underscore then 32 else c) s.

Definition main_classes : list (pystr * pystr) :=
  [ (cp "Algorithm", cp "Machine Learning Algorithm");
    (cp "Concept", cp "Machine Learning Concept");
    (cp "Person", cp "Person or Researcher");
    (cp "Organization", cp "Organization or Institution");
    (cp "Software", cp "Software or Tool");
    (cp "Metric", cp "Evaluation Metric");
    (cp "Dataset", cp "Dataset or Data Source");
    (cp "Publication", cp "Academic Publication") ].

Definition main_properties : list (pystr * pystr) :=
  [ (cp "is_a", cp "is a type of");
    (cp "part_of", cp "is part of");
    (cp "uses", cp "uses or utilizes");
    (cp "implements", cp "implements");
    (cp "optimizes", cp "optimizes");
    (cp "measures", cp "measures or evaluates");
    (cp "created_by", cp "was created by");
    (cp "applies_to", cp "applies to") ].

Section WithUnicode.
(** [str.lower] *)
Variable lower : pystr -> pystr.
(** The class [\w] of [re] on [str] patterns. *)
Variable re_word : N -> bool.

(** [clean_name] of [_create_entity_uri]: the local name of the
    entity's URI. *)
Definition entity_local_name (entity_name : pystr) : pystr :=
  (* re.sub(r'[^\w\s-]', '', entity_name) *)
  let clean_name :=
    List.filter (fun c => re_word c || isspace c || (c =? hyphen))
      entity_name in
  let clean_name := sub_ws_runs false clean_name in
  strip_underscores (lower clean_name).

Definition _create_entity_uri (entity_name : pystr) : node :=
  ns_term ENTITY_NS (entity_local_name entity_name).

Definition _create_relation_uri (relation_name : pystr) : node :=
  ns_term RELATION_NS (lower relation_name).

(** [_add_relation_property]: returns the graph and the property. *)
Definition _add_relation_property (relation_type : pystr) (g : rdf_graph)
    : rdf_graph * node :=
  let property_uri := _create_relation_uri relation_type in
  if bool_decide ((property_uri, RDF_type, OWL_ObjectProperty) ∈ g)
  then (g, property_uri)
  else
    let g := graph_add (property_uri, RDF_type, OWL_ObjectProperty) g in
    let g := graph_add (property_uri, RDFS_label,
                        Literal (underscores_to_spaces relation_type)) g in
    (g, property_uri).

(** One round of the loop over [main_classes]. *)
Definition add_main_class (g : rdf_graph) (c : pystr * pystr) : rdf_graph :=
  let '(class_name, description) := c in
  let class_uri := ns_term ML_NS (lower class_name) in
  let g := graph_add (class_uri, RDF_type, OWL_Class) g in
  let g := graph_add (class_uri, RDFS_label, Literal class_name) g in
  let g := graph_add (class_uri, RDFS_comment, Literal description) g in
  graph_add (class_uri, RDFS_subClassOf, ML "Entity") g.

(** One round of the loop over [main_properties]. *)
Definition add_main_property (g : rdf_graph) (p : pystr * pystr)
    : rdf_graph :=
  let '(prop_name, description) := p in
  let prop_uri := _create_relation_uri prop_name in
  let g := graph_add (prop_uri, RDF_type, OWL_ObjectProperty) g in
  let g := graph_add (prop_uri, RDFS_label,
                      Literal (underscores_to_spaces prop_name)) g in
  graph_add (prop_uri, RDFS_comment, Literal description) g.

(** *** [add_ontology_schema] *)
Definition add_ontology_schema (b : builder) : builder :=
  let g := graph b in
  let g := graph_add (ML "Entity", RDF_type, OWL_Class) g in
  let g := graph_add (ML "Entity", RDFS_label,
                      Literal (cp "Machine Learning Entity")) g in
  let g := fold_left add_main_class main_classes g in
  let g := fold_left add_main_property main_properties g in
  with_graph g b.

(** The node [self.ENTITY[f"rel_{n}"]] that carries the metadata of the
    [n]-th relation. *)
Definition relation_instance_uri (n : nat) : node :=
  ns_term ENTITY_NS (cp "rel_" ++ str_of_nat n).

(** One round of the loop of [add_relations]. *)
Definition add_relation (b : builder) (relation : Relation) : builder :=
  let subject_uri := _create_entity_uri (subject relation) in
  let object_uri := _create_entity_uri (object relation) in
  let '(g, predicate_uri) :=
    _add_relation_property (predicate relation) (graph b) in
  let g := graph_add (subject_uri, predicate_uri, object_uri) g in
  let relation_instance_uri :=
    relation_instance_uri (relations_added b) in
  let g := graph_add (relation_instance_uri, RDF_type, ML "Relation") g in
  let g := graph_add (relation_instance_uri, ML "subject", subject_uri) g in
  let g := graph_add (relation_instance_uri, ML "predicate",
                      predicate_uri) g in
  let g := graph_add (relation_instance_uri, ML "object", object_uri) g in
  let g := graph_add (relation_instance_uri, ML "context",
                      Literal (context relation)) g in
  let g := graph_add (relation_instance_uri, ML "sourceChunk",
                      Literal (chunk_id relation)) g in
  let g := graph_add (relation_instance_uri, ML "confidence",
                      LiteralFloat (confidence relation)) g in
  {| graph := g;
     entities_added := entities_added b;
     relations_added := S (relations_added b);
     relation_types :=
       <[ predicate relation :=
            S (default 0%nat (relation_types b !! predicate relation)) ]>
         (relation_types b) |}.

(** *** [add_relations] *)
Definition add_relations (b : builder) (relations : list Relation)
    : builder :=
  fold_left add_relation relations b.
(** *** Vocabulary of the properties *)

(** The triples [add_ontology_schema] declares. *)
Definition schema_triples : rdf_graph :=
  graph (add_ontology_schema new_builder).

(** The nodes [entity:rel_<n>] minted for a list of [len] relations by a
    builder whose counter stands at [start]. *)
Definition relation_nodes (start len : nat) : list node :=
  List.map relation_instance_uri (List.seq start len).
End WithUnicode.

End KnowledgeGraphBuilder.

(** ** Graph executor ([kg_executor.py]) *)

Module KGExecutor.

(** The solutions of [?entity ?p ?o . FILTER(STRSTARTS(STR(?entity),
    STR(entity:)))], projected on [?entity] and made distinct. *)
Definition in_entity_namespace (n : node) : bool :=
  match n with
  | URIRef iri => is_prefix ENTITY_NS iri
  | _ => false
  end.

Definition entity_subjects (g : rdf_graph) : gset node :=
  filter (fun n => in_entity_namespace n = true)
    (set_map subject_of g : gset node).

(** [get_stats()['total_entities']].  [execute_sparql] keeps a binding
    only when it is truthy, and the literal 0 is not: with no subject in
    the entity namespace the row has no [count] key and reading it
    raises. *)
Definition total_entities (g : rdf_graph) : result nat :=
  let count := size (entity_subjects g) in
  match count with
  | O => Raise KeyError
  | _ => Ok count
  end.

(** [get_stats()['total_triples']] *)
Definition total_triples (g : rdf_graph) : nat := size g.

End KGExecutor.

(** ** Query processor ([query_processor.py]) *)

Module QueryProcessor.

Inductive QueryType :=
| WHAT_IS | WHAT_USES | WHAT_IS_TYPE_OF | WHO_CREATED
| HOW_RELATED | LIST_BY_TYPE | FIND_SIMILAR.

Record QueryIntent := {
  query_type : QueryType;
  entities : list pystr;
  confidence : Q;
  raw_question : pystr
}.

(** *** [_setup_patterns] *)

(* (?:o que é|what is|define|definição de|conceito de)\s+([a-zA-Z_\s]+)
   ([a-zA-Z_\s]+)\s+(?:é o que|é|significa o que)
   (?:explique|explain)\s+([a-zA-Z_\s]+) *)
Definition what_is_patterns : list regex :=
  [ seq [alt [lit (cp "o que " ++ [e_acute]); L "what is"; L "define";
              lit (cp "defini" ++ [c_cedil; a_tilde] ++ cp "o de");
              L "conceito de"];
         ws1; ent 1];
    seq [ent 1; ws1;
         alt [lit ([e_acute] ++ cp " o que"); lit [e_acute];
              L "significa o que"]];
    seq [alt [L "explique"; L "explain"]; ws1; ent 1] ].

(* (?:o que usa|what uses|quais?.*usam?|algoritmos? que usam?)\s+([a-zA-Z_\s]+)
   (?:quais?|what).*(?:implementam?|implement)\s+([a-zA-Z_\s]+)
   (?:find|encontre).*(?:que usa|that uses?)\s+([a-zA-Z_\s]+) *)
Definition what_uses_patterns : list regex :=
  [ seq [alt [L "o que usa"; L "what uses";
              seq [L "quai"; opt "s"; dot_star; L "usa"; opt "m"];
              seq [L "algoritmo"; opt "s"; L " que usa"; opt "m"]];
         ws1; ent 1];
    seq [alt [seq [L "quai"; opt "s"]; L "what"]; dot_star;
         alt [seq [L "implementa"; opt "m"]; L "implement"];
         ws1; ent 1];
    seq [alt [L "find"; L "encontre"]; dot_star;
         alt [L "que usa"; seq [L "that use"; opt "s"]];
         ws1; ent 1] ].

(* ([a-zA-Z_\s]+)\s+(?:é um tipo de que|is a type of what|é uma subclasse de)
   (?:que tipo de|what type of).*(?:é|is)\s+([a-zA-Z_\s]+)
   ([a-zA-Z_\s]+)\s+(?:extends|estende|herda de) *)
Definition type_of_patterns : list regex :=
  [ seq [ent 1; ws1;
         alt [lit ([e_acute] ++ cp " um tipo de que"); L "is a type of what";
              lit ([e_acute] ++ cp " uma subclasse de")]];
    seq [alt [L "que tipo de"; L "what type of"]; dot_star;
         alt [lit [e_acute]; L "is"]; ws1; ent 1];
    seq [ent 1; ws1; alt [L "extends"; L "estende"; L "herda de"]] ].

(* (?:quem criou|who created|quem desenvolveu|who developed)\s+([a-zA-Z_\s]+)
   (?:autor de|author of|creator of)\s+([a-zA-Z_\s]+)
   ([a-zA-Z_\s]+)\s+(?:foi criado por|was created by|foi desenvolvido por) *)
Definition who_created_patterns : list regex :=
  [ seq [alt [L "quem criou"; L "who created"; L "quem desenvolveu";
              L "who developed"];
         ws1; ent 1];
    seq [alt [L "autor de"; L "author of"; L "creator of"]; ws1; ent 1];
    seq [ent 1; ws1;
         alt [L "foi criado por"; L "was created by";
              L "foi desenvolvido por"]] ].

(* (?:como|how)\s+([a-zA-Z_\s]+)\s+(?:está relacionado com|is related to|se relaciona com)\s+([a-zA-Z_\s]+)
   (?:relação entre|relationship between)\s+([a-zA-Z_\s]+)\s+(?:e|and)\s+([a-zA-Z_\s]+) *)
Definition how_related_patterns : list regex :=
  [ seq [alt [L "como"; L "how"]; ws1; ent 1; ws1;
         alt [lit (cp "est" ++ [a_acute] ++ cp " relacionado com");
              L "is related to"; L "se relaciona com"];
         ws1; ent 2];
    seq [alt [lit (cp "rela" ++ [c_cedil; a_tilde] ++ cp "o entre");
              L "relationship between"];
         ws1; ent 1; ws1; alt [L "e"; L "and"]; ws1; ent 2] ].

(* (algoritmos?|algorithms?|conceitos?|concepts?|métricas?|metrics?) *)
Definition type_word (i : nat) : regex :=
  Grp i (alt [seq [L "algoritmo"; opt "s"]; seq [L "algorithm"; opt "s"];
              seq [L "conceito"; opt "s"]; seq [L "concept"; opt "s"];
              seq [lit (cp "m" ++ [e_acute] ++ cp "trica"); opt "s"];
              seq [L "metric"; opt "s"]]).

(* (?:liste|list|quais são|what are).*?(algoritmos?|...|metrics?)
   (?:todos os|all|all the)\s+(algoritmos?|...|metrics?)
   (?:show|mostre).*?(algoritmos?|...|metrics?) *)
Definition list_by_type_patterns : list regex :=
  [ seq [alt [L "liste"; L "list";
              lit (cp "quais s" ++ [a_tilde] ++ cp "o"); L "what are"];
         dot_lazy; type_word 1];
    seq [alt [L "todos os"; L "all"; L "all the"]; ws1; type_word 1];
    seq [alt [L "show"; L "mostre"]; dot_lazy; type_word 1] ].

(* (?:encontre|find|busque).*(?:similar|parecido|semelhante).*(?:a|to|with)\s+([a-zA-Z_\s]+)
   (?:conceitos?|algorithms?).*(?:similar|parecido|semelhante).*(?:a|to)\s+([a-zA-Z_\s]+) *)
Definition find_similar_patterns : list regex :=
  [ seq [alt [L "encontre"; L "find"; L "busque"]; dot_star;
         alt [L "similar"; L "parecido"; L "semelhante"]; dot_star;
         alt [L "a"; L "to"; L "with"]; ws1; ent 1];
    seq [alt [seq [L "conceito"; opt "s"]; seq [L "algorithm"; opt "s"]];
         dot_star;
         alt [L "similar"; L "parecido"; L "semelhante"]; dot_star;
         alt [L "a"; L "to"]; ws1; ent 1] ].

Definition stop_words : list pystr :=
  List.map cp ["o"; "a"; "os"; "as"; "de"; "da"; "do"; "das"; "dos";
               "the"; "of"; "for"]%string.

(** [re.sub(r'[^a-z0-9_]', '', s)] *)
Definition keep_token_chars (s : pystr) : pystr :=
  List.filter (fun c => is_ascii_lower c || is_ascii_digit c
                        || (c =? underscore)) s.

Definition type_mapping : list (pystr * pystr) :=
  [ (cp "algoritmos", cp "algorithm");
    (cp "algoritmo", cp "algorithm");
    (cp "algorithms", cp "algorithm");
    (cp "algorithm", cp "algorithm");
    (cp "conceitos", cp "concept");
    (cp "conceito", cp "concept");
    (cp "concepts", cp "concept");
    (cp "concept", cp "concept");
    (cp "m" ++ [e_acute] ++ cp "tricas", cp "metric");
    (cp "m" ++ [e_acute] ++ cp "trica", cp "metric");
    (cp "metrics", cp "metric");
    (cp "metric", cp "metric") ].

(** [d.get(k, default)] on a dictionary with string keys and values. *)
Fixpoint mapping_get (d : list (pystr * pystr)) (k default : pystr) : pystr :=
  match d with
  | [] => default
  | (k', v) :: d' => if pystr_eqb k k' then v else mapping_get d' k default
  end.

(** [m.group(i)] followed by a method call: an absent group is [None],
    and the call raises. *)
Definition group_str (i : nat) (m : captures) : result pystr :=
  match group i m with
  | Some s => Ok s
  | None => Raise AttributeError
  end.

Section WithLower.
(** [str.lower] *)
Variable lower : pystr -> pystr.

(** *** [_normalize_entity_name] *)
Definition _normalize_entity_name (entity : pystr) : pystr :=
  let words := split_ws (lower entity) in
  let filtered_words :=
    List.filter (fun word => negb (str_mem word stop_words)) words in
  let normalized := join [underscore] filtered_words in
  keep_token_chars normalized.

(** No word of the name is a stop-word. *)
Definition no_stop_word (name : pystr) : bool :=
  forallb (fun word => negb (str_mem word stop_words))
    (split_ws (lower name)).

(** *** The entity extractors *)
Definition _extract_single_entity (m : captures) : result (list pystr) :=
  try! g1 := group_str 1 m in
  Ok [_normalize_entity_name (strip g1)].

Definition _extract_two_entities (m : captures) : result (list pystr) :=
  try! g1 := group_str 1 m in
  try! g2 := group_str 2 m in
  Ok [_normalize_entity_name (strip g1); _normalize_entity_name (strip g2)].

Definition _extract_type_entity (m : captures) : result (list pystr) :=
  try! g1 := group_str 1 m in
  let entity_type := strip g1 in
  Ok [mapping_get type_mapping (lower entity_type) entity_type].

Definition intent_checks
  : list (list regex * QueryType * (captures -> result (list pystr))) :=
  [ (what_is_patterns, WHAT_IS, _extract_single_entity);
    (what_uses_patterns, WHAT_USES, _extract_single_entity);
    (type_of_patterns, WHAT_IS_TYPE_OF, _extract_single_entity);
    (who_created_patterns, WHO_CREATED, _extract_single_entity);
    (how_related_patterns, HOW_RELATED, _extract_two_entities);
    (list_by_type_patterns, LIST_BY_TYPE, _extract_type_entity);
    (find_similar_patterns, FIND_SIMILAR, _extract_single_entity) ].

(** The inner loop, [for pattern in patterns]: [None] when the loop ends
    without a [return]. *)
Fixpoint try_patterns (question : pystr) (patterns : list regex)
    (qt : QueryType) (extractor : captures -> result (list pystr))
    : option (result QueryIntent) :=
  match patterns with
  | [] => None
  | pattern :: rest =>
      match re_search pattern question with
      | Some m =>
          match extractor m with
          | Raise e => Some (Raise e)
          | Ok [] => try_patterns question rest qt extractor
          | Ok ents =>
              Some (Ok {| query_type := qt; entities := ents;
                          confidence := 8 # 10;
                          raw_question := question |})
          end
      | None => try_patterns question rest qt extractor
      end
  end.

(** The outer loop, [for patterns, query_type, entity_extractor in
    intent_checks]. *)
Fixpoint try_checks (question : pystr)
    (checks : list (list regex * QueryType
                    * (captures -> result (list pystr))))
    : option (result QueryIntent) :=
  match checks with
  | [] => None
  | (patterns, qt, extractor) :: rest =>
      match try_patterns question patterns qt extractor with
      | Some r => Some r
      | None => try_checks question rest
      end
  end.

(** [l[-1]] *)
Definition last_item (l : list pystr) : result pystr :=
  match rev l with
  | [] => Raise IndexError
  | x :: _ => Ok x
  end.

(** *** [process_question] *)
Definition process_question (question : pystr) : result QueryIntent :=
  let question := strip (lower question) in
  match try_checks question intent_checks with
  | Some r => r
  | None =>
      try! w := last_item (split_ws question) in
      Ok {| query_type := WHAT_IS; entities := [w];
            confidence := 3 # 10; raw_question := question |}
  end.
(** The fallback branch of [process_question], reached when the two
    loops end without a [return]. *)
Definition fallback_path (q : pystr) : Prop :=
  try_checks (strip (lower q)) intent_checks = None.
End WithLower.

(** The question of the fourth end-to-end scenario. *)
Definition svm_question : pystr := cp "Quem criou Support Vector Machine?".

End QueryProcessor.

(** * Worked examples

    The replies of the language model are fixed by hand; [str.lower] and
    [\w] are taken at their ASCII values, which is what they are on the
    ASCII texts below; the iteration order of a set is taken to be the
    order of first occurrence. *)

Module Examples.
Import EntityExtractor ChunkLoader.

Definition candidate (t : string) (chunk : string) : EntityCandidate :=
  {| text := cp t; label := cp "ML_TERM"; start_char := 0; end_char := 0;
     EntityExtractor.chunk_id := cp chunk; source := cp "custom_pattern";
     EntityExtractor.confidence := 1 |}.

Definition str_list (l : list string) : pyval :=
  PyList (List.map (fun s => PyStr (cp s)) l).

(** One record of a normalisation reply. *)
Definition entity_record (name type : string) (aliases : list string)
    : pyval :=
  PyDict [ (cp "canonical_name", PyStr (cp name));
           (cp "type", PyStr (cp type));
           (cp "aliases", str_list aliases) ].

(** One record of a relation reply. *)
Definition relation_record (s p o c : string) : pyval :=
  PyDict [ (cp "subject", PyStr (cp s)); (cp "predicate", PyStr (cp p));
           (cp "object", PyStr (cp o)); (cp "context", PyStr (cp c)) ].

(** Three mentions of a support vector machine. *)
Definition svm_candidates : list EntityCandidate :=
  [ candidate "SVM" "c1"; candidate "Support Vector Machine " "c1";
    candidate "svm" "c2" ].

Definition svm_llm (i : nat) (batch : list pystr) : option pyval :=
  Some (PyList [entity_record "Support Vector Machine" "ALGORITHM" ["SVM"]%string]).

(** A mention the model renames: no candidate reads like the canonical
    name or like the alias of the reply. *)
Definition svms_candidates : list EntityCandidate :=
  [ candidate "SVMs" "c1" ].

(** Twenty-one distinct mentions, hence two batches. *)
Definition many_candidates : list EntityCandidate :=
  List.map (fun n => {| text := cp "term" ++ str_of_nat n;
                        label := cp "ML_TERM"; start_char := 0; end_char := 0;
                        EntityExtractor.chunk_id := cp "c1";
                        source := cp "custom_pattern";
                        EntityExtractor.confidence := 1 |})
    (List.seq 0 21).

Definition gd_first : pyval :=
  entity_record "Gradient Descent" "ALGORITHM" ["GD"]%string.
Definition gd_second : pyval :=
  entity_record "Gradient Descent" "CONCEPT" ["steepest descent"]%string.

Definition gd_llm (i : nat) (batch : list pystr) : option pyval :=
  match i with
  | O => Some (PyList [gd_first])
  | _ => Some (PyList [gd_second])
  end.

Definition nn_chunk : TextChunk :=
  {| ChunkLoader.chunk_id := cp "book_0001";
     content := cp "Neural networks are trained using gradient descent.";
     source_book := cp "book"; chunk_number := 1; word_count := 7 |}.

Definition nn_entities : list pystr :=
  [cp "Neural Network"; cp "Gradient Descent"].

Definition nn_llm (text : pystr) (entities : list pystr) : option pyval :=
  Some (PyList
          [ relation_record "neural networks" "USES" " gradient descent"
              "Neural networks are trained using gradient descent.";
            relation_record "Deep Belief Network" "uses" "Neural Network"
              EmptyString ]).

Definition nn_relation : RelationExtractor.Relation :=
  {| RelationExtractor.subject := cp "Neural Network";
     RelationExtractor.predicate := cp "uses";
     RelationExtractor.object := cp "Gradient Descent";
     RelationExtractor.chunk_id := cp "book_0001";
     RelationExtractor.confidence := 1;
     RelationExtractor.context :=
       cp "Neural networks are trained using gradient descent." |}.

Definition part_relation : RelationExtractor.Relation :=
  {| RelationExtractor.subject := cp "Gradient Descent";
     RelationExtractor.predicate := cp "part_of";
     RelationExtractor.object := cp "Neural Network";
     RelationExtractor.chunk_id := cp "book_0002";
     RelationExtractor.confidence := 1;
     RelationExtractor.context := cp "Extracted from text" |}.
(** The entity [normalize_entities] builds for [svm_candidates]. *)
Definition svm_entity : EntityNormalizer.NormalizedEntity :=
  {| EntityNormalizer.canonical_name := cp "Support Vector Machine";
     EntityNormalizer.entity_type := PyStr (cp "ALGORITHM");
     EntityNormalizer.aliases := [PyStr (cp "SVM")];
     EntityNormalizer.frequency := 3;
     EntityNormalizer.confidence := 1;
     EntityNormalizer.source_chunks := [cp "c1"; cp "c2"];
     EntityNormalizer.original_labels := [cp "ML_TERM"] |}.

(** The entity it builds for [svms_candidates]: nothing is counted. *)
Definition svms_entity : EntityNormalizer.NormalizedEntity :=
  {| EntityNormalizer.canonical_name := cp "Support Vector Machine";
     EntityNormalizer.entity_type := PyStr (cp "ALGORITHM");
     EntityNormalizer.aliases := [PyStr (cp "SVM")];
     EntityNormalizer.frequency := 0;
     EntityNormalizer.confidence := 1;
     EntityNormalizer.source_chunks := [];
     EntityNormalizer.original_labels := [] |}.

(** The entities built from the two replies of [gd_llm]. *)
Definition gd_entity_first : EntityNormalizer.NormalizedEntity :=
  {| EntityNormalizer.canonical_name := cp "Gradient Descent";
     EntityNormalizer.entity_type := PyStr (cp "ALGORITHM");
     EntityNormalizer.aliases := [PyStr (cp "GD")];
     EntityNormalizer.frequency := 0;
     EntityNormalizer.confidence := 1;
     EntityNormalizer.source_chunks := [];
     EntityNormalizer.original_labels := [] |}.

Definition gd_entity_second : EntityNormalizer.NormalizedEntity :=
  {| EntityNormalizer.canonical_name := cp "Gradient Descent";
     EntityNormalizer.entity_type := PyStr (cp "CONCEPT");
     EntityNormalizer.aliases := [PyStr (cp "steepest descent")];
     EntityNormalizer.frequency := 0;
     EntityNormalizer.confidence := 1;
     EntityNormalizer.source_chunks := [];
     EntityNormalizer.original_labels := [] |}.

(** The two batches of [many_candidates]. *)
Definition first_batch : list pystr :=
  List.map (fun n => cp "term" ++ str_of_nat n) (List.seq 0 20).
Definition second_batch : list pystr := [cp "term20"].
End Examples.

(** ** Capturing groups of a pattern *)

(** Every match of [r] fills group [i]: the group lies on every path
    through the pattern. *)
Fixpoint sets_group (i : nat) (r : regex) : bool :=
  match r with
  | Empty => false
  | Chars _ _ => false
  | Seq r1 r2 => sets_group i r1 || sets_group i r2
  | Alt r1 r2 => sets_group i r1 && sets_group i r2
  | Grp j r1 => Nat.eqb i j || sets_group i r1
  end.

(** [[a-z0-9_]*]: the alphabet of a normalised entity name. *)
Definition is_token (s : pystr) : bool :=
  forallb (fun c => is_ascii_lower c || is_ascii_digit c || (c =? underscore))
    s.

Module QueryShape.
Import QueryProcessor.

(** The patterns of [_setup_patterns], in the order [process_question]
    tries them. *)
Definition all_patterns : list regex :=
  what_is_patterns ++ what_uses_patterns ++ type_of_patterns
  ++ who_created_patterns ++ how_related_patterns
  ++ list_by_type_patterns ++ find_similar_patterns.

(** The number of entities [generate_sparql_query] reads for a query
    type. *)
Definition arity (qt : QueryType) : nat :=
  match qt with
  | HOW_RELATED => 2
  | _ => 1
  end.

(** An intent as the pattern branch of [process_question] builds it. *)
Definition pattern_intent (question : pystr) (intent : QueryIntent) : Prop :=
  raw_question intent = question
  /\ confidence intent = 8 # 10
  /\ length (entities intent) = arity (query_type intent)
  /\ (query_type intent <> LIST_BY_TYPE ->
      forallb is_token (entities intent) = true).

(** What one round of the outer loop returns. *)
Definition round_ok (question : pystr) (qt : QueryType)
    (r : option (result QueryIntent)) (patterns : list regex) : Prop :=
  match r with
  | None => Forall (fun p => re_search p question = None) patterns
  | Some (Ok intent) =>
      pattern_intent question intent /\ query_type intent = qt
      /\ Exists (fun p => re_search p question <> None) patterns
  | Some (Raise _) => False
  end.

(** A round of [intent_checks] whose extractor succeeds on the groups
    its patterns fill. *)
Definition good_check
    (c : list regex * QueryType * (captures -> result (list pystr))) : Prop :=
  let '(patterns, qt, extractor) := c in
  (forall m, Forall (fun i => is_Some (group i m)) (List.seq 1 (arity qt)) ->
     exists ents, extractor m = Ok ents
       /\ length ents = arity qt
       /\ (qt <> LIST_BY_TYPE -> forallb is_token ents = true))
  /\ Forall (fun p => Forall (fun i => sets_group i p = true)
                        (List.seq 1 (arity qt))) patterns.
End QueryShape.

(** ** Query templates ([query_templates.py]) *)

Module QueryTemplates.
Import QueryProcessor.

(** A text given line by line, each line as the pieces an f-string puts
    together. *)
Definition text (lines : list (list pystr)) : pystr :=
  join [10] (List.map (@concat N) lines).

(** [QueryTemplates.PREFIXES] *)
Definition PREFIXES : pystr :=
  text
    [ [cp EmptyString];
      [cp "        PREFIX ml: <http://ml-kg.org/ontology/>"];
      [cp "        PREFIX entity: <http://ml-kg.org/entity/>"];
      [cp "        PREFIX relation: <http://ml-kg.org/relation/>"];
      [cp "        PREFIX rdfs: <http://www.w3.org/2000/01/rdf-schema#>"];
      [cp "        PREFIX rdf: <http://www.w3.org/1999/02/22-rdf-syntax-ns#>"];
      [cp "    "] ].

(** [get_prefixes()] *)
Definition get_prefixes : pystr := strip PREFIXES.

Definition what_is_entity (entity_name : pystr) : pystr :=
  text
    [ [cp EmptyString];
      [cp "        "; get_prefixes];
      [cp "        "];
      [cp "        SELECT ?type ?label ?property ?value WHERE {"];
      [cp "            entity:"; entity_name; cp " rdf:type ?type ."];
      [cp "            OPTIONAL { entity:"; entity_name; cp " rdfs:label ?label . }"];
      [cp "            OPTIONAL { entity:"; entity_name; cp " ?property ?value . }"];
      [cp "        }"];
      [cp "        "] ].

Definition what_uses_entity (entity_name : pystr) : pystr :=
  text
    [ [cp EmptyString];
      [cp "        "; get_prefixes];
      [cp "        "];
      [cp "        SELECT ?user ?userLabel ?userType ?relation WHERE {"];
      [cp "            ?user ?relation entity:"; entity_name; cp " ."];
      [cp "            ?user rdf:type ?userType ."];
      [cp "            ?user rdfs:label ?userLabel ."];
      [cp "            "];
      [cp "            FILTER(?relation IN (relation:uses, relation:implements, relation:applies_to))"];
      [cp "        }"];
      [cp "        ORDER BY ?userType ?userLabel"];
      [cp "        "] ].

Definition what_is_type_of (entity_name : pystr) : pystr :=
  text
    [ [cp EmptyString];
      [cp "        "; get_prefixes];
      [cp "        "];
      [cp "        SELECT ?parent ?parentLabel WHERE {"];
      [cp "            entity:"; entity_name; cp " relation:is_a ?parent ."];
      [cp "            OPTIONAL { ?parent rdfs:label ?parentLabel . }"];
      [cp "        }"];
      [cp "        "] ].

Definition who_created_entity (entity_name : pystr) : pystr :=
  text
    [ [cp EmptyString];
      [cp "        "; get_prefixes];
      [cp "        "];
      [cp "        SELECT ?creator ?creatorLabel WHERE {"];
      [cp "            { "];
      [cp "                entity:"; entity_name; cp " relation:developed_by ?creator ."];
      [cp "                OPTIONAL { ?creator rdfs:label ?creatorLabel . }"];
      [cp "            }"];
      [cp "            UNION"];
      [cp "            {"];
      [cp "                entity:"; entity_name; cp " relation:proposed_by ?creator ."];
      [cp "                OPTIONAL { ?creator rdfs:label ?creatorLabel . }"];
      [cp "            }"];
      [cp "        }"];
      [cp "        "] ].

Definition how_entities_related (entity1 : pystr) (entity2 : pystr) : pystr :=
  text
    [ [cp EmptyString];
      [cp "        "; get_prefixes];
      [cp "        "];
      [cp "        SELECT ?relation WHERE {"];
      [cp "            { entity:"; entity1; cp " ?relation entity:"; entity2; cp " . }"];
      [cp "            UNION"];
      [cp "            { entity:"; entity2; cp " ?relation entity:"; entity1; cp " . }"];
      [cp "        }"];
      [cp "        "] ].

Definition list_entities_by_type (entity_type : pystr) (limit : nat) : pystr :=
  text
    [ [cp EmptyString];
      [cp "        "; get_prefixes];
      [cp "        "];
      [cp "        SELECT ?entity ?label WHERE {"];
      [cp "            ?entity rdf:type ml:"; entity_type; cp " ."];
      [cp "            ?entity rdfs:label ?label ."];
      [cp "        }"];
      [cp "        ORDER BY ?label"];
      [cp "        LIMIT "; str_of_nat limit];
      [cp "        "] ].

Definition find_similar_entities (entity_name : pystr) (limit : nat) : pystr :=
  text
    [ [cp EmptyString];
      [cp "        "; get_prefixes];
      [cp "        "];
      [cp "        SELECT ?similar ?similarLabel ?commonType WHERE {"];
      [cp "            entity:"; entity_name; cp " rdf:type ?commonType ."];
      [cp "            ?similar rdf:type ?commonType ."];
      [cp "            ?similar rdfs:label ?similarLabel ."];
      [cp "            "];
      [cp "            FILTER(?similar != entity:"; entity_name; cp ")"];
      [cp "        }"];
      [cp "        ORDER BY ?similarLabel"];
      [cp "        LIMIT "; str_of_nat limit];
      [cp "        "] ].

End QueryTemplates.

(** ** Query generation ([QueryProcessor.generate_sparql_query]) *)

Module QueryGeneration.
Import QueryProcessor QueryTemplates.

(** What the generation raises: the [ValueError] of its own, or what
    the code it calls raises. *)
Inductive raised :=
| ValueError
| Builtin (e : pyexc).

Inductive outcome (A : Type) :=
| Returned (a : A)
| Raised (e : raised).
Arguments Returned {A} a.
Arguments Raised {A} e.

(** [intent.entities[0]] *)
Definition first_entity (intent : QueryIntent) : outcome pystr :=
  match entities intent with
  | e :: _ => Returned e
  | [] => Raised (Builtin IndexError)
  end.

(** *** [generate_sparql_query]

    [QUERY_TYPE_MAPPING] has an entry for each of the seven query types,
    so [template_func] is never [None]; each branch calls the template the
    mapping gives for its type.  [find_similar_entities] is called
    without [limit] and takes its default, 10. *)
Definition generate_sparql_query (intent : QueryIntent) : outcome pystr :=
  match query_type intent with
  | HOW_RELATED =>
      match entities intent with
      | e1 :: e2 :: _ => Returned (how_entities_related e1 e2)
      | _ => Raised ValueError
      end
  | LIST_BY_TYPE =>
      match first_entity intent with
      | Returned e => Returned (list_entities_by_type e 15)
      | Raised x => Raised x
      end
  | qt =>
      match first_entity intent with
      | Returned e =>
          Returned (match qt with
                    | WHAT_IS => what_is_entity e
                    | WHAT_USES => what_uses_entity e
                    | WHAT_IS_TYPE_OF => what_is_type_of e
                    | WHO_CREATED => who_created_entity e
                    | _ => find_similar_entities e 10
                    end)
      | Raised x => Raised x
      end
  end.

Section WithLower.
Variable lower : pystr -> pystr.

(** *** [process_and_generate] *)
Definition process_and_generate (question : pystr)
    : outcome (QueryIntent * pystr) :=
  match process_question lower question with
  | Raise e => Raised (Builtin e)
  | Ok intent =>
      match generate_sparql_query intent with
      | Returned sparql_query => Returned (intent, sparql_query)
      | Raised e => Raised e
      end
  end.
End WithLower.
End QueryGeneration.

Module NormalizerShape.
Import EntityExtractor EntityNormalizer.

(** The number written against [k] in a counter, 0 when [k] is absent. *)
Fixpoint counter_get (c : list (pystr * nat)) (k : pystr) : nat :=
  match c with
  | [] => 0
  | (k', n) :: c' => if pystr_eqb k k' then n else counter_get c' k
  end.

(** The stripped texts of the candidates, in order. *)
Definition texts (entities : list EntityCandidate) : list pystr :=
  List.map (fun e => strip (text e)) entities.

(** The number of candidates whose stripped text is [t]. *)
Definition text_count (entities : list EntityCandidate) (t : pystr) : nat :=
  length (List.filter (fun x => pystr_eqb t x) (texts entities)).

(** The test of [_group_similar_entities]: two occurrences or more, or
    more than three characters. *)
Definition worth_normalizing (entities : list EntityCandidate) (t : pystr)
    : Prop :=
  In t (texts entities)
  /\ ((2 <= text_count entities t)%nat \/ (3 < length t)%nat).

Definition is_str (v : pyval) : bool :=
  match v with PyStr _ => true | _ => false end.

Section WithPython.
Variable lower : pystr -> pystr.
Variable llm : nat -> list pystr -> option pyval.

(** The records of all the batches, in the order the loops visit them. *)
Definition all_records (entities : list EntityCandidate) : list pyval :=
  concat (List.map (batch_items llm)
            (enumerate (_group_similar_entities entities 20))).

(** [sum(occurrences of alias for alias in names)], for names that are
    strings. *)
Fixpoint occurrences_sum (entities : list EntityCandidate)
    (names : list pyval) : nat :=
  match names with
  | [] => 0
  | PyStr a :: rest =>
      (occurrences lower entities a + occurrences_sum entities rest)%nat
  | _ :: rest => occurrences_sum entities rest
  end.
End WithPython.

(** The entries of a counter: distinct keys, each with a count of 1 or
    more. *)
Definition counter_ok (c : list (pystr * nat)) : Prop :=
  List.NoDup (List.map fst c)
  /\ forall k, In k (List.map fst c) <-> (1 <= counter_get c k)%nat.
End NormalizerShape.

(** ** From entities to the relations of all chunks
      ([relation_extractor.py]) *)

Module RelationPipeline.
Import EntityNormalizer ChunkLoader RelationExtractor.

(** A dictionary from strings to lists of strings, as the list of its
    items in insertion order. *)
Abbreviation multimap := (list (pystr * list pystr)).

(** [d.get(k, [])] *)
Fixpoint multimap_get (d : multimap) (k : pystr) : list pystr :=
  match d with
  | [] => []
  | (k', vs) :: d' => if pystr_eqb k k' then vs else multimap_get d' k
  end.

(** [d[k].append(v)] on a [defaultdict(list)] *)
Fixpoint multimap_append (k v : pystr) (d : multimap) : multimap :=
  match d with
  | [] => [(k, [v])]
  | (k', vs) :: d' =>
      if pystr_eqb k k' then (k', vs ++ [v]) :: d'
      else (k', vs) :: multimap_append k v d'
  end.

(** The two loops of [map_entities_to_chunks], before the filter. *)
Definition chunks_of_entities
    (normalized_entities : list (pystr * NormalizedEntity)) : multimap :=
  fold_left
    (fun d item =>
       fold_left (fun d chunk_id => multimap_append chunk_id (fst item) d)
         (source_chunks (snd item)) d)
    normalized_entities [].

(** *** [map_entities_to_chunks]; the dictionary of entities is given as
    the list of its items. *)
Definition map_entities_to_chunks
    (normalized_entities : list (pystr * NormalizedEntity)) : multimap :=
  List.filter (fun kv => (2 <=? length (snd kv))%nat)
    (chunks_of_entities normalized_entities).

(** [{chunk.chunk_id: chunk for chunk in chunks}.get(chunk_id)]: the last
    chunk of the list with that identifier. *)
Fixpoint chunks_dict_get (chunks : list TextChunk) (chunk_id : pystr)
    : option TextChunk :=
  match chunks with
  | [] => None
  | chunk :: rest =>
      match chunks_dict_get rest chunk_id with
      | Some c => Some c
      | None =>
          if pystr_eqb chunk_id (ChunkLoader.chunk_id chunk) then Some chunk
          else None
      end
  end.

(** [l[:n]] *)
Definition slice_to {A} (l : list A) (n : Z) : list A :=
  if (0 <=? n)%Z then firstn (Z.to_nat n) l
  else firstn (length l - Z.to_nat (- n)) l.

(** [chunk_ids], after [if max_chunks: chunk_ids = chunk_ids[:max_chunks]];
    neither [None] nor 0 limits the list. *)
Definition limited_ids (chunks_entities : multimap) (max_chunks : option Z)
    : list pystr :=
  let chunk_ids := List.map fst chunks_entities in
  match max_chunks with
  | None => chunk_ids
  | Some n => if (n =? 0)%Z then chunk_ids else slice_to chunk_ids n
  end.

Section WithPython.
Variable lower : pystr -> pystr.
(** The language model, by the position of the chunk in [chunk_ids]. *)
Variable llm : nat -> pystr -> list pystr -> option pyval.
(** What [load_chunks()] returns. *)
Variable chunks : list TextChunk.

(** One round of the loop of [extract_relations_from_chunks]. *)
Definition chunk_relations (chunks_entities : multimap)
    (i_id : nat * pystr) : list Relation :=
  let entities := multimap_get chunks_entities (snd i_id) in
  match chunks_dict_get chunks (snd i_id) with
  | None => []
  | Some chunk =>
      if (length entities <? 2)%nat then []
      else extract_relations_from_chunk lower (llm (fst i_id)) chunk entities
  end.

(** *** [extract_relations_from_chunks] *)
Definition extract_relations_from_chunks (chunks_entities : multimap)
    (max_chunks : option Z) : list Relation :=
  concat (List.map (chunk_relations chunks_entities)
            (enumerate (limited_ids chunks_entities max_chunks))).

(** [validate_relation] accepts the candidate. *)
Definition accepts (entities : list pystr) (relation : pyval) : bool :=
  match validate_relation lower entities relation with
  | Ok (Some _) => true
  | _ => false
  end.
End WithPython.

(** The names appended under [c]: one for each occurrence of [c] in the
    source chunks of an entity, in the order of the entities. *)
Definition citing (c : pystr)
    (normalized_entities : list (pystr * NormalizedEntity)) : list pystr :=
  flat_map
    (fun item =>
       List.map (fun _ => fst item)
         (List.filter (pystr_eqb c) (source_chunks (snd item))))
    normalized_entities.

(** The items of a [defaultdict(list)] that was only appended to:
    distinct keys, no empty list. *)
Definition multimap_ok (d : multimap) : Prop :=
  List.NoDup (List.map fst d) /\ Forall (fun kv => snd kv <> []) d.
End RelationPipeline.

(** The characters [_create_entity_uri] keeps of an ASCII name. *)
Definition kept_char (c : N) : bool :=
  is_ascii_word c || isspace c || (c =? hyphen).

(** [[a-z0-9_-]] *)
Definition uri_char (c : N) : bool :=
  word_char c || (c =? underscore) || (c =? hyphen).

(** ** Entities of the graph ([KnowledgeGraphBuilder.add_entities]) *)

Module EntityGraph.
Import EntityNormalizer KnowledgeGraphBuilder NormalizerShape.

(** [s.replace(' ', '_')] *)
Definition spaces_to_underscores (s : pystr) : pystr :=
  List.map (fun c => if c =? 32 then underscore else c) s.

(** [bool(v)] *)
Definition truthy (v : pyval) : bool :=
  match v with
  | PyNone => false
  | PyBool b => b
  | PyInt z => negb (z =? 0)%Z
  | PyFloat q => negb (Qeq_bool q 0)
  | PyStr s => match s with [] => false | _ => true end
  | PyList l => match l with [] => false | _ => true end
  | PyDict d => match d with [] => false | _ => true end
  end.

(** [v != s] for a string [s] *)
Definition differs_from (v : pyval) (s : pystr) : bool :=
  match v with
  | PyStr a => negb (pystr_eqb a s)
  | _ => true
  end.

Section WithUnicode.
(** [str.lower] *)
Variable lower : pystr -> pystr.
(** The class [\w] of [re] on [str] patterns. *)
Variable re_word : N -> bool.
(** [Literal(v)] for a value that is not a string: the node rdflib makes
    of it, or [None] when it raises. *)
Variable literal_of : pyval -> option node.

(** [Literal(v)] *)
Definition py_literal (v : pyval) : option node :=
  match v with
  | PyStr s => Some (Literal s)
  | _ => literal_of v
  end.

(** [self.ML[entity_type.lower().replace(' ', '_')]] *)
Definition type_class_uri (entity_type : pystr) : node :=
  ns_term ML_NS (spaces_to_underscores (lower entity_type)).

(** *** [_add_entity_type_class]: the graph and the class, or the
    [AttributeError] of [.lower()] on a value that is not a string. *)
Definition _add_entity_type_class (entity_type : pyval) (g : rdf_graph)
    : result (rdf_graph * node) :=
  match entity_type with
  | PyStr t =>
      let class_uri := type_class_uri t in
      if bool_decide ((class_uri, RDF_type, OWL_Class) ∈ g)
      then Ok (g, class_uri)
      else
        let g := graph_add (class_uri, RDF_type, OWL_Class) g in
        let g := graph_add (class_uri, RDFS_label, Literal t) g in
        let g := graph_add (class_uri, RDFS_subClassOf, ML "Entity") g in
        Ok (g, class_uri)
  | _ => Raise AttributeError
  end.

(** The loop over the aliases: the graph it leaves, and whether it ran
    to its end or was left by an exception. *)
Fixpoint add_aliases (entity_uri : node) (entity_name : pystr)
    (aliases : list pyval) (g : rdf_graph) : rdf_graph * bool :=
  match aliases with
  | [] => (g, true)
  | alias :: rest =>
      if truthy alias && differs_from alias entity_name
      then
        match py_literal alias with
        | Some l =>
            add_aliases entity_uri entity_name rest
              (graph_add (entity_uri, ML "alias", l) g)
        | None => (g, false)
        end
      else add_aliases entity_uri entity_name rest g
  end.

(** The loop over [source_chunks[:5]]. *)
Definition add_source_chunks (entity_uri : node) (chunk_ids : list pystr)
    (g : rdf_graph) : rdf_graph :=
  fold_left
    (fun g chunk_id =>
       graph_add (entity_uri, ML "sourceChunk", Literal chunk_id) g)
    (firstn 5 chunk_ids) g.

(** One round of the loop of [add_entities]; an exception ends the round
    and leaves in the graph what the round had added.  The count per
    type of [self.stats] is not part of [builder]. *)
Definition add_entity (b : builder) (item : pystr * NormalizedEntity)
    : builder :=
  let '(entity_name, entity_data) := item in
  let entity_uri := _create_entity_uri lower re_word entity_name in
  match _add_entity_type_class (entity_type entity_data) (graph b) with
  | Raise _ => b
  | Ok (g, class_uri) =>
      let g := graph_add (entity_uri, RDF_type, class_uri) g in
      let g := graph_add (entity_uri, RDFS_label, Literal entity_name) g in
      let g := graph_add (entity_uri, ML "canonicalName",
                          Literal entity_name) g in
      match add_aliases entity_uri entity_name (aliases entity_data) g with
      | (g, false) => with_graph g b
      | (g, true) =>
          let g := graph_add (entity_uri, ML "frequency",
                              LiteralInteger
                                (Z.of_nat (frequency entity_data))) g in
          let g := graph_add (entity_uri, ML "confidence",
                              LiteralFloat (confidence entity_data)) g in
          let g := add_source_chunks entity_uri
                     (source_chunks entity_data) g in
          {| graph := g;
             entities_added := S (entities_added b);
             relations_added := relations_added b;
             relation_types := relation_types b |}
      end
  end.

(** *** [add_entities]; the dictionary is given as the list of its
    items. *)
Definition add_entities (b : builder)
    (normalized_entities : list (pystr * NormalizedEntity)) : builder :=
  fold_left add_entity normalized_entities b.

(** The aliases the loop can all turn into literals. *)
Definition aliases_pass (entity_name : pystr) (aliases : list pyval)
    : bool :=
  forallb
    (fun alias =>
       negb (truthy alias && differs_from alias entity_name)
       || match py_literal alias with Some _ => true | None => false end)
    aliases.

(** The rounds that reach the end of the [try] block. *)
Definition completes (item : pystr * NormalizedEntity) : bool :=
  is_str (entity_type (snd item))
  && aliases_pass (fst item) (aliases (snd item)).

(** The triples a round adds about its entity, the class triples
    apart. *)
Definition entity_triples (name : pystr) (e : NormalizedEntity)
    : rdf_graph :=
  let u := _create_entity_uri lower re_word name in
  {[ (u, RDFS_label, Literal name);
     (u, ML "canonicalName", Literal name);
     (u, ML "frequency", LiteralInteger (Z.of_nat (frequency e)));
     (u, ML "confidence", LiteralFloat (confidence e)) ]}.
End WithUnicode.
End EntityGraph.

(** * Further worked examples *)

Module MoreExamples.
Import EntityExtractor ChunkLoader Examples.

(** What [process_question] makes of [svm_question]. *)
Definition svm_intent : QueryProcessor.QueryIntent :=
  {| QueryProcessor.query_type := QueryProcessor.WHO_CREATED;
     QueryProcessor.entities := [cp "support_vector_machine"];
     QueryProcessor.confidence := 8 # 10;
     QueryProcessor.raw_question :=
       cp "quem criou support vector machine?" |}.

(** The candidates of the reply of [nn_llm]. *)
Definition nn_items : list pyval :=
  [ relation_record "neural networks" "USES" " gradient descent"
      "Neural networks are trained using gradient descent.";
    relation_record "Deep Belief Network" "uses" "Neural Network"
      EmptyString ].

(** A candidate that names its entities as the list does. *)
Definition exact_fields : pydict :=
  [ (cp "subject", PyStr (cp "Neural Network"));
    (cp "predicate", PyStr (cp "USES"));
    (cp "object", PyStr (cp "Gradient Descent"));
    (cp "context", PyStr (cp "trained using")) ].

(** The two entities of [nn_chunk], as [normalize_entities] stores
    them. *)
Definition chunk_entity (name : string) : EntityNormalizer.NormalizedEntity :=
  {| EntityNormalizer.canonical_name := cp name;
     EntityNormalizer.entity_type := PyStr (cp "CONCEPT");
     EntityNormalizer.aliases := [];
     EntityNormalizer.frequency := 1;
     EntityNormalizer.confidence := 1;
     EntityNormalizer.source_chunks := [cp "book_0001"];
     EntityNormalizer.original_labels := [cp "ML_TERM"] |}.

Definition nn_normalized
    : list (pystr * EntityNormalizer.NormalizedEntity) :=
  [ (cp "Neural Network", chunk_entity "Neural Network");
    (cp "Gradient Descent", chunk_entity "Gradient Descent") ].

Definition nn_chunks_entities : RelationPipeline.multimap :=
  [ (cp "book_0001", nn_entities) ].

(** The model gives the reply of [nn_llm] whatever the position of the
    chunk. *)
Definition nn_llm_at (i : nat) : pystr -> list pystr -> option pyval :=
  nn_llm.

(** An entity met in six chunks. *)
Definition boosting_entity : EntityNormalizer.NormalizedEntity :=
  {| EntityNormalizer.canonical_name := cp "Gradient Boosting";
     EntityNormalizer.entity_type := PyStr (cp "Ensemble Method");
     EntityNormalizer.aliases := [PyStr (cp "GBM"); PyStr []];
     EntityNormalizer.frequency := 7;
     EntityNormalizer.confidence := 1;
     EntityNormalizer.source_chunks :=
       [cp "c1"; cp "c2"; cp "c3"; cp "c4"; cp "c5"; cp "c6"];
     EntityNormalizer.original_labels := [cp "ML_TERM"] |}.

Definition boosting_items
    : list (pystr * EntityNormalizer.NormalizedEntity) :=
  [ (cp "Gradient Boosting", boosting_entity) ].

(** No value other than a string is made a literal. *)
Definition no_literal (v : pyval) : option node := None.
End MoreExamples.

(** * Properties *)

(** ** Question parsing *)

Section QueryProcessorFacts.
Import QueryProcessor.

(** The result of [process_question] depends on [str.lower] only
    through its values. *)
Lemma normalize_entity_name_ext (f g : pystr -> pystr) :
  (forall s, f s = g s) ->
  forall e, _normalize_entity_name f e = _normalize_entity_name g e.
Proof. intros E e. unfold _normalize_entity_name. now rewrite E. Qed.

Lemma try_patterns_ext question qt
    (e1 e2 : captures -> result (list pystr)) :
  (forall m, e1 m = e2 m) ->
  forall ps, try_patterns question ps qt e1 = try_patterns question ps qt e2.
Proof.
  intros E ps. induction ps as [|p ps IH]; simpl; [reflexivity|].
  destruct (re_search p question) as [m|]; [|exact IH].
  rewrite E, IH. reflexivity.
Qed.

Lemma extract_single_ext (f g : pystr -> pystr) :
  (forall s, f s = g s) ->
  forall m, _extract_single_entity f m = _extract_single_entity g m.
Proof.
  intros E m. unfold _extract_single_entity.
  destruct (group_str 1 m); simpl; [|reflexivity].
  now rewrite (normalize_entity_name_ext f g E).
Qed.

Lemma extract_two_ext (f g : pystr -> pystr) :
  (forall s, f s = g s) ->
  forall m, _extract_two_entities f m = _extract_two_entities g m.
Proof.
  intros E m. unfold _extract_two_entities.
  destruct (group_str 1 m); simpl; [|reflexivity].
  destruct (group_str 2 m); simpl; [|reflexivity].
  now rewrite !(normalize_entity_name_ext f g E).
Qed.

Lemma extract_type_ext (f g : pystr -> pystr) :
  (forall s, f s = g s) ->
  forall m, _extract_type_entity f m = _extract_type_entity g m.
Proof.
  intros E m. unfold _extract_type_entity.
  destruct (group_str 1 m); simpl; [|reflexivity].
  now rewrite E.
Qed.

Lemma try_checks_ext (f g : pystr -> pystr) :
  (forall s, f s = g s) ->
  forall question,
    try_checks question (intent_checks f)
    = try_checks question (intent_checks g).
Proof.
  intros E question. unfold intent_checks. cbn [try_checks].
  rewrite !(try_patterns_ext question _ _ _ (extract_single_ext f g E)).
  rewrite (try_patterns_ext question _ _ _ (extract_two_ext f g E)).
  rewrite (try_patterns_ext question _ _ _ (extract_type_ext f g E)).
  reflexivity.
Qed.

Lemma process_question_ext (f g : pystr -> pystr) :
  (forall s, f s = g s) ->
  forall q, process_question f q = process_question g q.
Proof.
  intros E q. unfold process_question.
  rewrite (E q), (try_checks_ext f g E). reflexivity.
Qed.

(** [str.lower] *)
Variable lower : pystr -> pystr.
(** All that is assumed of it: on ASCII text it lowers [A-Z] and keeps
    the rest. *)
Hypothesis lower_ascii :
  forall s, ascii_only s = true -> lower s = ascii_lower s.

Lemma lower_on_ascii_eq s : lower s = lower_on_ascii lower s.
Proof.
  unfold lower_on_ascii. destruct (ascii_only s) eqn:A; [|reflexivity].
  now apply lower_ascii.
Qed.

Lemma process_question_on_ascii q :
  process_question lower q = process_question (lower_on_ascii lower) q.
Proof. apply process_question_ext, lower_on_ascii_eq. Qed.

(** C7: [process_question("Quem criou Support Vector Machine?")] is a
    WHO_CREATED intent with the single entity
    ["support_vector_machine"], and none of the WHAT_IS, WHAT_USES and
    WHAT_IS_TYPE_OF patterns, which are tried before, matches the
    question. *)
Theorem process_question_who_created_svm :
  process_question lower svm_question
  = Ok {| query_type := WHO_CREATED;
          entities := [cp "support_vector_machine"];
          confidence := 8 # 10;
          raw_question := cp "quem criou support vector machine?" |}
  /\ Forall (fun p => re_search p (strip (lower svm_question)) = None)
       (what_is_patterns ++ what_uses_patterns ++ type_of_patterns).
Proof.
  split.
  - rewrite process_question_on_ascii. vm_compute. reflexivity.
  - rewrite lower_on_ascii_eq. vm_compute.
    repeat (constructor; [reflexivity|]). constructor.
Qed.

(** C4: on the empty question no pattern matches, and the fallback
    indexes the empty list of words: [process_question] of the empty
    string raises [IndexError]; so does a question of whitespace only. *)
Theorem process_question_empty_raises :
  process_question lower [] = Raise IndexError
  /\ process_question lower (cp "   ") = Raise IndexError.
Proof.
  split; rewrite process_question_on_ascii; vm_compute; reflexivity.
Qed.

(** C10: on the fallback path the returned intent is WHAT_IS with
    confidence 0.3 and its single entity is the last word of
    [question.lower().strip().split()] as it stands; no
    [_normalize_entity_name] is applied to it.  For ["hello world?"] the
    entity is ["world?"], whose ['?'] is outside [[a-z0-9_]] and which
    normalisation would have turned into ["world"]. *)
Theorem fallback_entity_is_raw_last_word :
  (forall q intent,
      fallback_path lower q ->
      process_question lower q = Ok intent ->
      exists words w,
        split_ws (strip (lower q)) = words ++ [w]
        /\ entities intent = [w]
        /\ query_type intent = WHAT_IS
        /\ confidence intent = 3 # 10)
  /\ fallback_path lower (cp "hello world?")
  /\ process_question lower (cp "hello world?")
     = Ok {| query_type := WHAT_IS; entities := [cp "world?"];
             confidence := 3 # 10; raw_question := cp "hello world?" |}
  /\ keep_token_chars (cp "world?") <> cp "world?"
  /\ _normalize_entity_name lower (cp "world?") = cp "world".
Proof.
  split; [|split; [|split; [|split]]].
  - intros q intent F. unfold process_question. rewrite F.
    unfold last_item.
    destruct (rev (split_ws (strip (lower q)))) as [|w l] eqn:R;
      simpl; [discriminate|].
    intros [= <-]. exists (rev l), w. simpl.
    repeat split.
    rewrite <- (rev_involutive (split_ws _)), R. reflexivity.
  - unfold fallback_path. rewrite (try_checks_ext _ _ lower_on_ascii_eq).
    rewrite lower_on_ascii_eq. vm_compute. reflexivity.
  - rewrite process_question_on_ascii. vm_compute. reflexivity.
  - vm_compute. discriminate.
  - rewrite (normalize_entity_name_ext _ _ lower_on_ascii_eq).
    vm_compute. reflexivity.
Qed.
End QueryProcessorFacts.

(** ** Entity tokens of the query processor and of the builder *)

Section EntityTokens.
Import QueryProcessor KnowledgeGraphBuilder.

Lemma lstrip_by_snoc p a c :
  lstrip_by p (a ++ [c])
  = match lstrip_by p a with
    | [] => if p c then [] else [c]
    | x => x ++ [c]
    end.
Proof.
  induction a as [|x a IH]; simpl; [reflexivity|].
  destruct (p x); [exact IH|reflexivity].
Qed.

Lemma rstrip_by_rev p s : rev (lstrip_by p (rev s)) = rstrip_by p s.
Proof.
  induction s as [|c r IH]; simpl; [reflexivity|].
  rewrite lstrip_by_snoc, <- IH.
  destruct (lstrip_by p (rev r)) as [|y l]; simpl.
  - now destruct (p c).
  - rewrite rev_app_distr. simpl.
    destruct (rev l ++ [y]) eqn:E; [|reflexivity].
    now destruct (rev l).
Qed.

Lemma strip_by_rstrip p s : strip_by p s = rstrip_by p (lstrip_by p s).
Proof. unfold strip_by. apply rstrip_by_rev. Qed.

Lemma filter_all {A} (p : A -> bool) l :
  forallb p l = true -> List.filter p l = l.
Proof.
  induction l as [|x l IH]; simpl; [reflexivity|].
  intros H. apply andb_prop in H as [-> H]. now rewrite IH.
Qed.

Lemma split_ws_aux_nonempty cur s :
  Forall (fun t => t <> []) (split_ws_aux cur s).
Proof.
  revert cur. induction s as [|c r IH]; intros cur; simpl.
  - destruct cur as [|x cur]; constructor; [|constructor].
    simpl. intros E. now apply app_eq_nil in E as [_ ?].
  - destruct (isspace c); [|apply IH].
    destruct cur as [|x cur]; [apply IH|].
    constructor; [|apply IH].
    simpl. intros E. now apply app_eq_nil in E as [_ ?].
Qed.

Lemma join_nonempty sep t ts : t <> [] -> join sep (t :: ts) <> [].
Proof.
  intros T. simpl. destruct ts; [exact T|].
  intros E. now apply app_eq_nil in E as [? _].
Qed.

Lemma word_char_not_underscore c :
  word_char c = true -> (underscore =? c) = false.
Proof.
  unfold word_char, is_ascii_lower, is_ascii_digit, underscore.
  intros H. apply N.eqb_neq. intros <-. vm_compute in H. discriminate.
Qed.

Section JoinTokens.
Variable p : N -> bool.
Variable ok : N -> bool.
Hypothesis p_us : p underscore = true.
Hypothesis p_ok : forall c, ok c = true -> p c = false.

Lemma join_tokens_rstrip u :
  forallb (fun c => isspace c || ok c) u = true ->
  (forall cur, cur <> [] ->
     join [underscore] (split_ws_aux cur u)
     = rev cur ++ rstrip_by p (sub_ws_runs false u))
  /\ join [underscore] (split_ws_aux [] u)
     = rstrip_by p (sub_ws_runs true u).
Proof.
  induction u as [|x r IH]; intros P.
  - split; [|reflexivity]. intros cur NE. simpl.
    destruct cur; [congruence|]. now rewrite app_nil_r.
  - simpl in P. apply andb_prop in P as [Px Pr].
    destruct (IH Pr) as [IHA IHC].
    simpl. destruct (isspace x) eqn:Sx.
    + split; [|exact IHC].
      intros cur NE. destruct cur as [|c0 cur]; [congruence|].
      simpl. rewrite <- IHC, p_us.
      pose proof (split_ws_aux_nonempty [] r) as NEs.
      destruct (split_ws_aux [] r) as [|t ts] eqn:E.
      * simpl. now rewrite app_nil_r.
      * apply Forall_cons_1 in NEs as [Ht _].
        pose proof (join_nonempty [underscore] t ts Ht) as J.
        destruct (join [underscore] (t :: ts)) eqn:EJ; [congruence|].
        reflexivity.
    + simpl in Px. apply p_ok in Px.
      assert (R : rstrip_by p (x :: sub_ws_runs false r)
                  = x :: rstrip_by p (sub_ws_runs false r)).
      { cbn [rstrip_by]. rewrite Px. now destruct (rstrip_by _ _). }
      split.
      * intros cur _. rewrite (IHA (x :: cur)) by discriminate.
        rewrite R. simpl. now rewrite <- app_assoc.
      * rewrite (IHA [x]) by discriminate. now rewrite R.
Qed.

Lemma lstrip_sub_ws_runs_true u :
  forallb (fun c => isspace c || ok c) u = true ->
  lstrip_by p (sub_ws_runs true u) = sub_ws_runs true u.
Proof.
  induction u as [|x r IH]; intros P; [reflexivity|].
  simpl in P. apply andb_prop in P as [Px Pr]. simpl.
  destruct (isspace x); [now apply IH|].
  simpl in Px. apply p_ok in Px. simpl. now rewrite Px.
Qed.

Lemma lstrip_sub_ws_runs u :
  forallb (fun c => isspace c || ok c) u = true ->
  lstrip_by p (sub_ws_runs false u) = sub_ws_runs true u.
Proof.
  destruct u as [|x r]; intros P; [reflexivity|].
  simpl in P. apply andb_prop in P as [Px Pr]. simpl.
  destruct (isspace x).
  - simpl. rewrite p_us. now apply lstrip_sub_ws_runs_true.
  - simpl in Px. apply p_ok in Px. simpl. now rewrite Px.
Qed.

(** Collapsing the whitespace runs to underscores and stripping the
    underscores at both ends joins the words with underscores. *)
Lemma strip_sub_ws_runs u :
  forallb (fun c => isspace c || ok c) u = true ->
  strip_by p (sub_ws_runs false u) = join [underscore] (split_ws u).
Proof.
  intros P. rewrite strip_by_rstrip, (lstrip_sub_ws_runs u P).
  symmetry. apply (join_tokens_rstrip u P).
Qed.
End JoinTokens.

(** A property of the ASCII characters holds when it holds of each of the
    128 of them. *)
Lemma ascii_forall (P : N -> bool) :
  forallb P (List.map N.of_nat (List.seq 0 128)) = true ->
  forall c, is_ascii c = true -> P c = true.
Proof.
  intros H c A. rewrite forallb_forall in H. apply H.
  apply in_map_iff. exists (N.to_nat c). split; [apply N2Nat.id|].
  apply in_seq. unfold is_ascii in A. apply N.ltb_lt in A. lia.
Qed.

Lemma plain_char_facts c :
  plain_char c = true ->
  is_ascii c = true
  /\ (is_ascii_word c || isspace c || (c =? hyphen)) = true
  /\ isspace (ascii_lower_char c) = isspace c
  /\ (isspace (ascii_lower_char c) || word_char (ascii_lower_char c)) = true.
Proof.
  intros H.
  assert (A : is_ascii c = true).
  { unfold plain_char, is_ascii_lower, is_ascii_upper, is_ascii_digit in H.
    unfold is_ascii. apply N.ltb_lt.
    repeat (apply orb_prop in H as [H|H]);
      try (apply andb_prop in H as [H1 H2]);
      try (apply N.leb_le in H1, H2; lia).
    unfold is_ascii in H2. now apply N.ltb_lt in H2. }
  pose proof (ascii_forall
    (fun c => implb (plain_char c)
       ((is_ascii_word c || isspace c || (c =? hyphen))
        && Bool.eqb (isspace (ascii_lower_char c)) (isspace c)
        && (isspace (ascii_lower_char c) || word_char (ascii_lower_char c))))
    ltac:(vm_compute; reflexivity) c A) as F.
  cbv beta in F. rewrite H in F. simpl in F.
  apply andb_prop in F as [F F3]. apply andb_prop in F as [F1 F2].
  apply Bool.eqb_prop in F2. auto.
Qed.

Lemma ascii_lower_sub_ws_runs b s :
  plain_name s = true ->
  ascii_lower (sub_ws_runs b s) = sub_ws_runs b (ascii_lower s).
Proof.
  revert b. induction s as [|c r IH]; intros b P; [reflexivity|].
  simpl in P. apply andb_prop in P as [Pc Pr].
  destruct (plain_char_facts c Pc) as (_ & _ & S & _).
  simpl. rewrite S. destruct (isspace c).
  - destruct b; simpl; now rewrite IH.
  - simpl. now rewrite IH.
Qed.

Lemma sub_ws_runs_ascii b s :
  ascii_only s = true -> ascii_only (sub_ws_runs b s) = true.
Proof.
  revert b. induction s as [|c r IH]; intros b P; [reflexivity|].
  simpl in P. apply andb_prop in P as [Pc Pr]. simpl.
  destruct (isspace c).
  - destruct b; simpl; now rewrite IH.
  - simpl. now rewrite Pc, IH.
Qed.

Lemma plain_name_ascii s : plain_name s = true -> ascii_only s = true.
Proof.
  induction s as [|c r IH]; simpl; [reflexivity|].
  intros P. apply andb_prop in P as [Pc Pr].
  destruct (plain_char_facts c Pc) as (A & _). now rewrite A, IH.
Qed.

Lemma plain_name_lowered s :
  plain_name s = true ->
  forallb (fun c => isspace c || word_char c) (ascii_lower s) = true.
Proof.
  induction s as [|c r IH]; simpl; [reflexivity|].
  intros P. apply andb_prop in P as [Pc Pr].
  destruct (plain_char_facts c Pc) as (_ & _ & _ & W). now rewrite W, IH.
Qed.

Lemma split_ws_aux_chars (q : N -> bool) cur u t c :
  (forall x, In x cur -> q x = true) ->
  (forall x, In x u -> isspace x = false -> q x = true) ->
  In t (split_ws_aux cur u) -> In c t -> q c = true.
Proof.
  revert cur. induction u as [|x r IH]; intros cur Hc Hu; simpl.
  - destruct cur as [|y cur]; [intros []|].
    intros [<-|[]] Hin. apply Hc. now apply in_rev.
  - destruct (isspace x) eqn:Sx.
    + destruct cur as [|y cur].
      * apply IH; [tauto|]. intros; apply Hu; simpl; auto.
      * intros [<-|Hin] Hct.
        -- apply Hc. now apply in_rev.
        -- revert Hin Hct. apply IH; [simpl; tauto|].
           intros; apply Hu; simpl; auto.
    + apply IH.
      * intros z [<-|Hz]; [apply Hu; simpl; auto|now apply Hc].
      * intros; apply Hu; simpl; auto.
Qed.

Lemma join_chars sep toks c :
  In c (join sep toks) -> In c sep \/ exists t, In t toks /\ In c t.
Proof.
  induction toks as [|t toks IH]; simpl; [tauto|].
  destruct toks as [|t' toks].
  - intros H. right. exists t. auto.
  - intros H. apply in_app_or in H as [H|H]; [right; exists t; auto|].
    apply in_app_or in H as [H|H]; [now left|].
    destruct (IH H) as [?|[t0 [? ?]]]; [now left|].
    right. exists t0. simpl in *. tauto.
Qed.

Lemma entity_local_name_ext (f g : pystr -> pystr) (w1 w2 : N -> bool) :
  (forall s, f s = g s) -> (forall c, w1 c = w2 c) ->
  forall name, entity_local_name f w1 name = entity_local_name g w2 name.
Proof.
  intros E W name. unfold entity_local_name. rewrite E. do 3 f_equal.
  induction name as [|c r IH]; simpl; [reflexivity|].
  rewrite W, IH. reflexivity.
Qed.

(** [str.lower] and the class [\w] *)
Variable lower : pystr -> pystr.
Variable re_word : N -> bool.
(** On ASCII text [lower] lowers [A-Z] and keeps the rest; among the
    ASCII characters [\w] is [[A-Za-z0-9_]]. *)
Hypothesis lower_ascii :
  forall s, ascii_only s = true -> lower s = ascii_lower s.
Hypothesis re_word_ascii :
  forall c, is_ascii c = true -> re_word c = is_ascii_word c.

Lemma re_word_on_ascii_eq c : re_word c = word_on_ascii re_word c.
Proof.
  unfold word_on_ascii. destruct (is_ascii c) eqn:A; [|reflexivity].
  now apply re_word_ascii.
Qed.

Lemma entity_local_name_on_ascii name :
  entity_local_name lower re_word name
  = entity_local_name (lower_on_ascii lower) (word_on_ascii re_word) name.
Proof.
  apply entity_local_name_ext.
  - apply lower_on_ascii_eq, lower_ascii.
  - apply re_word_on_ascii_eq.
Qed.

(** The two derivations part on a hyphenated name: the builder keeps the
    hyphen, the query processor drops it. *)
Lemma tokens_differ_on_hyphen :
  _normalize_entity_name lower (cp "k-Means") = cp "kmeans"
  /\ entity_local_name lower re_word (cp "k-Means") = cp "k-means".
Proof.
  split.
  - rewrite (normalize_entity_name_ext _ _ (lower_on_ascii_eq _ lower_ascii)).
    vm_compute. reflexivity.
  - rewrite entity_local_name_on_ascii. vm_compute. reflexivity.
Qed.

(** ... and on a name with a stop-word, which only the query processor
    removes. *)
Lemma tokens_differ_on_stop_word :
  _normalize_entity_name lower (cp "Area Under the Curve")
  = cp "area_under_curve"
  /\ entity_local_name lower re_word (cp "Area Under the Curve")
     = cp "area_under_the_curve".
Proof.
  split.
  - rewrite (normalize_entity_name_ext _ _ (lower_on_ascii_eq _ lower_ascii)).
    vm_compute. reflexivity.
  - rewrite entity_local_name_on_ascii. vm_compute. reflexivity.
Qed.
Lemma builder_token_plain name :
  plain_name name = true ->
  entity_local_name lower re_word name
  = join [underscore] (split_ws (ascii_lower name)).
Proof.
  intros P. unfold entity_local_name.
  rewrite filter_all.
  2:{ apply forallb_forall. intros c Hc.
      unfold plain_name in P. rewrite forallb_forall in P.
      destruct (plain_char_facts c (P c Hc)) as (A & K & _).
      now rewrite (re_word_ascii c A). }
  rewrite lower_ascii by now apply sub_ws_runs_ascii, plain_name_ascii.
  rewrite (ascii_lower_sub_ws_runs _ _ P).
  unfold strip_underscores.
  apply (strip_sub_ws_runs (N.eqb underscore) word_char).
  - apply N.eqb_refl.
  - apply word_char_not_underscore.
  - now apply plain_name_lowered.
Qed.

Lemma query_token_plain name :
  plain_name name = true ->
  no_stop_word lower name = true ->
  _normalize_entity_name lower name
  = join [underscore] (split_ws (ascii_lower name)).
Proof.
  intros P S. unfold _normalize_entity_name, no_stop_word in *.
  rewrite lower_ascii in * by now apply plain_name_ascii.
  rewrite (filter_all _ _ S).
  apply filter_all, forallb_forall. intros c Hc.
  apply join_chars in Hc as [[<-|[]]|[t [Ht Hc]]]; [reflexivity|].
  pose proof (plain_name_lowered name P) as W.
  rewrite forallb_forall in W.
  apply (split_ws_aux_chars
           (fun c => is_ascii_lower c || is_ascii_digit c || (c =? underscore))
           [] (ascii_lower name) t c); try assumption.
  - intros x [].
  - intros x Hx Sx. specialize (W x Hx). rewrite Sx in W. simpl in W.
    unfold word_char in W. now rewrite W.
Qed.

(** C2, as the code has it: the two derivations yield the same token on
    every name made of ASCII letters, digits and whitespace none of whose
    words is a stop-word; they do so on ["Support Vector Machine"], and
    the entity [process_question] extracts from ["what is a support
    vector machine"] is that token. *)
Theorem entity_tokens_agree_on_plain_names :
  (forall name,
      plain_name name = true ->
      no_stop_word lower name = true ->
      _normalize_entity_name lower name = entity_local_name lower re_word name)
  /\ _normalize_entity_name lower (cp "Support Vector Machine")
     = cp "support_vector_machine"
  /\ entity_local_name lower re_word (cp "Support Vector Machine")
     = cp "support_vector_machine"
  /\ process_question lower (cp "what is a support vector machine")
     = Ok {| query_type := WHAT_IS;
             entities := [cp "support_vector_machine"];
             confidence := 8 # 10;
             raw_question := cp "what is a support vector machine" |}.
Proof.
  split; [|split; [|split]].
  - intros name P S. now rewrite query_token_plain, builder_token_plain.
  - rewrite (normalize_entity_name_ext _ _ (lower_on_ascii_eq _ lower_ascii)).
    vm_compute. reflexivity.
  - rewrite entity_local_name_on_ascii. vm_compute. reflexivity.
  - rewrite (process_question_on_ascii _ lower_ascii). vm_compute.
    reflexivity.
Qed.
End EntityTokens.

(** ** Dictionaries *)

Lemma pystr_eqb_eq a b : pystr_eqb a b = true <-> a = b.
Proof. unfold pystr_eqb. apply bool_decide_eq_true. Qed.

Lemma pystr_eqb_refl a : pystr_eqb a a = true.
Proof. now apply pystr_eqb_eq. Qed.

Lemma pystr_eqb_neq a b : a <> b -> pystr_eqb a b = false.
Proof. intros H. unfold pystr_eqb. now apply bool_decide_eq_false. Qed.

Lemma dict_get_set_eq k v d : dict_get (dict_set k v d) k = Some v.
Proof.
  induction d as [|[k' v'] d IH]; simpl.
  - now rewrite pystr_eqb_refl.
  - destruct (pystr_eqb k k') eqn:E; simpl; rewrite E; [reflexivity|exact IH].
Qed.

Lemma dict_get_set_ne k k' v d :
  k <> k' -> dict_get (dict_set k' v d) k = dict_get d k.
Proof.
  intros NE. induction d as [|[k0 v0] d IH]; simpl.
  - now rewrite (pystr_eqb_neq _ _ NE).
  - destruct (pystr_eqb k' k0) eqn:E; simpl.
    + apply pystr_eqb_eq in E. subst k0.
      now rewrite (pystr_eqb_neq _ _ NE).
    + destruct (pystr_eqb k k0); [reflexivity|exact IH].
Qed.

Lemma str_mem_In x l : str_mem x l = true <-> In x l.
Proof.
  unfold str_mem. rewrite existsb_exists. split.
  - intros [y [Hy E]]. apply pystr_eqb_eq in E. now subst.
  - intros H. exists x. split; [exact H|apply pystr_eqb_refl].
Qed.

Lemma first_or_found {A} (p : A -> bool) l d :
  existsb p l = true -> List.find p l = Some (first_or p l d).
Proof.
  unfold first_or. intros H. destruct (List.find p l) eqn:F; [reflexivity|].
  apply existsb_exists in H as [x [Hx Px]].
  now rewrite (find_none _ _ F x Hx) in Px.
Qed.

(** ** Relation validation *)

Section RelationExtractorFacts.
Import ChunkLoader RelationExtractor.

Variable lower : pystr -> pystr.
Variable llm : pystr -> list pystr -> option pyval.

Local Abbreviation accepted := (accepted lower).

Lemma validate_relation_accepted entities relation d' :
  validate_relation lower entities relation = Ok (Some d') ->
  exists d s p o,
    relation = PyDict d
    /\ get_stripped d (cp "subject") = Ok s
    /\ get_stripped d (cp "predicate") = Ok p
    /\ get_stripped d (cp "object") = Ok o
    /\ accepted entities relation d' s p o.
Proof.
  unfold validate_relation.
  destruct relation as [| | | | |l|d]; cbn [bind as_dict andb]; try (intros ?; discriminate).
  destruct (get_stripped d (cp "subject")) as [s|] eqn:Gs; cbn [bind as_dict andb];
    [|intros ?; discriminate].
  destruct (get_stripped d (cp "predicate")) as [p|] eqn:Gp; cbn [bind as_dict andb];
    [|intros ?; discriminate].
  destruct (get_stripped d (cp "object")) as [o|] eqn:Go; cbn [bind as_dict andb];
    [|intros ?; discriminate].
  destruct (get_stripped d (cp "context")) as [c|] eqn:Gc; cbn [bind as_dict andb];
    [|intros ?; discriminate].
  destruct (negb _); [intros ?; discriminate|].
  destruct (existsb (fuzzy_match lower s) entities) eqn:Vs; cbn [bind as_dict andb];
    [|intros ?; discriminate].
  destruct (existsb (fuzzy_match lower o) entities) eqn:Vo; cbn [bind as_dict andb];
    [|intros ?; discriminate].
  destruct (str_mem (lower p) (List.map lower schema_keys)) eqn:Vp; cbn [bind as_dict andb]; [|intros ?; discriminate].
  intros [= <-]. exists d, s, p, o. repeat split; try assumption.
  - rewrite !dict_get_set_ne by (vm_compute; discriminate).
    apply dict_get_set_eq.
  - rewrite !dict_get_set_ne by (vm_compute; discriminate).
    apply dict_get_set_eq.
  - rewrite !dict_get_set_ne by (vm_compute; discriminate).
    apply dict_get_set_eq.
  - eexists. apply dict_get_set_eq.
Qed.

Lemma filter_items_In entities items d' :
  In d' (filter_items lower entities items) ->
  exists relation,
    In relation items
    /\ validate_relation lower entities relation = Ok (Some d').
Proof.
  induction items as [|x items IH]; simpl; [tauto|].
  destruct (validate_relation lower entities x) as [[d|]|] eqn:V.
  - intros [<-|H].
    + exists x. auto.
    + destruct (IH H) as [y [? ?]]. exists y. auto.
  - intros H. destruct (IH H) as [y [? ?]]. exists y. auto.
  - intros H. destruct (IH H) as [y [? ?]]. exists y. auto.
Qed.

Lemma convert_In chunk valid r :
  In r (convert chunk valid) ->
  exists d, In d valid /\ make_relation chunk d = Ok r.
Proof.
  induction valid as [|d valid IH]; simpl; [tauto|].
  destruct (make_relation chunk d) as [r'|] eqn:M; simpl; [|tauto].
  intros [<-|H].
  - exists d. auto.
  - destruct (IH H) as [d' [? ?]]. exists d'. auto.
Qed.

Lemma make_relation_fields chunk d r s p o :
  dict_get d (cp "subject") = Some (PyStr s) ->
  dict_get d (cp "predicate") = Some (PyStr p) ->
  dict_get d (cp "object") = Some (PyStr o) ->
  make_relation chunk d = Ok r ->
  subject r = s /\ predicate r = p /\ object r = o
  /\ chunk_id r = ChunkLoader.chunk_id chunk /\ confidence r = 1%Q.
Proof.
  intros Hs Hp Ho. unfold make_relation, item_str, dict_item.
  rewrite Hs, Hp, Ho. simpl.
  destruct (dict_get d (cp "context")) as [[]|]; simpl; try discriminate.
  intros [= <-]. simpl. auto.
Qed.

Lemma same_predicate_in_schema p :
  str_mem (lower p) (List.map lower schema_keys) = true ->
  existsb (same_predicate lower p) schema_keys = true.
Proof.
  intros H. apply str_mem_In in H. apply in_map_iff in H as [k [E K]].
  apply existsb_exists. exists k. split; [exact K|].
  unfold same_predicate. now apply pystr_eqb_eq.
Qed.

(** C1: every relation [extract_relations_from_chunk] returns comes from
    a candidate of the reply whose stripped subject and object each
    match an entity of [entities_in_chunk] by case-insensitive
    containment in one direction or the other, and whose stripped
    predicate is, lowered, the lowering of a schema name; its subject
    and object are the first such entities of the list and its predicate
    is the schema name, in the spelling of the list and of the schema.
    A candidate that fails a check yields no relation. *)
Theorem extracted_relations_are_validated chunk entities_in_chunk r :
  In r (extract_relations_from_chunk lower llm chunk entities_in_chunk) ->
  exists raw items d s p o,
    llm (content chunk) entities_in_chunk = Some raw
    /\ py_iter raw = Ok items
    /\ In (PyDict d) items
    /\ get_stripped d (cp "subject") = Ok s
    /\ get_stripped d (cp "predicate") = Ok p
    /\ get_stripped d (cp "object") = Ok o
    /\ List.find (fuzzy_match lower s) entities_in_chunk = Some (subject r)
    /\ List.find (fuzzy_match lower o) entities_in_chunk = Some (object r)
    /\ List.find (same_predicate lower p) schema_keys = Some (predicate r)
    /\ In (subject r) entities_in_chunk
    /\ In (object r) entities_in_chunk
    /\ In (predicate r) schema_keys
    /\ length schema_keys = 24%nat
    /\ fuzzy_match lower s (subject r) = true
    /\ fuzzy_match lower o (object r) = true
    /\ lower (predicate r) = lower p.
Proof.
  unfold extract_relations_from_chunk, _filter_valid_relations.
  destruct (length entities_in_chunk <? 2)%nat; [simpl; tauto|].
  destruct (llm (content chunk) entities_in_chunk) as [raw|]; [|simpl; tauto].
  destruct (py_iter raw) as [items|] eqn:I; simpl; [|tauto].
  intros H. apply convert_In in H as [d' [Hd' M]].
  apply filter_items_In in Hd' as [relation [Hin V]].
  apply validate_relation_accepted in V as (d & s & p & o & -> & Gs & Gp & Go & A).
  destruct A as [Vs Vo Vp As Ap Ao _].
  destruct (make_relation_fields _ _ _ _ _ _ As Ap Ao M) as (Es & Ep & Eo & _).
  pose proof (first_or_found _ _ s Vs) as Fs.
  pose proof (first_or_found _ _ o Vo) as Fo.
  pose proof (first_or_found _ _ p (same_predicate_in_schema _ Vp)) as Fp.
  rewrite <- Es in Fs. rewrite <- Eo in Fo. rewrite <- Ep in Fp.
  exists raw, items, d, s, p, o.
  repeat (split; [first [assumption|reflexivity]|]).
  pose proof (find_some _ _ Fs) as [? ?].
  pose proof (find_some _ _ Fo) as [? ?].
  pose proof (find_some _ _ Fp) as [? Ek].
  repeat (split; [first [assumption|reflexivity]|]).
  now apply pystr_eqb_eq in Ek.
Qed.
End RelationExtractorFacts.

(** ** Entity normalisation *)

Section EntityNormalizerFacts.
Import EntityExtractor EntityNormalizer.

Variable lower : pystr -> pystr.
Variable set_iter : list pystr -> list pystr.
Variable llm : nat -> list pystr -> option pyval.

Local Abbreviation build_entity := (build_entity lower set_iter).
Local Abbreviation store_entity := (store_entity lower set_iter).
Local Abbreviation normalize_entities := (normalize_entities lower set_iter llm).
Local Abbreviation occurrences := (occurrences lower).
Local Abbreviation yields := (yields lower set_iter).
Local Abbreviation batch_items := (batch_items llm).
Local Abbreviation mentioned := (mentioned lower).
Local Abbreviation built := (built lower set_iter).

Lemma count_alias_str entities a :
  count_alias lower entities (PyStr a) = Ok (occurrences entities a).
Proof. unfold count_alias, occurrences. now destruct entities. Qed.

Lemma total_frequency_ge entities names n a :
  total_frequency lower entities names = Ok n ->
  In (PyStr a) names -> (occurrences entities a <= n)%nat.
Proof.
  revert n. induction names as [|x names IH]; intros n; simpl; [tauto|].
  destruct (count_alias lower entities x) as [c|] eqn:C; simpl;
    [|intros ?; discriminate].
  destruct (total_frequency lower entities names) as [r|]; simpl;
    [|intros ?; discriminate].
  intros [= <-] [->|H].
  - rewrite count_alias_str in C. injection C as <-. lia.
  - specialize (IH r eq_refl H). lia.
Qed.

Lemma total_frequency_pos entities names n :
  total_frequency lower entities names = Ok n ->
  (1 <= n)%nat -> mentioned entities names.
Proof.
  revert n. induction names as [|x names IH]; intros n; simpl.
  - intros [= <-] ?. lia.
  - destruct (count_alias lower entities x) as [c|] eqn:C; simpl;
      [|intros ?; discriminate].
    destruct (total_frequency lower entities names) as [r|]; simpl;
      [|intros ?; discriminate].
    intros [= <-] Hn.
    destruct c as [|c].
    + destruct (IH r eq_refl Hn) as [a [? ?]]. exists a. simpl. auto.
    + destruct entities as [|e0 entities]; [simpl in C; discriminate|].
      destruct x; simpl in C; try discriminate.
      exists s. split; [now left|].
      fold (occurrences (e0 :: entities) s) in C.
      change (Ok (occurrences (e0 :: entities) s) = Ok (S c)) in C.
      injection C as ->. lia.
Qed.

(** What [build_entity] returns when it returns an entity. *)
Lemma build_entity_fields entities norm_entity e :
  build_entity entities norm_entity = Ok (Some e) ->
  total_frequency lower entities (PyStr (canonical_name e) :: aliases e)
  = Ok (frequency e)
  /\ confidence e = 1%Q
  /\ canonical_name e <> [].
Proof.
  unfold EntityNormalizer.build_entity.
  destruct (as_dict norm_entity) as [d|]; cbn [bind];
    [|intros ?; discriminate].
  destruct (get_stripped d (cp "canonical_name")) as [cn|]; cbn [bind];
    [|intros ?; discriminate].
  destruct cn as [|c0 cn]; [intros ?; discriminate|].
  destruct (as_list _) as [l|]; cbn [bind]; [|intros ?; discriminate].
  destruct (total_frequency lower entities _) as [n|] eqn:T; cbn [bind];
    [|intros ?; discriminate].
  destruct (mentions lower entities _) as [ms|]; cbn [bind];
    [|intros ?; discriminate].
  intros [= <-]. cbn. auto.
Qed.

Lemma store_entity_built entities m x :
  built entities m -> built entities (store_entity entities m x).
Proof.
  intros B. unfold EntityNormalizer.store_entity.
  destruct (build_entity entities x) as [[e|]|] eqn:E; try exact B.
  intros n e'. rewrite lookup_insert. case_decide as D.
  - intros [= <-]. split; [exact D|]. now exists x.
  - apply B.
Qed.

Lemma fold_store_built entities items m :
  built entities m -> built entities (fold_left (store_entity entities) items m).
Proof.
  revert m. induction items as [|x items IH]; intros m B; simpl; [exact B|].
  apply IH, store_entity_built, B.
Qed.

Lemma process_batch_items entities m ib :
  process_batch lower set_iter llm entities m ib
  = fold_left (store_entity entities) (batch_items ib) m.
Proof.
  unfold process_batch, EntityNormalizer.batch_items.
  destruct (llm (fst ib) (snd ib)) as [v|]; [|reflexivity].
  now destruct (py_iter v).
Qed.

Lemma fold_batches_items entities ibs m :
  fold_left (process_batch lower set_iter llm entities) ibs m
  = fold_left (store_entity entities) (concat (List.map batch_items ibs)) m.
Proof.
  revert m. induction ibs as [|ib ibs IH]; intros m; simpl; [reflexivity|].
  rewrite IH, process_batch_items, fold_left_app. reflexivity.
Qed.

Lemma normalize_entities_built entities :
  built entities (normalize_entities entities).
Proof.
  unfold EntityNormalizer.normalize_entities. rewrite fold_batches_items.
  apply fold_store_built. intros n e. rewrite lookup_empty. discriminate.
Qed.

(** C3, as the code has it: the frequency of a normalised entity is at
    least the number of occurrences of its canonical name and of each of
    its aliases among the candidates (stripped, up to case); it is 1 or
    more only when some candidate is such an occurrence. *)
Theorem frequency_bounds_alias_occurrences entities n e :
  normalize_entities entities !! n = Some e ->
  (forall a, In (PyStr a) (aliases e) ->
             (occurrences entities a <= frequency e)%nat)
  /\ (occurrences entities (canonical_name e) <= frequency e)%nat
  /\ ((1 <= frequency e)%nat ->
      mentioned entities (PyStr (canonical_name e) :: aliases e)).
Proof.
  intros L. destruct (normalize_entities_built entities n e L) as [_ [x B]].
  apply build_entity_fields in B as (T & _ & _).
  split; [|split].
  - intros a Ha. apply (total_frequency_ge _ _ _ _ T). now right.
  - apply (total_frequency_ge _ _ _ _ T). now left.
  - apply (total_frequency_pos _ _ _ T).
Qed.
Lemma store_entity_other entities name m x :
  yields entities name x = false ->
  store_entity entities m x !! name = m !! name.
Proof.
  unfold EntityNormalizer.yields, EntityNormalizer.store_entity.
  destruct (build_entity entities x) as [[e|]|]; try reflexivity.
  intros H. apply lookup_insert_ne. intros E.
  apply pystr_eqb_eq in E. congruence.
Qed.

Lemma fold_store_other entities name items m :
  forallb (fun x => negb (yields entities name x)) items = true ->
  fold_left (store_entity entities) items m !! name = m !! name.
Proof.
  revert m. induction items as [|x items IH]; intros m; simpl; [reflexivity|].
  intros H. apply andb_prop in H as [Hx Hi].
  rewrite (IH _ Hi). apply store_entity_other.
  now apply negb_true_iff in Hx.
Qed.

(** The last record written under a name is the one the mapping holds. *)
Lemma fold_store_last entities name before x after e m :
  build_entity entities x = Ok (Some e) ->
  canonical_name e = name ->
  forallb (fun y => negb (yields entities name y)) after = true ->
  fold_left (store_entity entities) (before ++ x :: after) m !! name = Some e.
Proof.
  intros B N A. rewrite fold_left_app. simpl.
  rewrite (fold_store_other _ _ _ _ A).
  unfold EntityNormalizer.store_entity. rewrite B, N.
  apply lookup_insert_eq.
Qed.

Lemma enumerate_from_lookup {A} (l : list A) s j x :
  l !! j = Some x ->
  combine (List.seq s (length l)) l !! j = Some ((s + j)%nat, x).
Proof.
  revert s j. induction l as [|y l IH]; intros s j; [now destruct j|].
  destruct j as [|j]; simpl.
  - intros [= ->]. now rewrite Nat.add_0_r.
  - intros H. rewrite (IH (S s) j H). do 2 f_equal. lia.
Qed.

Lemma enumerate_lookup {A} (l : list A) j x :
  l !! j = Some x -> enumerate l !! j = Some (j, x).
Proof. intros H. apply (enumerate_from_lookup l 0 j x H). Qed.

Lemma filter_none {A} (p : A -> bool) l :
  (forall x, In x l -> p x = false) -> List.filter p l = [].
Proof.
  induction l as [|x l IH]; intros H; simpl; [reflexivity|].
  rewrite (H x (or_introl eq_refl)). apply IH. intros y Hy. apply H. now right.
Qed.

(** A key of a finite map has one item in the list of its items. *)
Lemma map_items_under_key (m : gmap pystr NormalizedEntity) name e :
  m !! name = Some e ->
  List.filter (fun kv => pystr_eqb (fst kv) name) (map_to_list m)
  = [(name, e)].
Proof.
  intros L.
  assert (P : map_to_list m ≡ₚ (name, e) :: map_to_list (delete name m)).
  { rewrite <- (insert_delete_id m name e L) at 1.
    apply map_to_list_insert, lookup_delete_eq. }
  assert (F : List.filter (fun kv => pystr_eqb (fst kv) name)
                (map_to_list (delete name m)) = []).
  { apply filter_none. intros [k v] Hin. simpl.
    apply pystr_eqb_neq. intros ->.
    apply list_elem_of_In, elem_of_map_to_list in Hin.
    rewrite lookup_delete_eq in Hin. discriminate. }
  assert (Q : List.filter (fun kv => pystr_eqb (fst kv) name) (map_to_list m)
              ≡ₚ [(name, e)]).
  { transitivity (List.filter (fun kv => pystr_eqb (fst kv) name)
                    ((name, e) :: map_to_list (delete name m))).
    - clear F. induction P; simpl; try reflexivity.
      + destruct (pystr_eqb (fst x) name); [now constructor|assumption].
      + destruct (pystr_eqb (fst x) name), (pystr_eqb (fst y) name);
          try reflexivity. apply perm_swap.
      + etransitivity; eassumption.
    - simpl. rewrite pystr_eqb_refl, F. reflexivity. }
  now apply Permutation_singleton_r in Q.
Qed.

(** C5: when batch [i] and a later batch [j] both hold a record that is
    built into an entity named [name], and [r2] is the last such record
    of batch [j] and of the run, the mapping has one item under [name],
    and it is the entity built from [r2]. *)
Theorem later_batch_overwrites entities i j bi bj r1 e1 before r2 after e2
    name :
  (i < j)%nat ->
  _group_similar_entities entities 20 !! i = Some bi ->
  _group_similar_entities entities 20 !! j = Some bj ->
  In r1 (batch_items (i, bi)) ->
  build_entity entities r1 = Ok (Some e1) ->
  canonical_name e1 = name ->
  batch_items (j, bj) = before ++ r2 :: after ->
  build_entity entities r2 = Ok (Some e2) ->
  canonical_name e2 = name ->
  forallb (fun y => negb (yields entities name y)) after = true ->
  forallb (fun y => negb (yields entities name y))
    (later_items llm entities j) = true ->
  normalize_entities entities !! name = Some e2
  /\ List.filter (fun kv => pystr_eqb (fst kv) name)
       (map_to_list (normalize_entities entities))
     = [(name, e2)].
Proof.
  intros _ _ Lj _ _ _ Ij B2 N2 A Late.
  assert (L : normalize_entities entities !! name = Some e2).
  { unfold EntityNormalizer.normalize_entities. rewrite fold_batches_items.
    apply enumerate_lookup in Lj.
    rewrite <- (take_drop_middle _ _ _ Lj).
    rewrite map_app, concat_app. cbn [List.map concat]. rewrite Ij.
    set (early := concat (List.map batch_items _)).
    fold (later_items llm entities j).
    replace (early ++ (before ++ r2 :: after) ++ later_items llm entities j)
      with ((early ++ before) ++ r2 :: (after ++ later_items llm entities j))
      by (rewrite <- !app_assoc; reflexivity).
    apply fold_store_last; [exact B2|exact N2|].
    rewrite forallb_app. rewrite A. exact Late. }
  split; [exact L|]. now apply map_items_under_key.
Qed.
End EntityNormalizerFacts.

(** ** The confidence of extracted entities and relations *)

Section Confidence.
Import EntityExtractor ChunkLoader.

Variable lower : pystr -> pystr.
Variable set_iter : list pystr -> list pystr.
Variable llm_entities : nat -> list pystr -> option pyval.
Variable llm_relations : pystr -> list pystr -> option pyval.

Lemma make_relation_confidence chunk d r :
  RelationExtractor.make_relation chunk d = Ok r ->
  RelationExtractor.confidence r = 1%Q.
Proof.
  unfold RelationExtractor.make_relation.
  destruct (RelationExtractor.item_str d (cp "subject")); cbn [bind];
    [|intros ?; discriminate].
  destruct (RelationExtractor.item_str d (cp "predicate")); cbn [bind];
    [|intros ?; discriminate].
  destruct (RelationExtractor.item_str d (cp "object")); cbn [bind];
    [|intros ?; discriminate].
  destruct (RelationExtractor.item_str d (cp "context")); cbn [bind];
    [|intros ?; discriminate].
  now intros [= <-].
Qed.

(** C9: every entity of the mapping [normalize_entities] returns and
    every relation [extract_relations_from_chunk] returns has confidence
    1.0, whatever the candidates, the chunk, the entities and the replies
    of the language model. *)
Theorem confidence_is_one :
  (forall entities name e,
      EntityNormalizer.normalize_entities lower set_iter llm_entities entities
        !! name = Some e ->
      EntityNormalizer.confidence e = 1%Q)
  /\ (forall chunk entities_in_chunk r,
         In r (RelationExtractor.extract_relations_from_chunk lower
                 llm_relations chunk entities_in_chunk) ->
         RelationExtractor.confidence r = 1%Q).
Proof.
  split.
  - intros entities name e L.
    destruct (normalize_entities_built lower set_iter llm_entities
                entities name e L) as [_ [x B]].
    now apply build_entity_fields in B as (_ & C & _).
  - intros chunk entities_in_chunk r.
    unfold RelationExtractor.extract_relations_from_chunk.
    destruct (length entities_in_chunk <? 2)%nat; [simpl; tauto|].
    destruct (llm_relations _ _) as [raw|]; [|simpl; tauto].
    destruct (RelationExtractor._filter_valid_relations _ _ _) as [valid|];
      [|simpl; tauto].
    intros H. apply convert_In in H as [d [_ M]].
    now apply make_relation_confidence in M.
Qed.
End Confidence.

(** ** Graph construction *)

Section BuilderFacts.
Import RelationExtractor KnowledgeGraphBuilder KGExecutor.

Variable lower : pystr -> pystr.
Variable re_word : N -> bool.

Local Abbreviation add_main_class := (add_main_class lower).
Local Abbreviation add_main_property := (add_main_property lower).
Local Abbreviation add_ontology_schema := (add_ontology_schema lower).
Local Abbreviation add_relation := (add_relation lower re_word).
Local Abbreviation add_relations := (add_relations lower re_word).
Local Abbreviation schema_triples := (schema_triples lower).

Lemma add_main_class_union g c :
  add_main_class g c = add_main_class ∅ c ∪ g.
Proof.
  destruct c as [class_name description]. unfold KnowledgeGraphBuilder.add_main_class, graph_add.
  set_solver.
Qed.

Lemma add_main_property_union g p :
  add_main_property g p = add_main_property ∅ p ∪ g.
Proof.
  destruct p as [prop_name description].
  unfold KnowledgeGraphBuilder.add_main_property, graph_add.
  set_solver.
Qed.

(** A loop whose rounds only add triples adds a set of triples that does
    not depend on the graph it starts from. *)
Lemma fold_union {A} (f : rdf_graph -> A -> rdf_graph) l :
  (forall g x, f g x = f ∅ x ∪ g) ->
  forall g, fold_left f l g = fold_left f l ∅ ∪ g.
Proof.
  intros U. induction l as [|x l IH]; intros g; simpl; [set_solver|].
  rewrite (IH (f g x)), (IH (f ∅ x)), (U g x). set_solver.
Qed.

Lemma add_ontology_schema_graph b :
  graph (add_ontology_schema b) = schema_triples ∪ graph b.
Proof.
  unfold schema_triples, KnowledgeGraphBuilder.add_ontology_schema.
  unfold with_graph, new_builder. cbn [graph].
  rewrite (fold_union _ main_properties add_main_property_union
             (fold_left add_main_class main_classes
                (graph_add _ (graph_add _ (graph b))))).
  rewrite (fold_union _ main_classes add_main_class_union
             (graph_add _ (graph_add _ (graph b)))).
  rewrite (fold_union _ main_properties add_main_property_union
             (fold_left add_main_class main_classes
                (graph_add _ (graph_add _ ∅)))).
  rewrite (fold_union _ main_classes add_main_class_union
             (graph_add _ (graph_add _ ∅))).
  unfold graph_add. set_solver.
Qed.

(** C6: [add_ontology_schema] is idempotent: a second call leaves the
    builder, and with it the set of triples, as the first call made it. *)
Theorem add_ontology_schema_idempotent b :
  add_ontology_schema (add_ontology_schema b) = add_ontology_schema b.
Proof.
  assert (G : graph (add_ontology_schema (add_ontology_schema b))
              = graph (add_ontology_schema b)).
  { rewrite !add_ontology_schema_graph. set_solver. }
  unfold KnowledgeGraphBuilder.add_ontology_schema in *.
  unfold with_graph in *. cbn [graph entities_added relations_added
                               relation_types] in *.
  now rewrite G.
Qed.
Lemma uint_digits_inj d d' : uint_digits d = uint_digits d' -> d = d'.
Proof.
  revert d'. induction d; intros d'; destruct d'; simpl; intros H;
    try discriminate H; try reflexivity;
    injection H as H; f_equal; auto.
Qed.

Lemma str_of_nat_inj n m : str_of_nat n = str_of_nat m -> n = m.
Proof.
  unfold str_of_nat. intros H. apply uint_digits_inj in H.
  now apply DecimalNat.Unsigned.to_uint_inj.
Qed.

Lemma relation_instance_uri_inj n m :
  relation_instance_uri n = relation_instance_uri m -> n = m.
Proof.
  unfold relation_instance_uri, ns_term. intros [= H].
  now apply str_of_nat_inj.
Qed.

Lemma is_prefix_app a b : is_prefix a (a ++ b) = true.
Proof.
  induction a as [|x a IH]; simpl; [reflexivity|].
  now rewrite N.eqb_refl, IH.
Qed.

Lemma relation_instance_in_namespace n :
  in_entity_namespace (relation_instance_uri n) = true.
Proof. apply is_prefix_app. Qed.

Lemma add_relation_counter b r :
  relations_added (add_relation b r) = S (relations_added b).
Proof.
  unfold KnowledgeGraphBuilder.add_relation.
  now destruct (_add_relation_property lower (predicate r) (graph b)).
Qed.

Lemma add_relation_property_mono relation_type g :
  g ⊆ fst (_add_relation_property lower relation_type g).
Proof.
  unfold _add_relation_property. case_bool_decide; simpl; [set_solver|].
  unfold graph_add. set_solver.
Qed.

Lemma add_relation_mono b r : graph b ⊆ graph (add_relation b r).
Proof.
  unfold KnowledgeGraphBuilder.add_relation.
  pose proof (add_relation_property_mono (predicate r) (graph b)) as M.
  destruct (_add_relation_property lower (predicate r) (graph b)) as [g p].
  simpl in *. unfold graph_add. set_solver.
Qed.

Lemma add_relation_node b r :
  (relation_instance_uri (relations_added b), RDF_type, ML "Relation")
  ∈ graph (add_relation b r).
Proof.
  unfold KnowledgeGraphBuilder.add_relation.
  destruct (_add_relation_property lower (predicate r) (graph b)) as [g p].
  simpl. unfold graph_add. set_solver.
Qed.

Lemma add_relations_mono relations b :
  graph b ⊆ graph (add_relations b relations).
Proof.
  revert b. induction relations as [|r relations IH]; intros b; simpl;
    [set_solver|].
  etransitivity; [apply (add_relation_mono b r)|apply IH].
Qed.

Lemma add_relations_nodes relations b i r :
  relations !! i = Some r ->
  (relation_instance_uri (relations_added b + i), RDF_type, ML "Relation")
  ∈ graph (add_relations b relations).
Proof.
  revert b i. induction relations as [|r0 relations IH]; intros b i;
    [now destruct i|].
  destruct i as [|i]; simpl.
  - intros _. rewrite Nat.add_0_r.
    apply (add_relations_mono relations (add_relation b r0)).
    apply add_relation_node.
  - intros H. specialize (IH (add_relation b r0) i H).
    rewrite add_relation_counter in IH.
    now replace (relations_added b + S i)%nat
      with (S (relations_added b) + i)%nat by lia.
Qed.

Lemma counted_subject g s p o :
  (s, p, o) ∈ g -> in_entity_namespace s = true -> s ∈ entity_subjects g.
Proof.
  intros T E. unfold entity_subjects.
  apply elem_of_filter. split; [exact E|].
  apply elem_of_map. now exists (s, p, o).
Qed.

Lemma relation_nodes_NoDup start len : NoDup (relation_nodes start len).
Proof.
  unfold relation_nodes. apply NoDup_ListNoDup.
  apply Finite.Injective_map_NoDup.
  - intros n m. apply relation_instance_uri_inj.
  - apply List.seq_NoDup.
Qed.

(** C8: [add_relations] gives the [i]-th relation of its list the node
    [entity:rel_<n>], [n] being the counter of relations when it is
    added; the node lies in the entity namespace and is a subject of the
    graph, so the distinct subjects [get_stats] counts as
    [total_entities] include one node per relation: the count is at
    least the number of relations added, whatever entities there are. *)
Theorem relation_nodes_counted_as_entities b relations :
  (forall i r, relations !! i = Some r ->
     let n := (relations_added b + i)%nat in
     relation_instance_uri n
     = URIRef (ENTITY_NS ++ cp "rel_" ++ str_of_nat n)
     /\ (relation_instance_uri n, RDF_type, ML "Relation")
        ∈ graph (add_relations b relations)
     /\ in_entity_namespace (relation_instance_uri n) = true
     /\ relation_instance_uri n
        ∈ entity_subjects (graph (add_relations b relations)))
  /\ (length relations
      <= size (entity_subjects (graph (add_relations b relations))))%nat
  /\ (relations <> [] ->
      total_entities (graph (add_relations b relations))
      = Ok (size (entity_subjects (graph (add_relations b relations))))).
Proof.
  assert (Nodes : forall i r, relations !! i = Some r ->
            relation_instance_uri (relations_added b + i)
            ∈ entity_subjects (graph (add_relations b relations))).
  { intros i r H. eapply counted_subject.
    - apply (add_relations_nodes _ _ _ _ H).
    - apply relation_instance_in_namespace. }
  assert (Size : (length relations
            <= size (entity_subjects (graph (add_relations b relations))))%nat).
  { assert (Len : length (relation_nodes (relations_added b)
                             (length relations)) = length relations).
    { unfold relation_nodes. now rewrite List.length_map, List.length_seq. }
    rewrite <- Len.
    rewrite <- (size_list_to_set (C := gset node))
      by apply relation_nodes_NoDup.
    apply subseteq_size. intros x Hx.
    apply elem_of_list_to_set, list_elem_of_In in Hx.
    unfold relation_nodes in Hx. apply in_map_iff in Hx as [k [<- Hk]].
    apply in_seq in Hk.
    destruct (lookup_lt_is_Some_2 relations (k - relations_added b))
      as [r Hr]; [lia|].
    replace k with (relations_added b + (k - relations_added b))%nat by lia.
    exact (Nodes _ _ Hr). }
  split; [|split].
  - intros i r H n. subst n.
    split; [reflexivity|split; [|split]].
    + apply (add_relations_nodes _ _ _ _ H).
    + apply relation_instance_in_namespace.
    + exact (Nodes _ _ H).
  - exact Size.
  - intros NE. unfold total_entities.
    destruct (size _) eqn:E; [|reflexivity].
    destruct relations; [congruence|]. simpl in Size. lia.
Qed.
End BuilderFacts.

(** * The properties on the worked examples *)

Section Witnesses.
Import EntityExtractor ChunkLoader Examples.

(** [ascii_lower] and [is_ascii_word] are what the parameters are assumed
    to be on ASCII text. *)
Lemma ascii_lower_spec s : ascii_only s = true -> ascii_lower s = ascii_lower s.
Proof. reflexivity. Qed.

Lemma is_ascii_word_spec c : is_ascii c = true -> is_ascii_word c = is_ascii_word c.
Proof. reflexivity. Qed.

(** C1 on the reply of [nn_llm]: the first candidate is accepted and
    rewritten, the second, whose subject matches no entity, is dropped. *)
Lemma extracted_relations_are_validated_witness :
  In nn_relation
    (RelationExtractor.extract_relations_from_chunk ascii_lower nn_llm
       nn_chunk nn_entities)
  /\ In (RelationExtractor.subject nn_relation) nn_entities
  /\ In (RelationExtractor.object nn_relation) nn_entities
  /\ In (RelationExtractor.predicate nn_relation) RelationExtractor.schema_keys.
Proof.
  assert (H : In nn_relation
                (RelationExtractor.extract_relations_from_chunk ascii_lower
                   nn_llm nn_chunk nn_entities))
    by (vm_compute; left; reflexivity).
  split; [exact H|].
  destruct (extracted_relations_are_validated ascii_lower nn_llm nn_chunk
              nn_entities nn_relation H)
    as (raw & items & d & s & p & o & _ & _ & _ & _ & _ & _ & _ & _ & _
        & Hs & Ho & Hp & _).
  split; [exact Hs|split; [exact Ho|exact Hp]].
Defined.

(** C2 fails on ["k-Means"]: the query processor yields ["kmeans"], the
    builder ["k-means"]. *)
Lemma tokens_disagree_on_k_means :
  QueryProcessor._normalize_entity_name ascii_lower (cp "k-Means")
  <> KnowledgeGraphBuilder.entity_local_name ascii_lower is_ascii_word
       (cp "k-Means").
Proof.
  destruct (tokens_differ_on_hyphen ascii_lower is_ascii_word
              ascii_lower_spec is_ascii_word_spec) as [E1 E2].
  rewrite E1, E2. vm_compute. intros H. discriminate H.
Qed.

(** C2, as amended, on ["Support Vector Machine"]. *)
Lemma entity_tokens_agree_on_plain_names_witness :
  plain_name (cp "Support Vector Machine") = true
  /\ QueryProcessor.no_stop_word ascii_lower (cp "Support Vector Machine")
     = true
  /\ QueryProcessor._normalize_entity_name ascii_lower
       (cp "Support Vector Machine")
     = KnowledgeGraphBuilder.entity_local_name ascii_lower is_ascii_word
         (cp "Support Vector Machine").
Proof.
  split; [reflexivity|split; [reflexivity|]].
  apply (proj1 (entity_tokens_agree_on_plain_names ascii_lower is_ascii_word
                  ascii_lower_spec is_ascii_word_spec));
    reflexivity.
Defined.

(** C3 fails on [svms_candidates]: the entity of the mapping has
    frequency 0. *)
Lemma frequency_can_be_zero :
  EntityNormalizer.normalize_entities ascii_lower remove_dups svm_llm
    svms_candidates !! cp "Support Vector Machine" = Some svms_entity
  /\ EntityNormalizer.frequency svms_entity = 0%nat
  /\ ~ (EntityNormalizer.frequency svms_entity >= 1)%nat.
Proof.
  split; [vm_compute; reflexivity|].
  split; [reflexivity|]. vm_compute. lia.
Qed.

(** C3, as amended, on [svm_candidates]: the alias ["SVM"] occurs twice,
    the frequency is 3. *)
Lemma frequency_bounds_alias_occurrences_witness :
  EntityNormalizer.normalize_entities ascii_lower remove_dups svm_llm
    svm_candidates !! cp "Support Vector Machine" = Some svm_entity
  /\ In (PyStr (cp "SVM")) (EntityNormalizer.aliases svm_entity)
  /\ (EntityNormalizer.occurrences ascii_lower svm_candidates (cp "SVM")
      <= EntityNormalizer.frequency svm_entity)%nat.
Proof.
  assert (H : EntityNormalizer.normalize_entities ascii_lower remove_dups
                svm_llm svm_candidates !! cp "Support Vector Machine"
              = Some svm_entity)
    by (vm_compute; reflexivity).
  assert (A : In (PyStr (cp "SVM")) (EntityNormalizer.aliases svm_entity))
    by (left; reflexivity).
  split; [exact H|split; [exact A|]].
  exact (proj1 (frequency_bounds_alias_occurrences ascii_lower remove_dups
                  svm_llm svm_candidates _ _ H) (cp "SVM") A).
Defined.

(** C4 with the ASCII [lower]. *)
Lemma process_question_empty_raises_witness :
  QueryProcessor.process_question ascii_lower [] = Raise IndexError
  /\ QueryProcessor.process_question ascii_lower (cp "   ")
     = Raise IndexError.
Proof.
  apply (process_question_empty_raises ascii_lower). intros s _. reflexivity.
Defined.

(** C5 on [many_candidates]: both batches name ["Gradient Descent"], the
    mapping keeps the entity of the second. *)
Lemma later_batch_overwrites_witness :
  EntityNormalizer.normalize_entities ascii_lower remove_dups gd_llm
    many_candidates !! cp "Gradient Descent" = Some gd_entity_second
  /\ List.filter (fun kv => pystr_eqb (fst kv) (cp "Gradient Descent"))
       (map_to_list
          (EntityNormalizer.normalize_entities ascii_lower remove_dups gd_llm
             many_candidates))
     = [(cp "Gradient Descent", gd_entity_second)].
Proof.
  apply (later_batch_overwrites ascii_lower remove_dups gd_llm many_candidates
           0 1 first_batch second_batch gd_first gd_entity_first
           [] gd_second [] gd_entity_second (cp "Gradient Descent")).
  - lia.
  - vm_compute. reflexivity.
  - vm_compute. reflexivity.
  - vm_compute. left. reflexivity.
  - vm_compute. reflexivity.
  - reflexivity.
  - vm_compute. reflexivity.
  - vm_compute. reflexivity.
  - reflexivity.
  - reflexivity.
  - vm_compute. reflexivity.
Defined.

(** C7 with the ASCII [lower]. *)
Lemma process_question_who_created_svm_witness :
  QueryProcessor.process_question ascii_lower QueryProcessor.svm_question
  = Ok {| QueryProcessor.query_type := QueryProcessor.WHO_CREATED;
          QueryProcessor.entities := [cp "support_vector_machine"];
          QueryProcessor.confidence := 8 # 10;
          QueryProcessor.raw_question :=
            cp "quem criou support vector machine?" |}.
Proof.
  apply (proj1 (process_question_who_created_svm ascii_lower
                  ascii_lower_spec)).
Defined.

(** C8 on two relations added to a new builder: [entity:rel_1] is among
    the counted subjects. *)
Lemma relation_nodes_counted_as_entities_witness :
  [nn_relation; part_relation] !! 1%nat = Some part_relation
  /\ KnowledgeGraphBuilder.relation_instance_uri 1
     ∈ KGExecutor.entity_subjects
         (KnowledgeGraphBuilder.graph
            (KnowledgeGraphBuilder.add_relations ascii_lower is_ascii_word
               KnowledgeGraphBuilder.new_builder
               [nn_relation; part_relation])).
Proof.
  split; [reflexivity|].
  exact (proj2 (proj2 (proj2
           (proj1 (relation_nodes_counted_as_entities ascii_lower
                     is_ascii_word KnowledgeGraphBuilder.new_builder
                     [nn_relation; part_relation])
              1%nat part_relation eq_refl)))).
Defined.

(** Two relations between two entities: four subjects lie in the entity
    namespace, the two entities and the two relation nodes. *)
Example total_entities_of_two_relations :
  KGExecutor.total_entities
    (KnowledgeGraphBuilder.graph
       (KnowledgeGraphBuilder.add_relations ascii_lower is_ascii_word
          KnowledgeGraphBuilder.new_builder [nn_relation; part_relation]))
  = Ok 4%nat.
Proof. vm_compute. reflexivity. Qed.

(** C9 on [svm_candidates] and on the chunk [nn_chunk]. *)
Lemma confidence_is_one_witness :
  EntityNormalizer.normalize_entities ascii_lower remove_dups svm_llm
    svm_candidates !! cp "Support Vector Machine" = Some svm_entity
  /\ In nn_relation
       (RelationExtractor.extract_relations_from_chunk ascii_lower nn_llm
          nn_chunk nn_entities)
  /\ EntityNormalizer.confidence svm_entity = 1%Q
  /\ RelationExtractor.confidence nn_relation = 1%Q.
Proof.
  assert (H1 : EntityNormalizer.normalize_entities ascii_lower remove_dups
                 svm_llm svm_candidates !! cp "Support Vector Machine"
               = Some svm_entity)
    by (vm_compute; reflexivity).
  assert (H2 : In nn_relation
                 (RelationExtractor.extract_relations_from_chunk ascii_lower
                    nn_llm nn_chunk nn_entities))
    by (vm_compute; left; reflexivity).
  split; [exact H1|split; [exact H2|]].
  destruct (confidence_is_one ascii_lower remove_dups svm_llm nn_llm)
    as [C1 C2].
  split; [exact (C1 _ _ _ H1)|exact (C2 _ _ _ H2)].
Defined.

(** C10 on ["hello world?"]. *)
Lemma fallback_entity_is_raw_last_word_witness :
  QueryProcessor.fallback_path ascii_lower (cp "hello world?")
  /\ QueryProcessor.process_question ascii_lower (cp "hello world?")
     = Ok {| QueryProcessor.query_type := QueryProcessor.WHAT_IS;
             QueryProcessor.entities := [cp "world?"];
             QueryProcessor.confidence := 3 # 10;
             QueryProcessor.raw_question := cp "hello world?" |}.
Proof.
  destruct (fallback_entity_is_raw_last_word ascii_lower ascii_lower_spec)
    as (_ & F & P & _).
  split; [exact F|exact P].
Defined.
End Witnesses.

(** * Further properties *)

Section RegexFacts.
Context {A : Type}.

Lemma rep_greedy_some p s (k : pystr -> option A) a :
  rep_greedy p s k = Some a -> exists s', k s' = Some a.
Proof.
  induction s as [|c s IH]; simpl; [eauto|].
  destruct (p c); [|eauto].
  destruct (rep_greedy p s k) eqn:E; [|eauto].
  intros [= <-]. now apply IH.
Qed.

Lemma rep_lazy_some p s (k : pystr -> option A) a :
  rep_lazy p s k = Some a -> exists s', k s' = Some a.
Proof.
  induction s as [|c s IH]; simpl.
  - destruct (k []) eqn:E; [|discriminate]. intros [= <-]. eauto.
  - destruct (k (c :: s)) eqn:E; [intros [= <-]; eauto|].
    destruct (p c); [apply IH|discriminate].
Qed.

Lemma match_chars_some p q s (k : pystr -> option A) a :
  match_chars p q s k = Some a -> exists s', k s' = Some a.
Proof.
  destruct q; simpl.
  - destruct s as [|c s]; [discriminate|]. destruct (p c); [eauto|discriminate].
  - destruct s as [|c s]; [eauto|]. destruct (p c); [|eauto].
    destruct (k s) eqn:E; [intros [= <-]|]; eauto.
  - apply rep_greedy_some.
  - destruct s as [|c s]; [discriminate|].
    destruct (p c); [apply rep_greedy_some|discriminate].
  - apply rep_lazy_some.
Qed.

Lemma group_cons_other i j t m :
  is_Some (group i m) -> is_Some (group i ((j, t) :: m)).
Proof. simpl. destruct (Nat.eqb i j); eauto. Qed.

(** A successful match hands its continuation the groups it was given
    and the groups the pattern always fills. *)
Lemma rmatch_sets r : forall s caps (k : pystr -> captures -> option A) a,
  rmatch r s caps k = Some a ->
  exists s' caps',
    k s' caps' = Some a
    /\ (forall j, is_Some (group j caps) -> is_Some (group j caps'))
    /\ (forall j, sets_group j r = true -> is_Some (group j caps')).
Proof.
  induction r as [|p q|r1 IH1 r2 IH2|r1 IH1 r2 IH2|i r1 IH1];
    intros s caps k a; simpl.
  - intros H. exists s, caps. repeat split; auto. discriminate.
  - intros H. apply match_chars_some in H as [s' H].
    exists s', caps. repeat split; auto. discriminate.
  - intros H. apply IH1 in H as (s1 & c1 & H & K1 & S1).
    apply IH2 in H as (s2 & c2 & H & K2 & S2).
    exists s2, c2. split; [exact H|]. split; [auto|].
    intros j Hj. apply orb_prop in Hj as [Hj|Hj]; auto.
  - destruct (rmatch r1 s caps k) eqn:E.
    + intros [= <-]. apply IH1 in E as (s1 & c1 & H & K1 & S1).
      exists s1, c1. split; [exact H|]. split; [auto|].
      intros j Hj. apply andb_prop in Hj as [Hj _]. auto.
    + intros H. apply IH2 in H as (s2 & c2 & H & K2 & S2).
      exists s2, c2. split; [exact H|]. split; [auto|].
      intros j Hj. apply andb_prop in Hj as [_ Hj]. auto.
  - intros H. apply IH1 in H as (s1 & c1 & H & K1 & S1).
    eexists _, _. split; [exact H|]. split.
    + intros j Hj. apply group_cons_other. auto.
    + intros j Hj. simpl. destruct (Nat.eqb j i) eqn:E; [eauto|].
      simpl in Hj. auto.
Qed.
End RegexFacts.

Lemma re_search_sets r i : forall s m,
  re_search r s = Some m -> sets_group i r = true -> is_Some (group i m).
Proof.
  induction s as [|c s IH]; intros m; simpl.
  - destruct (rmatch r [] [] _) eqn:E; [|discriminate].
    intros [= <-] S. apply rmatch_sets in E as (s' & c' & [= <-] & _ & H).
    auto.
  - destruct (rmatch r (c :: s) [] _) eqn:E.
    + intros [= <-] S. apply rmatch_sets in E as (s' & c' & [= <-] & _ & H).
      auto.
    + apply IH.
Qed.

Section QueryShapeFacts.
Import QueryProcessor QueryShape.
Variable lower : pystr -> pystr.

Lemma keep_token_chars_token s : is_token (keep_token_chars s) = true.
Proof.
  unfold is_token, keep_token_chars. apply forallb_forall.
  intros c Hc. now apply filter_In in Hc as [_ Hc].
Qed.

Lemma normalize_is_token e : is_token (_normalize_entity_name lower e) = true.
Proof. apply keep_token_chars_token. Qed.

Lemma try_patterns_shape question qt extractor patterns :
  (forall m, Forall (fun i => is_Some (group i m)) (List.seq 1 (arity qt)) ->
     exists ents, extractor m = Ok ents
       /\ length ents = arity qt
       /\ (qt <> LIST_BY_TYPE -> forallb is_token ents = true)) ->
  Forall (fun p => Forall (fun i => sets_group i p = true)
                     (List.seq 1 (arity qt))) patterns ->
  round_ok question qt (try_patterns question patterns qt extractor) patterns.
Proof.
  intros X. induction patterns as [|p ps IH]; intros S; simpl.
  - constructor.
  - apply Forall_cons_1 in S as [Sp Sps]. specialize (IH Sps).
    destruct (re_search p question) as [m|] eqn:E.
    + destruct (X m) as (ents & -> & L & T).
      { apply Forall_forall. intros i Hi.
        eapply re_search_sets; [exact E|].
        rewrite Forall_forall in Sp. now apply Sp. }
      destruct ents as [|e ents]; [destruct qt; discriminate|].
      simpl. split; [|split; [reflexivity|]].
      * unfold pattern_intent. simpl. auto.
      * left. congruence.
    + destruct (try_patterns question ps qt extractor) as [[i|e]|]; simpl in *.
      * destruct IH as (P & Q & Ex). auto.
      * exact IH.
      * constructor; assumption.
Qed.

Lemma single_extractor m :
  Forall (fun i => is_Some (group i m)) (List.seq 1 1) ->
  exists ents, _extract_single_entity lower m = Ok ents
    /\ length ents = 1%nat /\ forallb is_token ents = true.
Proof.
  intros H. apply Forall_cons_1 in H as [[g G] _].
  unfold _extract_single_entity, group_str. rewrite G. simpl.
  eexists. split; [reflexivity|]. split; [reflexivity|].
  simpl. now rewrite normalize_is_token.
Qed.

Lemma two_extractor m :
  Forall (fun i => is_Some (group i m)) (List.seq 1 2) ->
  exists ents, _extract_two_entities lower m = Ok ents
    /\ length ents = 2%nat /\ forallb is_token ents = true.
Proof.
  intros H. apply Forall_cons_1 in H as [[g1 G1] H].
  apply Forall_cons_1 in H as [[g2 G2] _].
  unfold _extract_two_entities, group_str. rewrite G1, G2. simpl.
  eexists. split; [reflexivity|]. split; [reflexivity|].
  simpl. now rewrite !normalize_is_token.
Qed.

Lemma type_extractor m :
  Forall (fun i => is_Some (group i m)) (List.seq 1 1) ->
  exists ents, _extract_type_entity lower m = Ok ents
    /\ length ents = 1%nat.
Proof.
  intros H. apply Forall_cons_1 in H as [[g G] _].
  unfold _extract_type_entity, group_str. rewrite G. simpl. eauto.
Qed.

(** Every pattern fills the groups its extractor reads. *)
Lemma patterns_fill_groups :
  Forall (fun p => sets_group 1 p = true) all_patterns
  /\ Forall (fun p => sets_group 2 p = true) how_related_patterns.
Proof. split; repeat constructor. Qed.

Lemma try_checks_shape question checks :
  Forall good_check checks ->
  match try_checks question checks with
  | None =>
      Forall (fun p => re_search p question = None)
        (concat (List.map (fun c => fst (fst c)) checks))
  | Some (Ok intent) =>
      pattern_intent question intent
      /\ Exists (fun p => re_search p question <> None)
           (concat (List.map (fun c => fst (fst c)) checks))
  | Some (Raise _) => False
  end.
Proof.
  induction checks as [|[[patterns qt] extractor] checks IH]; intros G;
    simpl; [constructor|].
  apply Forall_cons_1 in G as [[X S] G]. specialize (IH G).
  pose proof (try_patterns_shape question qt extractor patterns X S) as R.
  unfold round_ok in R.
  destruct (try_patterns question patterns qt extractor) as [[i|e]|].
  - destruct R as (P & _ & Ex). split; [exact P|].
    apply Exists_app. now left.
  - exact R.
  - destruct (try_checks question checks) as [[i|e]|].
    + destruct IH as [P Ex]. split; [exact P|]. apply Exists_app. now right.
    + exact IH.
    + apply Forall_app. split; assumption.
Qed.

Lemma intent_checks_good : Forall good_check (intent_checks lower).
Proof.
  assert (S1 : forall m,
            Forall (fun i => is_Some (group i m)) (List.seq 1 1) ->
            exists ents, _extract_single_entity lower m = Ok ents
              /\ length ents = 1%nat
              /\ forallb is_token ents = true) by apply single_extractor.
  unfold intent_checks.
  repeat (apply List.Forall_cons); try apply List.Forall_nil;
    (split; [|repeat constructor]); cbn [arity]; intros m H.
  - destruct (S1 m H) as (e & ? & ? & ?); eauto.
  - destruct (S1 m H) as (e & ? & ? & ?); eauto.
  - destruct (S1 m H) as (e & ? & ? & ?); eauto.
  - destruct (S1 m H) as (e & ? & ? & ?); eauto.
  - destruct (two_extractor m H) as (e & ? & ? & ?); eauto.
  - destruct (type_extractor m H) as (e & ? & ?). exists e.
    split; [assumption|]. split; [assumption|]. congruence.
  - destruct (S1 m H) as (e & ? & ? & ?); eauto.
Qed.

Lemma intent_checks_patterns :
  concat (List.map (fun c => fst (fst c)) (intent_checks lower))
  = all_patterns.
Proof. reflexivity. Qed.

Lemma process_question_shape question :
  match try_checks question (intent_checks lower) with
  | None => Forall (fun p => re_search p question = None) all_patterns
  | Some (Ok intent) =>
      pattern_intent question intent
      /\ Exists (fun p => re_search p question <> None) all_patterns
  | Some (Raise _) => False
  end.
Proof.
  rewrite <- intent_checks_patterns.
  apply try_checks_shape, intent_checks_good.
Qed.
End QueryShapeFacts.

Lemma split_ws_aux_cur cur s : cur <> [] -> split_ws_aux cur s <> [].
Proof.
  revert cur. induction s as [|c s IH]; intros cur NE; simpl.
  - now destruct cur.
  - destruct (isspace c).
    + now destruct cur.
    + now apply IH.
Qed.

Lemma lstrip_by_head p s :
  lstrip_by p s = [] \/ exists c r, lstrip_by p s = c :: r /\ p c = false.
Proof.
  induction s as [|c s IH]; simpl; [now left|].
  destruct (p c) eqn:E; [exact IH|]. right. eauto.
Qed.

Lemma rstrip_by_head p c r :
  p c = false -> exists r', rstrip_by p (c :: r) = c :: r'.
Proof.
  intros E. cbn [rstrip_by]. rewrite E. destruct (rstrip_by p r); eauto.
Qed.

Lemma strip_by_head p s :
  strip_by p s = [] \/ exists c r, strip_by p s = c :: r /\ p c = false.
Proof.
  rewrite strip_by_rstrip.
  destruct (lstrip_by_head p s) as [->|(c & r & -> & E)]; [now left|].
  right. destruct (rstrip_by_head p c r E) as [r' ->]. eauto.
Qed.

(** A stripped string without a word is empty. *)
Lemma split_ws_strip_nil s : split_ws (strip s) = [] -> strip s = [].
Proof.
  unfold strip. destruct (strip_by_head isspace s) as [->|(c & r & -> & E)];
    [reflexivity|].
  unfold split_ws. simpl. rewrite E. intros H.
  now apply split_ws_aux_cur in H.
Qed.

Section QueryProcessorMore.
Import QueryProcessor QueryShape.
Variable lower : pystr -> pystr.

Lemma no_pattern_matches_empty :
  Forall (fun p => re_search p [] = None) all_patterns.
Proof. repeat constructor. Qed.

Lemma process_question_raises q e :
  process_question lower q = Raise e
  <-> e = IndexError /\ strip (lower q) = [].
Proof.
  unfold process_question.
  pose proof (process_question_shape lower (strip (lower q))) as S.
  split.
  - destruct (try_checks _ _) as [[i|e']|]; [discriminate|tauto|].
    unfold last_item.
    destruct (rev (split_ws (strip (lower q)))) as [|w l] eqn:R; simpl;
      [|discriminate].
    intros [= <-]. split; [reflexivity|].
    apply split_ws_strip_nil.
    rewrite <- (rev_involutive (split_ws _)), R. reflexivity.
  - intros [-> E]. rewrite E in *.
    destruct (try_checks _ _) as [[i|e']|]; [|tauto|reflexivity].
    destruct S as [_ Ex]. exfalso.
    apply Exists_exists in Ex as (p & Hp & N).
    pose proof no_pattern_matches_empty as F. rewrite Forall_forall in F.
    now apply N, F.
Qed.

Lemma process_question_intent q intent :
  process_question lower q = Ok intent ->
  raw_question intent = strip (lower q)
  /\ length (entities intent) = arity (query_type intent)
  /\ ((confidence intent = 8 # 10
       /\ Exists (fun p => re_search p (strip (lower q)) <> None)
            all_patterns)
      \/ (confidence intent = 3 # 10 /\ query_type intent = WHAT_IS
          /\ Forall (fun p => re_search p (strip (lower q)) = None)
               all_patterns)).
Proof.
  unfold process_question.
  pose proof (process_question_shape lower (strip (lower q))) as S.
  destruct (try_checks _ _) as [[i|e']|].
  - intros [= <-]. destruct S as [(R & C & L & _) Ex].
    split; [exact R|split; [exact L|left; auto]].
  - tauto.
  - destruct (last_item _) as [w|]; simpl; [|discriminate].
    intros [= <-]. simpl.
    split; [reflexivity|split; [reflexivity|right; auto]].
Qed.

(** X1: an entity taken from a pattern other than the LIST_BY_TYPE ones is
    a word over [[a-z0-9_]]. *)
Theorem pattern_entities_are_tokens q intent :
  process_question lower q = Ok intent ->
  confidence intent = 8 # 10 ->
  query_type intent <> LIST_BY_TYPE ->
  forallb is_token (entities intent) = true.
Proof.
  unfold process_question.
  pose proof (process_question_shape lower (strip (lower q))) as S.
  destruct (try_checks _ _) as [[i|e']|].
  - intros [= <-] _. now destruct S as [(_ & _ & _ & T) _].
  - tauto.
  - destruct (last_item _) as [w|]; simpl; [|discriminate].
    intros [= <-]. simpl. discriminate.
Qed.

(** X2: the fallback is taken exactly when no pattern matches: the test
    [if entities] never turns a match down. *)
Theorem fallback_iff_no_match q :
  fallback_path lower q
  <-> Forall (fun p => re_search p (strip (lower q)) = None) all_patterns.
Proof.
  unfold fallback_path.
  pose proof (process_question_shape lower (strip (lower q))) as S.
  destruct (try_checks _ _) as [[i|e']|].
  - destruct S as [_ Ex]. split; [discriminate|].
    intros F. exfalso. apply Exists_exists in Ex as (p & Hp & N).
    rewrite Forall_forall in F. now apply N, F.
  - tauto.
  - tauto.
Qed.

(** X3: [process_question] raises exactly on the questions that are empty
    once lowered and stripped, and what it raises is [IndexError]. *)
Theorem process_question_raises_iff q e :
  process_question lower q = Raise e
  <-> e = IndexError /\ strip (lower q) = [].
Proof. apply process_question_raises. Qed.

(** X4: the intent [process_question] returns records the lowered,
    stripped question, holds two entities for HOW_RELATED and one for
    every other type, and has confidence 0.8 when a pattern matches the
    question and 0.3, with type WHAT_IS, when none does. *)
Theorem process_question_intent_shape q intent :
  process_question lower q = Ok intent ->
  raw_question intent = strip (lower q)
  /\ length (entities intent) = arity (query_type intent)
  /\ ((confidence intent = 8 # 10
       /\ Exists (fun p => re_search p (strip (lower q)) <> None)
            all_patterns)
      \/ (confidence intent = 3 # 10 /\ query_type intent = WHAT_IS
          /\ Forall (fun p => re_search p (strip (lower q)) = None)
               all_patterns)).
Proof. apply process_question_intent. Qed.
End QueryProcessorMore.

Section QueryGenerationFacts.
Import QueryProcessor QueryShape QueryTemplates QueryGeneration.
Variable lower : pystr -> pystr.

Lemma generate_returns intent :
  (arity (query_type intent) <= length (entities intent))%nat ->
  exists sparql, generate_sparql_query intent = Returned sparql.
Proof.
  unfold generate_sparql_query, first_entity.
  destruct (query_type intent); simpl;
    destruct (entities intent) as [|e1 [|e2 l]]; simpl; intros H;
    try lia; eauto.
Qed.


(** X6: [process_and_generate] raises exactly when [process_question]
    does, that is on a question without a word: every intent
    [process_question] returns has the entities its template reads. *)
Theorem process_and_generate_raises_iff q e :
  process_and_generate lower q = Raised e
  <-> e = Builtin IndexError /\ strip (lower q) = [].
Proof.
  unfold process_and_generate.
  destruct (process_question lower q) as [intent|e'] eqn:P.
  - pose proof (process_question_intent lower q intent P) as (_ & L & _).
    destruct (generate_returns intent) as [sparql ->]; [lia|].
    split; [discriminate|]. intros [_ E].
    assert (R : process_question lower q = Raise IndexError)
      by now apply process_question_raises.
    congruence.
  - apply process_question_raises in P as [-> E].
    split; [intros [= <-]; auto|intros [-> _]; reflexivity].
Qed.
End QueryGenerationFacts.

Section CounterFacts.
Import EntityExtractor EntityNormalizer NormalizerShape.

Lemma counter_incr_get k c k' :
  counter_get (counter_incr k c) k'
  = if pystr_eqb k' k then S (counter_get c k') else counter_get c k'.
Proof.
  induction c as [|[k0 n] c IH]; simpl.
  - reflexivity.
  - destruct (pystr_eqb k k0) eqn:E; simpl.
    + apply pystr_eqb_eq in E. subst k0.
      destruct (pystr_eqb k' k); reflexivity.
    + rewrite IH. destruct (pystr_eqb k' k0) eqn:E0; [|reflexivity].
      apply pystr_eqb_eq in E0. subst k0.
      destruct (pystr_eqb k' k) eqn:E1; [|reflexivity].
      apply pystr_eqb_eq in E1. subst k'.
      now rewrite pystr_eqb_refl in E.
Qed.

Lemma counter_incr_keys k c :
  List.map fst (counter_incr k c)
  = if existsb (pystr_eqb k) (List.map fst c) then List.map fst c
    else List.map fst c ++ [k].
Proof.
  induction c as [|[k0 n] c IH]; simpl; [reflexivity|].
  destruct (pystr_eqb k k0); simpl; [reflexivity|].
  rewrite IH. now destruct (existsb _ _).
Qed.

Lemma counter_incr_ok k c : counter_ok c -> counter_ok (counter_incr k c).
Proof.
  intros [ND G]. split.
  - rewrite counter_incr_keys.
    destruct (existsb _ _) eqn:E; [exact ND|].
    assert (NI : ~ In k (List.map fst c)).
    { intros H.
      assert (existsb (pystr_eqb k) (List.map fst c) = true)
        by (apply existsb_exists; exists k; split;
            [exact H|apply pystr_eqb_refl]).
      congruence. }
    clear -ND NI. induction (List.map fst c) as [|x l IH]; simpl.
    + constructor; [tauto|constructor].
    + inversion ND; subst. constructor.
      * rewrite in_app_iff. simpl. intros [H|[H|[]]]; [tauto|].
        subst. apply NI. now left.
      * apply IH; [assumption|]. intros H. apply NI. now right.
  - intros k'. rewrite counter_incr_get, counter_incr_keys.
    destruct (pystr_eqb k' k) eqn:E.
    + apply pystr_eqb_eq in E. subst k'. split; [lia|]. intros _.
      destruct (existsb _ _) eqn:X.
      * apply existsb_exists in X as (y & Hy & Ey).
        apply pystr_eqb_eq in Ey. now subst.
      * apply in_or_app. right. now left.
    + rewrite <- G. destruct (existsb _ _); [reflexivity|].
      rewrite in_app_iff. simpl. split; [|tauto].
      intros [H|[H|[]]]; [exact H|]. subst.
      now rewrite pystr_eqb_refl in E.
Qed.

Lemma fold_counter_ok xs c :
  counter_ok c -> counter_ok (fold_left (fun c k => counter_incr k c) xs c).
Proof.
  revert c. induction xs as [|x xs IH]; intros c H; simpl; [exact H|].
  apply IH, counter_incr_ok, H.
Qed.

Lemma fold_counter_get xs c k :
  counter_get (fold_left (fun c k => counter_incr k c) xs c) k
  = (counter_get c k
     + length (List.filter (fun x => pystr_eqb k x) xs))%nat.
Proof.
  revert c. induction xs as [|x xs IH]; intros c; simpl; [lia|].
  rewrite IH, counter_incr_get. destruct (pystr_eqb k x); simpl; lia.
Qed.

Lemma Counter_ok xs : counter_ok (Counter xs).
Proof.
  apply fold_counter_ok. split; [constructor|].
  intros k. simpl. split; [tauto|lia].
Qed.

Lemma Counter_get xs k :
  counter_get (Counter xs) k
  = length (List.filter (fun x => pystr_eqb k x) xs).
Proof. unfold Counter. now rewrite fold_counter_get. Qed.

Lemma counter_get_In c k n :
  List.NoDup (List.map fst c) -> In (k, n) c -> counter_get c k = n.
Proof.
  induction c as [|[k0 n0] c IH]; simpl; [tauto|].
  intros ND [H|H].
  - injection H as -> ->. now rewrite pystr_eqb_refl.
  - inversion ND; subst. destruct (pystr_eqb k k0) eqn:E.
    + apply pystr_eqb_eq in E. subst k0. exfalso. apply H2.
      apply in_map_iff. now exists (k, n).
    + now apply IH.
Qed.

Lemma filter_length_pos (xs : list pystr) k :
  (1 <= length (List.filter (fun x => pystr_eqb k x) xs))%nat <-> In k xs.
Proof.
  induction xs as [|x xs IH]; simpl; [split; [lia|tauto]|].
  destruct (pystr_eqb k x) eqn:E; simpl.
  - apply pystr_eqb_eq in E. subst. split; [auto|lia].
  - rewrite IH. split; [auto|]. intros [H|H]; [|exact H].
    subst. now rewrite pystr_eqb_refl in E.
Qed.
End CounterFacts.

Section BatchFacts.
Import EntityExtractor EntityNormalizer NormalizerShape.

Lemma batches_of_concat fuel n l :
  (0 < n)%nat -> (length l <= fuel)%nat ->
  concat (batches_of fuel n l) = l.
Proof.
  intros N. revert l. induction fuel as [|fuel IH]; intros l L; simpl.
  - destruct l; [reflexivity|simpl in L; lia].
  - destruct l as [|x l]; [reflexivity|].
    simpl. rewrite IH; [apply firstn_skipn|].
    rewrite length_skipn. cbn [length] in *. lia.
Qed.

Lemma batches_of_sizes fuel n l :
  (0 < n)%nat ->
  Forall (fun b => (1 <= length b <= n)%nat) (batches_of fuel n l).
Proof.
  intros N. revert l. induction fuel as [|fuel IH]; intros l; simpl;
    [constructor|].
  destruct l as [|x l]; [constructor|].
  constructor; [|apply IH].
  rewrite length_firstn. cbn [length]. lia.
Qed.

Lemma batches_of_nil fuel n : batches_of fuel n [] = [].
Proof. now destruct fuel. Qed.

Lemma batches_of_count fuel n l :
  (0 < n)%nat -> (length l <= fuel)%nat ->
  (length l <= n * length (batches_of fuel n l)
   /\ (l <> [] -> n * length (batches_of fuel n l) < length l + n))%nat.
Proof.
  intros N. revert l. induction fuel as [|fuel IH]; intros l L.
  - destruct l; cbn [length] in *; [|lia]. simpl. split; [lia|congruence].
  - destruct l as [|x l]; [simpl; split; [lia|congruence]|].
    cbn [batches_of length] in *.
    remember (skipn n (x :: l)) as rest eqn:R.
    assert (LR : length rest = (S (length l) - n)%nat)
      by (subst rest; rewrite length_skipn; reflexivity).
    destruct (IH rest) as [A B]; [lia|].
    set (k := length (batches_of fuel n rest)) in *.
    replace (n * S k)%nat with (n + n * k)%nat by lia.
    split; [lia|]. intros _.
    destruct rest as [|y rest].
    + subst k. rewrite batches_of_nil. simpl. lia.
    + specialize (B ltac:(discriminate)). cbn [length] in *. lia.
Qed.

Lemma NoDup_map_fst_filter {B} (p : pystr * B -> bool) c :
  List.NoDup (List.map fst c) -> List.NoDup (List.map fst (List.filter p c)).
Proof.
  induction c as [|x c IH]; simpl; [auto|].
  intros ND. inversion ND; subst. destruct (p x); simpl; [|auto].
  constructor; [|auto]. intros H. apply H1.
  apply in_map_iff in H as (y & <- & Hy). apply filter_In in Hy as [Hy _].
  apply in_map_iff. now exists y.
Qed.

(** The texts [_group_similar_entities] sends to the model. *)
Lemma group_concat entities n :
  (0 < n)%nat ->
  concat (_group_similar_entities entities n)
  = List.map fst
      (List.filter (fun kc => (2 <=? snd kc)%nat || (3 <? length (fst kc))%nat)
         (Counter (texts entities))).
Proof. intros N. unfold _group_similar_entities. now apply batches_of_concat. Qed.

(** X7: for a positive batch size every batch holds between one and
    [batch_size] texts, no text is sent twice, and the number of batches
    - one call of the model each - is the number of texts over the batch
    size, rounded up. *)
Theorem group_batches_sizes entities n :
  (0 < n)%nat ->
  Forall (fun b => (1 <= length b <= n)%nat)
    (_group_similar_entities entities n)
  /\ List.NoDup (concat (_group_similar_entities entities n))
  /\ (length (concat (_group_similar_entities entities n))
      <= n * length (_group_similar_entities entities n))%nat
  /\ (concat (_group_similar_entities entities n) <> [] ->
      (n * length (_group_similar_entities entities n)
       < length (concat (_group_similar_entities entities n)) + n)%nat).
Proof.
  intros N. split; [|split].
  - now apply batches_of_sizes.
  - rewrite group_concat by assumption.
    apply NoDup_map_fst_filter, Counter_ok.
  - rewrite group_concat by assumption.
    unfold _group_similar_entities. now apply batches_of_count.
Qed.

(** X8: a text is sent to the model exactly when it is the stripped text
    of a candidate and either occurs twice or more among the stripped
    texts or has more than three characters. *)
Theorem group_batches_members entities n t :
  (0 < n)%nat ->
  In t (concat (_group_similar_entities entities n))
  <-> worth_normalizing entities t.
Proof.
  intros N. rewrite group_concat by assumption.
  pose proof (Counter_ok (texts entities)) as [ND G].
  unfold worth_normalizing, text_count.
  rewrite <- (Counter_get (texts entities) t).
  rewrite in_map_iff. split.
  - intros ([k c] & <- & H). apply filter_In in H as [H T].
    cbn [fst snd] in *.
    rewrite (counter_get_In _ _ _ ND H).
    split.
    + apply filter_length_pos. rewrite <- Counter_get. apply G.
      apply in_map_iff. now exists (k, c).
    + apply orb_prop in T as [T|T].
      * left. now apply Nat.leb_le in T.
      * right. now apply Nat.ltb_lt in T.
  - intros [I T].
    assert (K : In t (List.map fst (Counter (texts entities)))).
    { apply G. rewrite Counter_get. now apply filter_length_pos. }
    apply in_map_iff in K as ([k c] & <- & H). cbn [fst snd] in *.
    exists (k, c). split; [reflexivity|]. apply filter_In. split; [exact H|].
    cbn [fst snd]. rewrite (counter_get_In _ _ _ ND H) in T.
    apply orb_true_intro. destruct T as [T|T].
    + left. now apply Nat.leb_le.
    + right. now apply Nat.ltb_lt.
Qed.
End BatchFacts.

Lemma rstrip_by_idem p s : rstrip_by p (rstrip_by p s) = rstrip_by p s.
Proof.
  induction s as [|c r IH]; [reflexivity|].
  cbn [rstrip_by]. destruct (rstrip_by p r) as [|y r'] eqn:E.
  - destruct (p c) eqn:Pc; [reflexivity|]. cbn [rstrip_by]. now rewrite Pc.
  - cbn [rstrip_by]. cbn [rstrip_by] in IH. now rewrite IH.
Qed.

Lemma strip_by_idem p s : strip_by p (strip_by p s) = strip_by p s.
Proof.
  rewrite (strip_by_rstrip p (strip_by p s)).
  assert (L : lstrip_by p (strip_by p s) = strip_by p s).
  { destruct (strip_by_head p s) as [->|(c & r & -> & E)]; [reflexivity|].
    simpl. now rewrite E. }
  rewrite L, strip_by_rstrip. apply rstrip_by_idem.
Qed.

Section NormalizerMore.
Import EntityExtractor EntityNormalizer NormalizerShape.
Variable lower : pystr -> pystr.
Variable set_iter : list pystr -> list pystr.
Variable llm : nat -> list pystr -> option pyval.

Local Abbreviation build_entity := (build_entity lower set_iter).
Local Abbreviation store_entity := (store_entity lower set_iter).
Local Abbreviation normalize_entities := (normalize_entities lower set_iter llm).
Local Abbreviation yields := (yields lower set_iter).

Lemma get_stripped_stripped d k s : get_stripped d k = Ok s -> strip s = s.
Proof.
  unfold get_stripped.
  destruct (dict_get d k) as [[]|]; intros [= <-]; apply strip_by_idem.
Qed.

Lemma build_entity_name entities norm_entity e :
  build_entity entities norm_entity = Ok (Some e) ->
  strip (canonical_name e) = canonical_name e.
Proof.
  unfold EntityNormalizer.build_entity.
  destruct (as_dict norm_entity) as [d|]; cbn [bind];
    [|intros ?; discriminate].
  destruct (get_stripped d (cp "canonical_name")) as [cn|] eqn:G; cbn [bind];
    [|intros ?; discriminate].
  apply get_stripped_stripped in G.
  destruct cn as [|c0 cn]; [intros ?; discriminate|].
  destruct (as_list _) as [l|]; cbn [bind]; [|intros ?; discriminate].
  destruct (total_frequency lower entities _) as [n|]; cbn [bind];
    [|intros ?; discriminate].
  destruct (mentions lower entities _) as [ms|]; cbn [bind];
    [|intros ?; discriminate].
  intros [= <-]. exact G.
Qed.

Lemma normalize_entities_nil : normalize_entities [] = ∅.
Proof. reflexivity. Qed.

Lemma total_frequency_strings entities names n :
  entities <> [] ->
  total_frequency lower entities names = Ok n ->
  forallb is_str names = true /\ n = occurrences_sum lower entities names.
Proof.
  intros NE. revert n. induction names as [|x names IH]; intros n; simpl.
  - intros [= <-]. auto.
  - destruct (count_alias lower entities x) as [c|] eqn:C; cbn [bind];
      [|intros ?; discriminate].
    destruct (total_frequency lower entities names) as [r|]; cbn [bind];
      [|intros ?; discriminate].
    intros [= <-]. destruct (IH r eq_refl) as [S ->].
    destruct x; try (destruct entities; [congruence|discriminate]).
    rewrite count_alias_str in C. injection C as <-. auto.
Qed.

Lemma normalized_name_aux entities name e :
  normalize_entities entities !! name = Some e ->
  canonical_name e = name /\ name <> [] /\ strip name = name.
Proof.
  intros L.
  destruct (normalize_entities_built lower set_iter llm entities name e L)
    as [<- [x B]].
  split; [reflexivity|]. split.
  - now apply build_entity_fields in B as (_ & _ & N).
  - now apply build_entity_name in B.
Qed.

(** X9: an entity is stored under its own canonical name, which is not
    empty and has no whitespace at either end. *)
Theorem normalized_names_are_stripped_keys entities name e :
  normalize_entities entities !! name = Some e ->
  canonical_name e = name /\ name <> [] /\ strip name = name.
Proof. apply normalized_name_aux. Qed.

(** X10: the aliases of a stored entity are all strings, and its frequency
    is the sum, over the canonical name and each alias in turn, of the
    candidates whose stripped text equals it up to case: an alias listed
    twice, or equal to the canonical name up to case, is counted twice. *)
Theorem normalized_frequency_is_sum entities name e :
  normalize_entities entities !! name = Some e ->
  forallb is_str (aliases e) = true
  /\ frequency e
     = (occurrences lower entities (canonical_name e)
        + occurrences_sum lower entities (aliases e))%nat.
Proof.
  intros L.
  assert (NE : entities <> []).
  { intros ->. rewrite normalize_entities_nil, lookup_empty in L.
    discriminate. }
  destruct (normalize_entities_built lower set_iter llm entities name e L)
    as [_ [x B]].
  apply build_entity_fields in B as (T & _ & _).
  apply (total_frequency_strings _ _ _ NE) in T as [S F].
  simpl in S, F. auto.
Qed.

Lemma store_entity_yields entities name m x :
  yields entities name x = true ->
  is_Some (store_entity entities m x !! name).
Proof.
  unfold EntityNormalizer.yields, EntityNormalizer.store_entity.
  destruct (build_entity entities x) as [[e|]|]; try discriminate.
  intros E. apply pystr_eqb_eq in E. subst name.
  rewrite lookup_insert_eq. eauto.
Qed.

Lemma fold_store_keys entities name items m :
  is_Some (fold_left (store_entity entities) items m !! name)
  <-> is_Some (m !! name)
      \/ exists x, In x items /\ yields entities name x = true.
Proof.
  revert m. induction items as [|x items IH]; intros m; simpl.
  - split; [auto|]. intros [H|(x & [] & _)]. exact H.
  - rewrite IH. destruct (yields entities name x) eqn:Y.
    + split; [intros _; right; eauto|]. intros _. left.
      now apply store_entity_yields.
    + rewrite (store_entity_other lower set_iter entities name m x Y).
      split.
      * intros [H|(y & Hy & Yy)]; [now left|right; eauto].
      * intros [H|(y & [<-|Hy] & Yy)]; [now left|congruence|right; eauto].
Qed.

(** X11: the mapping has an entry under a name exactly when some record of
    some batch is built into an entity of that name; a batch whose call
    fails, or whose reply cannot be iterated, has no record. *)
Theorem normalized_keys_are_yielded_names entities name :
  is_Some (normalize_entities entities !! name)
  <-> exists x, In x (all_records llm entities)
                /\ yields entities name x = true.
Proof.
  unfold EntityNormalizer.normalize_entities.
  rewrite fold_batches_items, fold_store_keys, lookup_empty.
  unfold all_records. split; [|auto].
  intros [[? H]|H]; [discriminate|exact H].
Qed.
End NormalizerMore.

Section MultimapFacts.
Import EntityNormalizer RelationPipeline.

Lemma multimap_append_keys k v d x :
  In x (List.map fst (multimap_append k v d))
  <-> x = k \/ In x (List.map fst d).
Proof.
  induction d as [|[k0 vs] d IH]; simpl; [intuition auto|].
  destruct (pystr_eqb k k0) eqn:E; simpl.
  - apply pystr_eqb_eq in E. subst. intuition auto.
  - rewrite IH. intuition auto.
Qed.

Lemma multimap_append_ok k v d :
  multimap_ok d -> multimap_ok (multimap_append k v d).
Proof.
  intros [ND NE]. induction d as [|[k0 vs] d IH]; simpl.
  - split; repeat constructor; simpl; [tauto|discriminate].
  - inversion ND; subst. apply Forall_cons_1 in NE as [N0 NE].
    destruct (pystr_eqb k k0) eqn:E; simpl.
    + split; [exact ND|]. constructor; [|exact NE].
      simpl. now destruct vs.
    + destruct (IH H2 NE) as [ND' NE']. split.
      * constructor; [|exact ND']. cbn [fst]. rewrite multimap_append_keys.
        intros [H|H]; [|tauto]. subst. now rewrite pystr_eqb_refl in E.
      * constructor; assumption.
Qed.

Lemma multimap_append_get k v d c :
  multimap_get (multimap_append k v d) c
  = if pystr_eqb c k then multimap_get d c ++ [v] else multimap_get d c.
Proof.
  induction d as [|[k0 vs] d IH]; simpl.
  - reflexivity.
  - destruct (pystr_eqb k k0) eqn:E; simpl.
    + apply pystr_eqb_eq in E. subst. now destruct (pystr_eqb c k0).
    + rewrite IH. destruct (pystr_eqb c k0) eqn:E0; [|reflexivity].
      apply pystr_eqb_eq in E0. subst.
      destruct (pystr_eqb k0 k) eqn:E1; [|reflexivity].
      apply pystr_eqb_eq in E1. subst. now rewrite pystr_eqb_refl in E.
Qed.

Lemma multimap_get_In d k vs :
  multimap_ok d -> (In (k, vs) d <-> multimap_get d k = vs /\ vs <> []).
Proof.
  intros [ND NE]. induction d as [|[k0 v0] d IH]; simpl.
  - split; [tauto|]. intros [<- H]. congruence.
  - inversion ND; subst. apply Forall_cons_1 in NE as [N0 NE].
    specialize (IH H2 NE). destruct (pystr_eqb k k0) eqn:E.
    + apply pystr_eqb_eq in E. subst. split.
      * intros [[= <-]|H]; [auto|]. exfalso. apply H1.
        apply in_map_iff. now exists (k0, vs).
      * intros [<- _]. now left.
    + rewrite <- IH. split; [|tauto]. intros [[= <- <-]|H]; [|exact H].
      now rewrite pystr_eqb_refl in E.
Qed.

Lemma chunks_of_entity_ok name chs d :
  multimap_ok d ->
  multimap_ok (fold_left (fun d c => multimap_append c name d) chs d).
Proof.
  revert d. induction chs as [|c chs IH]; intros d H; simpl; [exact H|].
  apply IH, multimap_append_ok, H.
Qed.

Lemma chunks_of_entity_get name chs d c :
  multimap_get (fold_left (fun d c => multimap_append c name d) chs d) c
  = multimap_get d c
    ++ List.map (fun _ => name) (List.filter (pystr_eqb c) chs).
Proof.
  revert d. induction chs as [|x chs IH]; intros d; simpl.
  - now rewrite app_nil_r.
  - rewrite IH, multimap_append_get.
    destruct (pystr_eqb c x); simpl; [now rewrite <- app_assoc|reflexivity].
Qed.

Lemma chunks_of_entities_fold items d c :
  multimap_ok d ->
  let d' :=
    fold_left
      (fun d item =>
         fold_left (fun d chunk_id => multimap_append chunk_id (fst item) d)
           (source_chunks (snd item)) d)
      items d in
  multimap_ok d' /\ multimap_get d' c = multimap_get d c ++ citing c items.
Proof.
  revert d. induction items as [|item items IH]; intros d H; simpl.
  - split; [exact H|now rewrite app_nil_r].
  - destruct (IH _ (chunks_of_entity_ok (fst item)
                      (source_chunks (snd item)) d H)) as [O G].
    split; [exact O|]. simpl in G. rewrite G, chunks_of_entity_get.
    now rewrite <- app_assoc.
Qed.

(** X12: [map_entities_to_chunks] lists a chunk exactly when two or more
    source-chunk entries of the entities name it, and lists under it the
    names of those entities, one per entry, in the order of the mapping;
    no chunk is listed twice. *)
Theorem map_entities_to_chunks_spec normalized_entities :
  List.NoDup (List.map fst (map_entities_to_chunks normalized_entities))
  /\ forall c names,
       In (c, names) (map_entities_to_chunks normalized_entities)
       <-> names = citing c normalized_entities /\ (2 <= length names)%nat.
Proof.
  destruct (chunks_of_entities_fold normalized_entities [] []
              (conj (List.NoDup_nil _) (List.Forall_nil _)))
    as [O _].
  split.
  - unfold map_entities_to_chunks. apply NoDup_map_fst_filter, O.
  - intros c names. unfold map_entities_to_chunks.
    rewrite filter_In. cbn [snd].
    rewrite (multimap_get_In _ c names O).
    destruct (chunks_of_entities_fold normalized_entities [] c
                (conj (List.NoDup_nil _) (List.Forall_nil _))) as [_ G].
    simpl in G. unfold chunks_of_entities. rewrite G.
    rewrite Nat.leb_le. split.
    + intros [[<- _] L]. auto.
    + intros [-> L]. split; [split; [reflexivity|]|exact L].
      intros E. rewrite E in L. simpl in L. lia.
Qed.
End MultimapFacts.

Lemma is_prefix_refl a : is_prefix a a = true.
Proof. induction a as [|x a IH]; simpl; [reflexivity|]. now rewrite N.eqb_refl. Qed.

Lemma str_in_refl a : str_in a a = true.
Proof. destruct a; simpl; [reflexivity|]. now rewrite N.eqb_refl, is_prefix_refl. Qed.

Section ExtractorMore.
Import ChunkLoader RelationExtractor RelationPipeline.
Variable lower : pystr -> pystr.

Lemma fuzzy_match_refl e : fuzzy_match lower e e = true.
Proof. unfold fuzzy_match. now rewrite str_in_refl. Qed.

(** The context [validate_relation] writes is never empty. *)
Lemma validate_relation_context entities relation d' :
  validate_relation lower entities relation = Ok (Some d') ->
  exists c, dict_get d' (cp "context") = Some (PyStr c) /\ c <> [].
Proof.
  unfold validate_relation.
  destruct (as_dict relation) as [d|]; cbn [bind]; [|intros ?; discriminate].
  destruct (get_stripped d (cp "subject")) as [s|]; cbn [bind];
    [|intros ?; discriminate].
  destruct (get_stripped d (cp "predicate")) as [p|]; cbn [bind];
    [|intros ?; discriminate].
  destruct (get_stripped d (cp "object")) as [o|]; cbn [bind];
    [|intros ?; discriminate].
  destruct (get_stripped d (cp "context")) as [c|]; cbn [bind];
    [|intros ?; discriminate].
  destruct (negb _); [intros ?; discriminate|].
  destruct (_ && _); [|intros ?; discriminate].
  intros [= <-]. eexists. split; [apply dict_get_set_eq|].
  destruct c; simpl; [vm_compute|]; discriminate.
Qed.

(** A validated dictionary is always turned into a relation. *)
Lemma make_relation_validated chunk entities relation d' :
  validate_relation lower entities relation = Ok (Some d') ->
  exists r, make_relation chunk d' = Ok r
            /\ chunk_id r = ChunkLoader.chunk_id chunk
            /\ context r <> [].
Proof.
  intros V. destruct (validate_relation_context _ _ _ V) as (c & Hc & NE).
  apply validate_relation_accepted in V
    as (d & s & p & o & _ & _ & _ & _ & A).
  destruct A as [_ _ _ As Ap Ao _].
  unfold make_relation, item_str, dict_item.
  rewrite As, Ap, Ao, Hc. cbn [bind]. eexists. split; [reflexivity|].
  simpl. auto.
Qed.

Lemma convert_filter_items chunk entities items :
  length (convert chunk (filter_items lower entities items))
  = length (List.filter (accepts lower entities) items)
  /\ Forall (fun r => chunk_id r = ChunkLoader.chunk_id chunk
                      /\ context r <> [])
       (convert chunk (filter_items lower entities items)).
Proof.
  induction items as [|x items [IHl IHf]]; simpl; [split; [reflexivity|constructor]|].
  unfold accepts.
  destruct (validate_relation lower entities x) as [[d|]|] eqn:V;
    try (split; assumption).
  simpl. destruct (make_relation_validated chunk _ _ _ V) as (r & -> & C & X).
  simpl. split; [now rewrite IHl|]. constructor; auto.
Qed.

(** X13: when the reply can be iterated, [extract_relations_from_chunk]
    returns one relation for each candidate [validate_relation] accepts,
    none is lost in the conversion; each carries the identifier of the
    chunk and a context that is not empty. *)
Theorem extract_keeps_every_accepted chunk entities_in_chunk llm raw items :
  (2 <= length entities_in_chunk)%nat ->
  llm (content chunk) entities_in_chunk = Some raw ->
  py_iter raw = Ok items ->
  length (extract_relations_from_chunk lower llm chunk entities_in_chunk)
  = length (List.filter (accepts lower entities_in_chunk) items)
  /\ Forall (fun r => chunk_id r = ChunkLoader.chunk_id chunk
                      /\ context r <> [])
       (extract_relations_from_chunk lower llm chunk entities_in_chunk).
Proof.
  intros L R I. unfold extract_relations_from_chunk, _filter_valid_relations.
  destruct (length entities_in_chunk <? 2)%nat eqn:E;
    [apply Nat.ltb_lt in E; lia|].
  rewrite R, I. cbn [bind]. apply convert_filter_items.
Qed.

(** X14: a candidate with string fields whose stripped subject and object
    are entities of the list and whose stripped predicate is a schema
    name up to case is accepted. *)
Theorem exact_names_are_accepted entities d s p o c k :
  get_stripped d (cp "subject") = Ok s ->
  get_stripped d (cp "predicate") = Ok p ->
  get_stripped d (cp "object") = Ok o ->
  get_stripped d (cp "context") = Ok c ->
  s <> [] -> o <> [] -> p <> [] ->
  In s entities -> In o entities ->
  In k schema_keys -> lower p = lower k ->
  accepts lower entities (PyDict d) = true.
Proof.
  intros Gs Gp Go Gc Ns No Np Is Io Ik E.
  unfold accepts, validate_relation. cbn [as_dict bind].
  rewrite Gs, Gp, Go, Gc. cbn [bind].
  assert (N : negb (nonempty s && nonempty p && nonempty o) = false)
    by (destruct s, p, o; try congruence; reflexivity).
  rewrite N.
  assert (Vs : existsb (fuzzy_match lower s) entities = true).
  { apply existsb_exists. exists s. split; [exact Is|apply fuzzy_match_refl]. }
  assert (Vo : existsb (fuzzy_match lower o) entities = true).
  { apply existsb_exists. exists o. split; [exact Io|apply fuzzy_match_refl]. }
  assert (Vp : str_mem (lower p) (List.map lower schema_keys) = true).
  { apply str_mem_In. rewrite E. now apply in_map. }
  now rewrite Vs, Vo, Vp.
Qed.
End ExtractorMore.

Section PipelineFacts.
Import EntityNormalizer ChunkLoader RelationExtractor RelationPipeline.
Variable lower : pystr -> pystr.
Variable llm : nat -> pystr -> list pystr -> option pyval.
Variable chunks : list TextChunk.

Lemma chunks_dict_get_some chunk_id chunk :
  chunks_dict_get chunks chunk_id = Some chunk ->
  In chunk chunks /\ ChunkLoader.chunk_id chunk = chunk_id.
Proof.
  induction chunks as [|c rest IH]; simpl; [intros ?; discriminate|].
  destruct (chunks_dict_get rest chunk_id) as [c'|].
  - intros [= ->]. destruct (IH eq_refl). auto.
  - destruct (pystr_eqb chunk_id (ChunkLoader.chunk_id c)) eqn:E;
      [|intros ?; discriminate].
    intros [= <-]. apply pystr_eqb_eq in E. auto.
Qed.

Lemma enumerate_In {A} (l : list A) i x : In (i, x) (enumerate l) -> In x l.
Proof. unfold enumerate. apply in_combine_r. Qed.

Lemma In_firstn {A} n (l : list A) x : In x (firstn n l) -> In x l.
Proof.
  revert n. induction l as [|y l IH]; intros [|n]; simpl; try tauto.
  intros [H|H]; [auto|right; eapply IH, H].
Qed.

Lemma limited_ids_In chunks_entities max_chunks c :
  In c (limited_ids chunks_entities max_chunks) ->
  In c (List.map fst chunks_entities).
Proof.
  unfold limited_ids, slice_to. destruct max_chunks as [n|]; [|tauto].
  destruct (n =? 0)%Z; [tauto|].
  destruct (0 <=? n)%Z; apply In_firstn.
Qed.

(** The fields of a relation of one chunk, by the lemmas on the two
    loops. *)
Lemma extract_relation_grounded l1 chunk entities r :
  In r (extract_relations_from_chunk lower l1 chunk entities) ->
  In (subject r) entities /\ In (object r) entities
  /\ In (predicate r) schema_keys
  /\ chunk_id r = ChunkLoader.chunk_id chunk.
Proof.
  unfold extract_relations_from_chunk, _filter_valid_relations.
  destruct (length entities <? 2)%nat; [simpl; tauto|].
  destruct (l1 (content chunk) entities) as [raw|]; [|simpl; tauto].
  destruct (py_iter raw) as [items|]; simpl; [|tauto].
  intros H. apply convert_In in H as [d' [Hd' M]].
  apply filter_items_In in Hd' as [relation [_ V]].
  apply validate_relation_accepted in V as (d & s & p & o & _ & _ & _ & _ & A).
  destruct A as [Vs Vo Vp As Ap Ao _].
  destruct (make_relation_fields _ _ _ _ _ _ As Ap Ao M)
    as (Es & Ep & Eo & Ec & _).
  pose proof (first_or_found _ _ s Vs) as Fs.
  pose proof (first_or_found _ _ o Vo) as Fo.
  pose proof (first_or_found _ _ p (same_predicate_in_schema _ _ Vp)) as Fp.
  rewrite <- Es in Fs. rewrite <- Eo in Fo. rewrite <- Ep in Fp.
  apply find_some in Fs as [? _]. apply find_some in Fo as [? _].
  apply find_some in Fp as [? _]. auto.
Qed.

Lemma pipeline_relation_grounded chunks_entities max_chunks r :
  In r (extract_relations_from_chunks lower llm chunks chunks_entities
          max_chunks) ->
  In (chunk_id r) (List.map fst chunks_entities)
  /\ (exists chunk,
        In chunk chunks /\ ChunkLoader.chunk_id chunk = chunk_id r)
  /\ In (subject r) (multimap_get chunks_entities (chunk_id r))
  /\ In (object r) (multimap_get chunks_entities (chunk_id r))
  /\ In (predicate r) schema_keys.
Proof.
  unfold extract_relations_from_chunks. rewrite in_concat.
  intros (rs & Hrs & Hr). apply in_map_iff in Hrs as ([i c] & <- & Hi).
  apply enumerate_In, limited_ids_In in Hi.
  unfold chunk_relations in Hr. cbn [fst snd] in Hr.
  destruct (chunks_dict_get chunks c) as [chunk|] eqn:G; [|destruct Hr].
  apply chunks_dict_get_some in G as [Gin Gid].
  destruct (length (multimap_get chunks_entities c) <? 2)%nat; [destruct Hr|].
  apply extract_relation_grounded in Hr as (Hs & Ho & Hp & Hc).
  rewrite Hc, Gid. repeat split; try assumption.
  exists chunk. auto.
Qed.

(** X15: every relation [extract_relations_from_chunks] returns carries
    the identifier of a key of [chunks_entities] that is also the
    identifier of a loaded chunk; its subject and its object are entities
    listed under that key and its predicate is a schema name. *)
Theorem pipeline_relations_are_grounded chunks_entities max_chunks r :
  In r (extract_relations_from_chunks lower llm chunks chunks_entities
          max_chunks) ->
  In (chunk_id r) (List.map fst chunks_entities)
  /\ (exists chunk,
        In chunk chunks /\ ChunkLoader.chunk_id chunk = chunk_id r)
  /\ In (subject r) (multimap_get chunks_entities (chunk_id r))
  /\ In (object r) (multimap_get chunks_entities (chunk_id r))
  /\ In (predicate r) schema_keys.
Proof. apply pipeline_relation_grounded. Qed.

Lemma citing_In c items name :
  In name (citing c items) ->
  exists e, In (name, e) items /\ In c (source_chunks e).
Proof.
  unfold citing. rewrite in_flat_map. intros ([k e] & Hin & H).
  apply in_map_iff in H as (x & <- & Hx). apply filter_In in Hx as [Hx E].
  apply pystr_eqb_eq in E. subst x. exists e. auto.
Qed.

Lemma map_entities_to_chunks_get items c :
  In c (List.map fst (map_entities_to_chunks items)) ->
  multimap_get (map_entities_to_chunks items) c = citing c items.
Proof.
  destruct (chunks_of_entities_fold items [] c
              (conj (List.NoDup_nil _) (List.Forall_nil _))) as [[ND NE] G].
  simpl in G. intros H. apply in_map_iff in H as ([c' names] & <- & H).
  cbn [fst].
  assert (O : multimap_ok (map_entities_to_chunks items)).
  { split.
    - apply NoDup_map_fst_filter, ND.
    - unfold map_entities_to_chunks. apply List.Forall_forall.
      intros x Hx. apply filter_In in Hx as [Hx _].
      exact (proj1 (List.Forall_forall _ _) NE x Hx). }
  pose proof (proj1 (multimap_get_In _ c' names O) H) as [E _].
  rewrite E. unfold map_entities_to_chunks in H.
  apply filter_In in H as [H _].
  apply (multimap_get_In _ c' names (conj ND NE)) in H as [<- _].
  exact G.
Qed.

(** X16: with the mapping [map_entities_to_chunks] builds from the
    normalised entities, every relation the extraction returns links two
    names of normalised entities that both list the chunk of the relation
    among their source chunks. *)
Theorem relations_link_entities_of_their_chunk items max_chunks r :
  In r (extract_relations_from_chunks lower llm chunks
          (map_entities_to_chunks items) max_chunks) ->
  (exists e, In (subject r, e) items /\ In (chunk_id r) (source_chunks e))
  /\ (exists e, In (object r, e) items /\ In (chunk_id r) (source_chunks e)).
Proof.
  intros H. apply pipeline_relation_grounded in H as (K & _ & S & O & _).
  rewrite (map_entities_to_chunks_get _ _ K) in S, O.
  split; eapply citing_In; eassumption.
Qed.
End PipelineFacts.

Section EntityUriFacts.
Import KnowledgeGraphBuilder.

Lemma strip_by_In p s c : In c (strip_by p s) -> In c s.
Proof.
  assert (L : forall u, In c (lstrip_by p u) -> In c u).
  { induction u as [|x u IH]; simpl; [tauto|].
    destruct (p x); [auto|]. simpl. tauto. }
  unfold strip_by. intros H. apply in_rev, L, in_rev, L in H. exact H.
Qed.

Lemma strip_by_last p s r c : strip_by p s = r ++ [c] -> p c = false.
Proof.
  unfold strip_by. intros H. apply (f_equal (@rev N)) in H.
  rewrite rev_involutive, rev_app_distr in H. simpl in H.
  destruct (lstrip_by_head p (rev (lstrip_by p s)))
    as [E|(c' & r' & E & P)]; rewrite E in H; [discriminate|].
  now injection H as -> _.
Qed.

Lemma sub_ws_runs_In b s c :
  In c (sub_ws_runs b s) ->
  c = underscore \/ (In c s /\ isspace c = false).
Proof.
  revert b. induction s as [|x s IH]; intros b; simpl; [tauto|].
  destruct (isspace x) eqn:S.
  - destruct b.
    + intros H. destruct (IH _ H) as [?|[? ?]]; auto.
    + intros [<-|H]; [now left|]. destruct (IH _ H) as [?|[? ?]]; auto.
  - intros [<-|H]; [auto|]. destruct (IH _ H) as [?|[? ?]]; auto.
Qed.

Lemma kept_char_facts c :
  is_ascii c = true ->
  is_ascii (ascii_lower_char c) = true
  /\ kept_char (ascii_lower_char c) = kept_char c
  /\ isspace (ascii_lower_char c) = isspace c
  /\ ascii_lower_char (ascii_lower_char c) = ascii_lower_char c
  /\ (kept_char c = true -> isspace c = false ->
      uri_char (ascii_lower_char c) = true).
Proof.
  intros A.
  pose proof (ascii_forall
    (fun c => is_ascii (ascii_lower_char c)
       && Bool.eqb (kept_char (ascii_lower_char c)) (kept_char c)
       && Bool.eqb (isspace (ascii_lower_char c)) (isspace c)
       && (ascii_lower_char (ascii_lower_char c) =? ascii_lower_char c)
       && implb (kept_char c && negb (isspace c))
            (uri_char (ascii_lower_char c)))
    ltac:(vm_compute; reflexivity) c A) as F.
  cbv beta in F.
  apply andb_prop in F as [F F5]. apply andb_prop in F as [F F4].
  apply andb_prop in F as [F F3]. apply andb_prop in F as [F1 F2].
  apply Bool.eqb_prop in F2, F3. apply N.eqb_eq in F4.
  repeat split; try assumption.
  intros K S. now rewrite K, S in F5.
Qed.

Lemma ascii_only_filter p s :
  ascii_only s = true -> ascii_only (List.filter p s) = true.
Proof.
  induction s as [|c s IH]; simpl; [reflexivity|].
  intros H. apply andb_prop in H as [Hc Hs].
  destruct (p c); simpl; [rewrite Hc|]; auto.
Qed.

Lemma ascii_lower_kept b s :
  ascii_only s = true ->
  ascii_lower (sub_ws_runs b (List.filter kept_char s))
  = sub_ws_runs b (List.filter kept_char (ascii_lower s)).
Proof.
  revert b. induction s as [|c s IH]; intros b H; [reflexivity|].
  simpl in H. apply andb_prop in H as [Hc Hs].
  destruct (kept_char_facts c Hc) as (_ & K & S & _).
  cbn [ascii_lower List.map List.filter]. rewrite K.
  destruct (kept_char c); [|apply IH, Hs].
  cbn [sub_ws_runs]. rewrite S. destruct (isspace c).
  - destruct b; cbn [ascii_lower List.map]; [apply IH, Hs|].
    f_equal. apply IH, Hs.
  - cbn [ascii_lower List.map]. f_equal. apply IH, Hs.
Qed.

Variable lower : pystr -> pystr.
Variable re_word : N -> bool.
Hypothesis lower_ascii :
  forall s, ascii_only s = true -> lower s = ascii_lower s.
Hypothesis re_word_ascii :
  forall c, is_ascii c = true -> re_word c = is_ascii_word c.

(** The local name of an ASCII name, without the Unicode tables. *)
Lemma entity_local_name_ascii name :
  ascii_only name = true ->
  entity_local_name lower re_word name
  = strip_underscores
      (ascii_lower (sub_ws_runs false (List.filter kept_char name))).
Proof.
  intros A. unfold entity_local_name.
  assert (F : List.filter
                (fun c => re_word c || isspace c || (c =? hyphen)) name
              = List.filter kept_char name).
  { clear -A re_word_ascii. induction name as [|c s IH]; [reflexivity|].
    simpl in A. apply andb_prop in A as [Hc Hs]. simpl.
    unfold kept_char at 1. rewrite (re_word_ascii c Hc), (IH Hs).
    reflexivity. }
  rewrite F, lower_ascii; [reflexivity|].
  apply sub_ws_runs_ascii, ascii_only_filter, A.
Qed.

(** X17: on ASCII names [_create_entity_uri] does not tell the case of the
    letters: two names that are equal once lowered get the same URI. *)
Theorem entity_uri_ignores_case name1 name2 :
  ascii_only name1 = true -> ascii_only name2 = true ->
  ascii_lower name1 = ascii_lower name2 ->
  _create_entity_uri lower re_word name1
  = _create_entity_uri lower re_word name2.
Proof.
  intros A1 A2 E. unfold _create_entity_uri. f_equal.
  rewrite !entity_local_name_ascii by assumption.
  rewrite !ascii_lower_kept by assumption. now rewrite E.
Qed.

(** X18: the local name [_create_entity_uri] gives an ASCII name is made
    of lower-case letters, digits, underscores and hyphens, and neither
    starts nor ends with an underscore. *)
Theorem entity_local_name_alphabet name :
  ascii_only name = true ->
  forallb uri_char (entity_local_name lower re_word name) = true
  /\ (forall r, entity_local_name lower re_word name <> underscore :: r)
  /\ (forall r, entity_local_name lower re_word name <> r ++ [underscore]).
Proof.
  intros A. rewrite entity_local_name_ascii by exact A.
  unfold strip_underscores. split; [|split].
  - apply forallb_forall. intros c Hc.
    apply strip_by_In, in_map_iff in Hc as (c' & <- & Hc').
    apply sub_ws_runs_In in Hc' as [->|[Hin S]]; [reflexivity|].
    apply filter_In in Hin as [Hin K].
    unfold ascii_only in A. rewrite forallb_forall in A.
    destruct (kept_char_facts c' (A c' Hin)) as (_ & _ & _ & _ & U).
    now apply U.
  - intros r E.
    destruct (strip_by_head (N.eqb underscore)
                (ascii_lower (sub_ws_runs false (List.filter kept_char name))))
      as [E'|(c & r' & E' & P)]; rewrite E' in E; [discriminate|].
    injection E as -> _. now rewrite N.eqb_refl in P.
  - intros r E. apply strip_by_last in E. now rewrite N.eqb_refl in E.
Qed.
End EntityUriFacts.

Section RelationGraphFacts.
Import RelationExtractor KnowledgeGraphBuilder.
Variable lower : pystr -> pystr.
Variable re_word : N -> bool.

Local Abbreviation add_relation := (add_relation lower re_word).
Local Abbreviation add_relations := (add_relations lower re_word).
Local Abbreviation entity_uri := (_create_entity_uri lower re_word).
Local Abbreviation relation_uri := (_create_relation_uri lower).
Local Abbreviation add_property := (_add_relation_property lower).

Lemma add_relation_property_uri relation_type g :
  snd (add_property relation_type g) = relation_uri relation_type.
Proof. unfold _add_relation_property. now case_bool_decide. Qed.

Lemma add_relation_property_declared relation_type g :
  (relation_uri relation_type, RDF_type, OWL_ObjectProperty)
  ∈ fst (add_property relation_type g).
Proof.
  unfold _add_relation_property. case_bool_decide; simpl; [assumption|].
  unfold graph_add. set_solver.
Qed.

(** X19: [_add_relation_property] declares a property once: after a call
    the property is declared, and a further call for the same name, in
    any case of the letters, returns the same URI and leaves the graph
    as it is, so the label stays that of the first spelling. *)
Theorem relation_property_declared_once t1 t2 g :
  lower t1 = lower t2 ->
  (snd (add_property t1 g), RDF_type, OWL_ObjectProperty)
  ∈ fst (add_property t1 g)
  /\ add_property t2 (fst (add_property t1 g))
     = (fst (add_property t1 g), snd (add_property t1 g)).
Proof.
  intros E. rewrite add_relation_property_uri. split.
  - apply add_relation_property_declared.
  - pose proof (add_relation_property_declared t1 g) as D.
    unfold _add_relation_property at 1.
    assert (U : relation_uri t2 = relation_uri t1)
      by (unfold _create_relation_uri; now rewrite E).
    rewrite U. case_bool_decide; [reflexivity|contradiction].
Qed.

(** The triples one round of [add_relations] writes for a relation. *)
Lemma add_relation_triples b r :
  let g := graph (add_relation b r) in
  let n := relation_instance_uri (relations_added b) in
  let s := entity_uri (subject r) in
  let o := entity_uri (object r) in
  let p := relation_uri (predicate r) in
  (s, p, o) ∈ g /\ (p, RDF_type, OWL_ObjectProperty) ∈ g
  /\ (n, ML "subject", s) ∈ g /\ (n, ML "predicate", p) ∈ g
  /\ (n, ML "object", o) ∈ g
  /\ (n, ML "context", Literal (context r)) ∈ g
  /\ (n, ML "sourceChunk", Literal (chunk_id r)) ∈ g
  /\ (n, ML "confidence", LiteralFloat (confidence r)) ∈ g.
Proof.
  unfold KnowledgeGraphBuilder.add_relation.
  pose proof (add_relation_property_uri (predicate r) (graph b)) as U.
  pose proof (add_relation_property_declared (predicate r) (graph b)) as D.
  destruct (_add_relation_property lower (predicate r) (graph b)) as [g p].
  cbn [fst snd] in U, D. subst p. cbn [graph]. unfold graph_add.
  repeat split; set_solver.
Qed.

(** X20: after [add_relations], the graph holds for the [i]-th relation of
    the list the direct triple between the URIs of its subject and
    object, the declaration of its property, and on the node
    [entity:rel_<n>], [n] the counter when it was added, its subject,
    predicate, object, context, source chunk and confidence. *)
Theorem add_relations_reifies relations b i r :
  relations !! i = Some r ->
  let g := graph (add_relations b relations) in
  let n := relation_instance_uri (relations_added b + i) in
  let s := entity_uri (subject r) in
  let o := entity_uri (object r) in
  let p := relation_uri (predicate r) in
  (s, p, o) ∈ g /\ (p, RDF_type, OWL_ObjectProperty) ∈ g
  /\ (n, ML "subject", s) ∈ g /\ (n, ML "predicate", p) ∈ g
  /\ (n, ML "object", o) ∈ g
  /\ (n, ML "context", Literal (context r)) ∈ g
  /\ (n, ML "sourceChunk", Literal (chunk_id r)) ∈ g
  /\ (n, ML "confidence", LiteralFloat (confidence r)) ∈ g.
Proof.
  revert b i. induction relations as [|r0 relations IH]; intros b i;
    [now destruct i|].
  destruct i as [|i]; cbn [lookup list_lookup].
  - intros [= ->]. rewrite Nat.add_0_r. cbv zeta.
    pose proof (add_relations_mono lower re_word relations (add_relation b r))
      as M.
    pose proof (add_relation_triples b r) as T. cbv zeta in T.
    cbn [KnowledgeGraphBuilder.add_relations fold_left] in *.
    destruct T as (T1 & T2 & T3 & T4 & T5 & T6 & T7 & T8).
    repeat split; apply M; assumption.
  - intros H. specialize (IH (add_relation b r0) i H).
    rewrite add_relation_counter in IH.
    replace (relations_added b + S i)%nat
      with (S (relations_added b) + i)%nat by lia.
    exact IH.
Qed.

Lemma add_relation_stats b r :
  entities_added (add_relation b r) = entities_added b
  /\ relation_types (add_relation b r)
     = <[ predicate r :=
            S (default 0%nat (relation_types b !! predicate r)) ]>
         (relation_types b).
Proof.
  unfold KnowledgeGraphBuilder.add_relation.
  now destruct (_add_relation_property lower (predicate r) (graph b)).
Qed.

(** X21: [add_relations] raises the counter of relations by the length of
    the list and the count kept for a predicate, spelled as in the
    relations, by the number of relations of the list with that
    predicate; it leaves the counter of entities alone. *)
Theorem add_relations_statistics relations b :
  relations_added (add_relations b relations)
  = (relations_added b + length relations)%nat
  /\ entities_added (add_relations b relations) = entities_added b
  /\ forall p,
       default 0%nat (relation_types (add_relations b relations) !! p)
       = (default 0%nat (relation_types b !! p)
          + length (List.filter (fun r => pystr_eqb (predicate r) p)
                      relations))%nat.
Proof.
  revert b. induction relations as [|r relations IH]; intros b.
  - simpl. repeat split; try lia.
  - change (add_relations b (r :: relations))
      with (add_relations (add_relation b r) relations).
    destruct (IH (add_relation b r)) as (R & E & T).
    destruct (add_relation_stats b r) as [E1 T1].
    rewrite R, E, add_relation_counter, E1. cbn [length].
    repeat split; try lia. intros p. rewrite T, T1. cbn [List.filter].
    destruct (pystr_eqb (predicate r) p) eqn:Q.
    + apply pystr_eqb_eq in Q. subst p. rewrite lookup_insert_eq.
      simpl. lia.
    + rewrite lookup_insert_ne; [lia|].
      intros E0. subst p. now rewrite pystr_eqb_refl in Q.
Qed.
End RelationGraphFacts.

Section EntityGraphFacts.
Import EntityNormalizer KnowledgeGraphBuilder NormalizerShape EntityGraph.
Variable lower : pystr -> pystr.
Variable re_word : N -> bool.
Variable literal_of : pyval -> option node.

Local Abbreviation entity_uri := (_create_entity_uri lower re_word).
Local Abbreviation add_entity := (add_entity lower re_word literal_of).
Local Abbreviation add_entities := (add_entities lower re_word literal_of).
Local Abbreviation add_aliases := (add_aliases literal_of).
Local Abbreviation add_type_class := (_add_entity_type_class lower).
Local Abbreviation completes := (completes literal_of).
Local Abbreviation aliases_pass := (aliases_pass literal_of).
Local Abbreviation entity_triples := (entity_triples lower re_word).

Lemma add_type_class_spec entity_type g g' c :
  add_type_class entity_type g = Ok (g', c) ->
  exists t, entity_type = PyStr t /\ c = type_class_uri lower t
    /\ g ⊆ g'
    /\ g' ⊆ {[ (c, RDF_type, OWL_Class); (c, RDFS_label, Literal t);
               (c, RDFS_subClassOf, ML "Entity") ]} ∪ g
    /\ (c, RDF_type, OWL_Class) ∈ g'.
Proof.
  unfold _add_entity_type_class.
  destruct entity_type as [| | | |t| |]; try (intros ?; discriminate).
  case_bool_decide; intros [= <- <-]; exists t; unfold graph_add;
    repeat split; set_solver.
Qed.

Lemma add_type_class_raises entity_type g :
  (exists e, add_type_class entity_type g = Raise e)
  <-> is_str entity_type = false.
Proof.
  unfold _add_entity_type_class.
  destruct entity_type as [| | | |t| |]; simpl;
    try (split; [reflexivity|eauto]).
  case_bool_decide; (split; [intros [e E]; discriminate E|discriminate]).
Qed.

Lemma add_aliases_spec u name aliases g :
  let r := add_aliases u name aliases g in
  g ⊆ fst r
  /\ snd r = aliases_pass name aliases
  /\ (forall t, t ∈ fst r -> t ∈ g \/ exists l, t = (u, ML "alias", l))
  /\ (snd r = true ->
      forall a, In a aliases -> truthy a = true ->
        differs_from a name = true ->
        exists l, py_literal literal_of a = Some l
                  /\ (u, ML "alias", l) ∈ fst r).
Proof.
  revert g. induction aliases as [|a aliases IH]; intros g; cbn zeta.
  - simpl. repeat split; [set_solver|auto|intros _ a []].
  - cbn [EntityGraph.add_aliases EntityGraph.aliases_pass forallb].
    destruct (truthy a && differs_from a name) eqn:T.
    + destruct (py_literal literal_of a) as [l|] eqn:L.
      * specialize (IH (graph_add (u, ML "alias", l) g)). cbn zeta in IH.
        destruct IH as (M & P & N & A). unfold graph_add in *.
        repeat split.
        -- set_solver.
        -- exact P.
        -- intros t Ht. destruct (N t Ht) as [H|H]; [|now right].
           apply elem_of_union in H as [H|H]; [|now left].
           right. exists l. set_solver.
        -- intros S x [<-|Hx] Tx Dx.
           ++ exists l. split; [exact L|]. apply M. set_solver.
           ++ exact (A S x Hx Tx Dx).
      * simpl. repeat split; [set_solver|auto|discriminate].
    + specialize (IH g). cbn zeta in IH. destruct IH as (M & P & N & A).
      repeat split; try assumption.
      intros S x [<-|Hx] Tx Dx; [|exact (A S x Hx Tx Dx)].
      rewrite Tx, Dx in T. discriminate.
Qed.

Lemma add_source_chunks_spec u chunk_ids g t :
  t ∈ add_source_chunks u chunk_ids g
  <-> t ∈ g
      \/ exists ch, In ch (firstn 5 chunk_ids)
                    /\ t = (u, ML "sourceChunk", Literal ch).
Proof.
  unfold add_source_chunks. generalize (firstn 5 chunk_ids). intros l.
  revert g. induction l as [|c l IH]; intros g; simpl.
  - split; [auto|]. intros [H|(ch & [] & _)]. exact H.
  - rewrite IH. unfold graph_add. split.
    + intros [H|(ch & Hch & ->)]; [|right; eauto].
      apply elem_of_union in H as [H|H]; [|now left].
      right. exists c. split; [now left|set_solver].
    + intros [H|(ch & [<-|Hch] & ->)]; [left; set_solver|left; set_solver|].
      right. eauto.
Qed.

Lemma add_entity_mono b item : graph b ⊆ graph (add_entity b item).
Proof.
  destruct item as [name e]. unfold EntityGraph.add_entity.
  destruct (add_type_class (entity_type e) (graph b)) as [[g c]|] eqn:C;
    [|reflexivity].
  apply add_type_class_spec in C as (t & _ & _ & M & _).
  match goal with |- context [add_aliases ?u ?n ?a ?g0] =>
    pose proof (add_aliases_spec u n a g0) as A;
    destruct (add_aliases u n a g0) as [g1 [|]] end;
    cbn zeta in A; cbn [fst snd] in A; destruct A as (M1 & _).
  - cbn [graph]. intros x Hx. apply add_source_chunks_spec. left.
    unfold graph_add in *. set_solver.
  - cbn [graph with_graph]. unfold graph_add in *. set_solver.
Qed.

Lemma add_entity_counters b item :
  entities_added (add_entity b item)
  = (entities_added b + if completes item then 1 else 0)%nat
  /\ relations_added (add_entity b item) = relations_added b
  /\ relation_types (add_entity b item) = relation_types b.
Proof.
  destruct item as [name e].
  unfold EntityGraph.add_entity, EntityGraph.completes. cbn [fst snd].
  destruct (add_type_class (entity_type e) (graph b)) as [[g c]|x] eqn:C.
  - destruct (add_type_class_spec _ _ _ _ C) as (t & -> & _).
    cbn [is_str andb].
    match goal with |- context [add_aliases ?u ?n ?a ?g0] =>
      pose proof (add_aliases_spec u n a g0) as A;
      destruct (add_aliases u n a g0) as [g1 [|]] end;
      cbn zeta in A; cbn [fst snd] in A; destruct A as (_ & <- & _);
      cbn [entities_added relations_added relation_types with_graph];
      repeat split; lia.
  - assert (S : is_str (entity_type e) = false)
      by (apply (add_type_class_raises _ (graph b)); eauto).
    rewrite S. cbn [andb]. repeat split; lia.
Qed.

(** What a round that completes leaves in the graph. *)
Lemma add_entity_completes b name e t :
  entity_type e = PyStr t ->
  aliases_pass name (aliases e) = true ->
  let g := graph (add_entity b (name, e)) in
  let u := entity_uri name in
  let c := type_class_uri lower t in
  (u, RDF_type, c) ∈ g /\ (c, RDF_type, OWL_Class) ∈ g
  /\ entity_triples name e ⊆ g
  /\ (forall a, In a (aliases e) -> truthy a = true ->
        differs_from a name = true ->
        exists l, py_literal literal_of a = Some l
                  /\ (u, ML "alias", l) ∈ g)
  /\ (forall ch, In ch (firstn 5 (source_chunks e)) ->
        (u, ML "sourceChunk", Literal ch) ∈ g).
Proof.
  intros T P. cbn zeta. unfold EntityGraph.add_entity.
  destruct (add_type_class (entity_type e) (graph b)) as [[g c]|x] eqn:C.
  2:{ assert (S : is_str (entity_type e) = false)
        by (apply (add_type_class_raises _ (graph b)); eauto).
      rewrite T in S. discriminate S. }
  destruct (add_type_class_spec _ _ _ _ C) as (t' & T' & -> & M & _ & D).
  rewrite T in T'. injection T' as <-.
  match goal with |- context [add_aliases ?u ?n ?a ?g0] =>
    pose proof (add_aliases_spec u n a g0) as A;
    destruct (add_aliases u n a g0) as [g1 ok] end.
  cbn zeta in A. cbn [fst snd] in A. destruct A as (M1 & E & _ & A).
  rewrite P in E. subst ok. cbn [graph].
  assert (G1 : forall x, x ∈ g1 ->
            x ∈ add_source_chunks (entity_uri name) (source_chunks e)
                  (graph_add (entity_uri name, ML "confidence",
                              LiteralFloat (confidence e))
                     (graph_add (entity_uri name, ML "frequency",
                                 LiteralInteger (Z.of_nat (frequency e)))
                        g1))).
  { intros x Hx. apply add_source_chunks_spec. left.
    unfold graph_add. set_solver. }
  repeat split.
  - apply G1, M1. unfold graph_add. set_solver.
  - apply G1, M1. unfold graph_add. set_solver.
  - unfold entity_triples. intros x Hx.
    apply add_source_chunks_spec. left. unfold graph_add in *. set_solver.
  - intros a Ha Ta Da. destruct (A eq_refl a Ha Ta Da) as (l & L & H).
    exists l. split; [exact L|apply G1, H].
  - intros ch Hch. apply add_source_chunks_spec. right. eauto.
Qed.

(** Where a source-chunk triple of the graph after a round comes
    from. *)
Lemma add_entity_source_chunk b name e s o :
  (s, ML "sourceChunk", o) ∈ graph (add_entity b (name, e)) ->
  (s, ML "sourceChunk", o) ∈ graph b
  \/ exists ch, s = entity_uri name /\ o = Literal ch
                /\ In ch (firstn 5 (source_chunks e)).
Proof.
  unfold EntityGraph.add_entity.
  destruct (add_type_class (entity_type e) (graph b)) as [[g c]|x] eqn:C;
    [|now left].
  apply add_type_class_spec in C as (t & _ & _ & _ & U & _).
  match goal with |- context [add_aliases ?u ?n ?a ?g0] =>
    pose proof (add_aliases_spec u n a g0) as A;
    destruct (add_aliases u n a g0) as [g1 ok] end.
  cbn zeta in A. cbn [fst snd] in A. destruct A as (_ & _ & N & _).
  assert (G1 : (s, ML "sourceChunk", o) ∈ g1 ->
               (s, ML "sourceChunk", o) ∈ graph b).
  { intros H. destruct (N _ H) as [H1|[l H1]].
    - unfold graph_add in H1.
      repeat (apply elem_of_union in H1 as [H1|H1];
              [apply elem_of_singleton in H1; vm_compute in H1;
               discriminate H1|]).
      apply U in H1.
      apply elem_of_union in H1 as [H1|H1]; [|exact H1].
      repeat (apply elem_of_union in H1 as [H1|H1]);
        apply elem_of_singleton in H1; injection H1 as _ H1 _;
        vm_compute in H1; discriminate H1.
    - injection H1 as _ H1 _. vm_compute in H1. discriminate H1. }
  destruct ok; cbn [graph with_graph]; [|intros H; left; exact (G1 H)].
  intros H. apply add_source_chunks_spec in H as [H|(ch & Hch & [= -> ->])].
  - left. apply G1. unfold graph_add in H.
    repeat (apply elem_of_union in H as [H|H];
            [apply elem_of_singleton in H; injection H as _ H _;
             vm_compute in H; discriminate H|]).
    exact H.
  - right. eauto.
Qed.

Lemma add_entities_mono items b : graph b ⊆ graph (add_entities b items).
Proof.
  revert b. induction items as [|x items IH]; intros b; simpl;
    [set_solver|].
  etransitivity; [apply (add_entity_mono b x)|apply IH].
Qed.

(** X22: [add_entities] counts one entity for each item whose type is a
    string and whose aliases can all be made literals, and none for the
    others; it leaves the counters of relations alone and removes no
    triple. *)
Theorem add_entities_counts_completed items b :
  entities_added (add_entities b items)
  = (entities_added b + length (List.filter completes items))%nat
  /\ relations_added (add_entities b items) = relations_added b
  /\ relation_types (add_entities b items) = relation_types b
  /\ graph b ⊆ graph (add_entities b items).
Proof.
  split; [|split; [|split]]; [| | |apply add_entities_mono];
    revert b; induction items as [|x items IH]; intros b;
    try (simpl; lia); try reflexivity;
    change (add_entities b (x :: items))
      with (add_entities (add_entity b x) items);
    rewrite IH; destruct (add_entity_counters b x) as (E & R & T);
    try assumption.
  rewrite E. cbn [List.filter]. destruct (completes x); simpl; lia.
Qed.

(** X23: an item whose type is a string and whose aliases are strings is
    described in full: after [add_entities] its node is typed by the
    class of its type, which is declared, carries its name as label and
    canonical name, every non-empty alias other than the name, its
    frequency and confidence, and its first five source chunks. *)
Theorem add_entities_describes items b name e t :
  In (name, e) items ->
  entity_type e = PyStr t ->
  forallb is_str (aliases e) = true ->
  let g := graph (add_entities b items) in
  let u := entity_uri name in
  let c := type_class_uri lower t in
  (u, RDF_type, c) ∈ g /\ (c, RDF_type, OWL_Class) ∈ g
  /\ (u, RDFS_label, Literal name) ∈ g
  /\ (u, ML "canonicalName", Literal name) ∈ g
  /\ (u, ML "frequency", LiteralInteger (Z.of_nat (frequency e))) ∈ g
  /\ (u, ML "confidence", LiteralFloat (confidence e)) ∈ g
  /\ (forall a, In (PyStr a) (aliases e) -> a <> [] -> a <> name ->
        (u, ML "alias", Literal a) ∈ g)
  /\ (forall ch, In ch (firstn 5 (source_chunks e)) ->
        (u, ML "sourceChunk", Literal ch) ∈ g).
Proof.
  intros Hin T S. cbn zeta.
  assert (P : aliases_pass name (aliases e) = true).
  { unfold EntityGraph.aliases_pass. apply forallb_forall. intros a Ha.
    rewrite forallb_forall in S. specialize (S a Ha).
    destruct a; try discriminate S. simpl. apply orb_true_r. }
  revert b. induction items as [|x items IH]; intros b; [destruct Hin|].
  change (add_entities b (x :: items))
    with (add_entities (add_entity b x) items).
  destruct Hin as [->|Hin]; [|apply (IH Hin)].
  pose proof (add_entities_mono items (add_entity b (name, e))) as M.
  destruct (add_entity_completes b name e t T P) as (H1 & H2 & H3 & H4 & H5).
  unfold entity_triples in H3.
  repeat split; try (apply M; set_solver).
  - intros a Ha Na Da.
    destruct (H4 (PyStr a) Ha) as (l & [= <-] & H).
    + now destruct a.
    + simpl. destruct (pystr_eqb a name) eqn:Q; [|reflexivity].
      now apply pystr_eqb_eq in Q.
    + apply M, H.
  - intros ch Hch. apply M, H5, Hch.
Qed.

(** X24: [add_entities] records at most five source chunks per item: a
    source-chunk triple that was not in the graph before links the node
    of an item to one of the first five source chunks of that item. *)
Theorem add_entities_caps_source_chunks items b s o :
  (s, ML "sourceChunk", o) ∈ graph (add_entities b items) ->
  (s, ML "sourceChunk", o) ∈ graph b
  \/ exists name e ch,
       In (name, e) items /\ s = entity_uri name /\ o = Literal ch
       /\ In ch (firstn 5 (source_chunks e)).
Proof.
  revert b. induction items as [|[name e] items IH]; intros b;
    [now left|].
  change (add_entities b ((name, e) :: items))
    with (add_entities (add_entity b (name, e)) items).
  intros H. destruct (IH _ H) as [H1|(n & e' & ch & Hin & Hs & Ho & Hc)].
  - apply add_entity_source_chunk in H1 as [H1|(ch & Hs & Ho & Hc)];
      [now left|].
    right. exists name, e, ch. repeat split; auto. now left.
  - right. exists n, e', ch. repeat split; auto. now right.
Qed.
End EntityGraphFacts.

(** * The further properties on the worked examples *)

Section MoreWitnesses.
Import EntityExtractor ChunkLoader Examples MoreExamples.

(** X1 on [svm_question]. *)
Lemma pattern_entities_are_tokens_witness :
  QueryProcessor.process_question ascii_lower QueryProcessor.svm_question
  = Ok svm_intent
  /\ forallb is_token (QueryProcessor.entities svm_intent) = true.
Proof.
  assert (H : QueryProcessor.process_question ascii_lower
                QueryProcessor.svm_question = Ok svm_intent)
    by (vm_compute; reflexivity).
  split; [exact H|].
  apply (pattern_entities_are_tokens ascii_lower _ _ H).
  - reflexivity.
  - intros E. discriminate E.
Defined.

(** X4 on [svm_question]: one entity, confidence 0.8. *)
Lemma process_question_intent_shape_witness :
  QueryProcessor.process_question ascii_lower QueryProcessor.svm_question
  = Ok svm_intent
  /\ length (QueryProcessor.entities svm_intent)
     = QueryShape.arity (QueryProcessor.query_type svm_intent).
Proof.
  assert (H : QueryProcessor.process_question ascii_lower
                QueryProcessor.svm_question = Ok svm_intent)
    by (vm_compute; reflexivity).
  split; [exact H|].
  exact (proj1 (proj2 (process_question_intent_shape ascii_lower _ _ H))).
Defined.

(** X7 on [many_candidates]: twenty-one texts in batches of twenty. *)
Lemma group_batches_sizes_witness :
  (0 < 20)%nat
  /\ Forall (fun b => (1 <= length b <= 20)%nat)
       (EntityNormalizer._group_similar_entities many_candidates 20).
Proof.
  split; [lia|].
  apply (group_batches_sizes many_candidates 20). lia.
Defined.

(** X8 on [svm_candidates]: the long name is sent, being longer than
    three characters. *)
Lemma group_batches_members_witness :
  (0 < 20)%nat
  /\ In (cp "Support Vector Machine")
       (concat (EntityNormalizer._group_similar_entities svm_candidates 20)).
Proof.
  split; [lia|].
  apply (group_batches_members svm_candidates 20); [lia|].
  split; [vm_compute; auto|right; vm_compute; lia].
Defined.

(** X9 on [svm_candidates]. *)
Lemma normalized_names_are_stripped_keys_witness :
  EntityNormalizer.normalize_entities ascii_lower remove_dups svm_llm
    svm_candidates !! cp "Support Vector Machine" = Some svm_entity
  /\ strip (cp "Support Vector Machine") = cp "Support Vector Machine".
Proof.
  assert (H : EntityNormalizer.normalize_entities ascii_lower remove_dups
                svm_llm svm_candidates !! cp "Support Vector Machine"
              = Some svm_entity)
    by (vm_compute; reflexivity).
  split; [exact H|].
  exact (proj2 (proj2 (normalized_names_are_stripped_keys ascii_lower
                         remove_dups svm_llm svm_candidates _ _ H))).
Defined.

(** X10 on [svm_candidates]: one candidate reads like the canonical name
    and two like the alias. *)
Lemma normalized_frequency_is_sum_witness :
  EntityNormalizer.normalize_entities ascii_lower remove_dups svm_llm
    svm_candidates !! cp "Support Vector Machine" = Some svm_entity
  /\ EntityNormalizer.frequency svm_entity
     = (EntityNormalizer.occurrences ascii_lower svm_candidates
          (EntityNormalizer.canonical_name svm_entity)
        + NormalizerShape.occurrences_sum ascii_lower svm_candidates
            (EntityNormalizer.aliases svm_entity))%nat.
Proof.
  assert (H : EntityNormalizer.normalize_entities ascii_lower remove_dups
                svm_llm svm_candidates !! cp "Support Vector Machine"
              = Some svm_entity)
    by (vm_compute; reflexivity).
  split; [exact H|].
  exact (proj2 (normalized_frequency_is_sum ascii_lower remove_dups svm_llm
                  svm_candidates _ _ H)).
Defined.

(** X13 on the reply of [nn_llm]: one of the two candidates is accepted,
    one relation is returned. *)
Lemma extract_keeps_every_accepted_witness :
  (2 <= length nn_entities)%nat
  /\ nn_llm (content nn_chunk) nn_entities = Some (PyList nn_items)
  /\ length (RelationExtractor.extract_relations_from_chunk ascii_lower
               nn_llm nn_chunk nn_entities)
     = length (List.filter (RelationPipeline.accepts ascii_lower nn_entities)
                 nn_items).
Proof.
  assert (L : (2 <= length nn_entities)%nat) by (simpl; lia).
  split; [exact L|]. split; [reflexivity|].
  exact (proj1 (extract_keeps_every_accepted ascii_lower nn_chunk nn_entities
                  nn_llm (PyList nn_items) nn_items L eq_refl eq_refl)).
Defined.

(** X14 on [exact_fields]: the predicate is spelled in capitals. *)
Lemma exact_names_are_accepted_witness :
  In (cp "Neural Network") nn_entities
  /\ In (cp "Gradient Descent") nn_entities
  /\ RelationPipeline.accepts ascii_lower nn_entities (PyDict exact_fields)
     = true.
Proof.
  assert (Is : In (cp "Neural Network") nn_entities) by (left; reflexivity).
  assert (Io : In (cp "Gradient Descent") nn_entities)
    by (right; left; reflexivity).
  split; [exact Is|]. split; [exact Io|].
  apply (exact_names_are_accepted ascii_lower nn_entities exact_fields
           (cp "Neural Network") (cp "USES") (cp "Gradient Descent")
           (cp "trained using") (cp "uses")).
  - vm_compute. reflexivity.
  - vm_compute. reflexivity.
  - vm_compute. reflexivity.
  - vm_compute. reflexivity.
  - vm_compute. intros E. discriminate E.
  - vm_compute. intros E. discriminate E.
  - vm_compute. intros E. discriminate E.
  - exact Is.
  - exact Io.
  - apply str_mem_In. vm_compute. reflexivity.
  - vm_compute. reflexivity.
Defined.

(** X15 on the one chunk [nn_chunk]. *)
Lemma pipeline_relations_are_grounded_witness :
  In nn_relation
    (RelationPipeline.extract_relations_from_chunks ascii_lower nn_llm_at
       [nn_chunk] nn_chunks_entities None)
  /\ In (RelationExtractor.subject nn_relation)
       (RelationPipeline.multimap_get nn_chunks_entities
          (RelationExtractor.chunk_id nn_relation)).
Proof.
  assert (H : In nn_relation
                (RelationPipeline.extract_relations_from_chunks ascii_lower
                   nn_llm_at [nn_chunk] nn_chunks_entities None))
    by (vm_compute; left; reflexivity).
  split; [exact H|].
  exact (proj1 (proj2 (proj2
           (pipeline_relations_are_grounded ascii_lower nn_llm_at [nn_chunk]
              nn_chunks_entities None nn_relation H)))).
Defined.

(** X16 on the two entities of [nn_chunk]. *)
Lemma relations_link_entities_of_their_chunk_witness :
  In nn_relation
    (RelationPipeline.extract_relations_from_chunks ascii_lower nn_llm_at
       [nn_chunk] (RelationPipeline.map_entities_to_chunks nn_normalized)
       (Some 10%Z))
  /\ exists e,
       In (RelationExtractor.subject nn_relation, e) nn_normalized
       /\ In (RelationExtractor.chunk_id nn_relation)
            (EntityNormalizer.source_chunks e).
Proof.
  assert (H : In nn_relation
                (RelationPipeline.extract_relations_from_chunks ascii_lower
                   nn_llm_at [nn_chunk]
                   (RelationPipeline.map_entities_to_chunks nn_normalized)
                   (Some 10%Z)))
    by (vm_compute; left; reflexivity).
  split; [exact H|].
  exact (proj1 (relations_link_entities_of_their_chunk ascii_lower nn_llm_at
                  [nn_chunk] nn_normalized (Some 10%Z) nn_relation H)).
Defined.

(** X17 on ["SVM"] and ["svm"]. *)
Lemma entity_uri_ignores_case_witness :
  KnowledgeGraphBuilder._create_entity_uri ascii_lower is_ascii_word
    (cp "SVM")
  = KnowledgeGraphBuilder._create_entity_uri ascii_lower is_ascii_word
      (cp "svm").
Proof.
  apply (entity_uri_ignores_case ascii_lower is_ascii_word ascii_lower_spec
           is_ascii_word_spec); reflexivity.
Defined.

(** X18 on a name with a hyphen, capitals and punctuation. *)
Lemma entity_local_name_alphabet_witness :
  ascii_only (cp " k-Means (clustering)! ") = true
  /\ forallb uri_char
       (KnowledgeGraphBuilder.entity_local_name ascii_lower is_ascii_word
          (cp " k-Means (clustering)! ")) = true.
Proof.
  split; [reflexivity|].
  apply (entity_local_name_alphabet ascii_lower is_ascii_word ascii_lower_spec
           is_ascii_word_spec). reflexivity.
Defined.

(** X19 on ["uses"] and ["Uses"]: the second call adds nothing. *)
Lemma relation_property_declared_once_witness :
  ascii_lower (cp "uses") = ascii_lower (cp "Uses")
  /\ KnowledgeGraphBuilder._add_relation_property ascii_lower (cp "Uses")
       (fst (KnowledgeGraphBuilder._add_relation_property ascii_lower
               (cp "uses") ∅))
     = (fst (KnowledgeGraphBuilder._add_relation_property ascii_lower
               (cp "uses") ∅),
        snd (KnowledgeGraphBuilder._add_relation_property ascii_lower
               (cp "uses") ∅)).
Proof.
  split; [reflexivity|].
  apply (relation_property_declared_once ascii_lower (cp "uses") (cp "Uses")).
  reflexivity.
Defined.

(** X20 on two relations added to a new builder: the node of the second
    names its subject. *)
Lemma add_relations_reifies_witness :
  [nn_relation; part_relation] !! 1%nat = Some part_relation
  /\ (KnowledgeGraphBuilder.relation_instance_uri 1, ML "subject",
      KnowledgeGraphBuilder._create_entity_uri ascii_lower is_ascii_word
        (cp "Gradient Descent"))
     ∈ KnowledgeGraphBuilder.graph
         (KnowledgeGraphBuilder.add_relations ascii_lower is_ascii_word
            KnowledgeGraphBuilder.new_builder [nn_relation; part_relation]).
Proof.
  split; [reflexivity|].
  exact (proj1 (proj2 (proj2
           (add_relations_reifies ascii_lower is_ascii_word
              [nn_relation; part_relation] KnowledgeGraphBuilder.new_builder
              1%nat part_relation eq_refl)))).
Defined.

(** X23 on [boosting_items]: the class of the type has the spaces of the
    type replaced, the alias is recorded. *)
Lemma add_entities_describes_witness :
  In (cp "Gradient Boosting", boosting_entity) boosting_items
  /\ (KnowledgeGraphBuilder._create_entity_uri ascii_lower is_ascii_word
        (cp "Gradient Boosting"),
      RDF_type, ML "ensemble_method")
     ∈ KnowledgeGraphBuilder.graph
         (EntityGraph.add_entities ascii_lower is_ascii_word no_literal
            KnowledgeGraphBuilder.new_builder boosting_items)
  /\ (KnowledgeGraphBuilder._create_entity_uri ascii_lower is_ascii_word
        (cp "Gradient Boosting"),
      ML "alias", Literal (cp "GBM"))
     ∈ KnowledgeGraphBuilder.graph
         (EntityGraph.add_entities ascii_lower is_ascii_word no_literal
            KnowledgeGraphBuilder.new_builder boosting_items).
Proof.
  assert (H : In (cp "Gradient Boosting", boosting_entity) boosting_items)
    by (left; reflexivity).
  split; [exact H|].
  destruct (add_entities_describes ascii_lower is_ascii_word no_literal
              boosting_items KnowledgeGraphBuilder.new_builder
              (cp "Gradient Boosting") boosting_entity
              (cp "Ensemble Method") H eq_refl eq_refl)
    as (T & _ & _ & _ & _ & _ & A & _).
  split; [exact T|]. apply A.
  - left. reflexivity.
  - vm_compute. intros E. discriminate E.
  - vm_compute. intros E. discriminate E.
Defined.

(** X24 on [boosting_items]: the fifth chunk is recorded, and it is one
    of the first five. *)
Lemma add_entities_caps_source_chunks_witness :
  (KnowledgeGraphBuilder._create_entity_uri ascii_lower is_ascii_word
     (cp "Gradient Boosting"),
   ML "sourceChunk", Literal (cp "c5"))
  ∈ KnowledgeGraphBuilder.graph
      (EntityGraph.add_entities ascii_lower is_ascii_word no_literal
         KnowledgeGraphBuilder.new_builder boosting_items)
  /\ ((KnowledgeGraphBuilder._create_entity_uri ascii_lower is_ascii_word
         (cp "Gradient Boosting"),
       ML "sourceChunk", Literal (cp "c5"))
      ∈ KnowledgeGraphBuilder.graph KnowledgeGraphBuilder.new_builder
      \/ exists name e ch,
           In (name, e) boosting_items
           /\ KnowledgeGraphBuilder._create_entity_uri ascii_lower
                is_ascii_word (cp "Gradient Boosting")
              = KnowledgeGraphBuilder._create_entity_uri ascii_lower
                  is_ascii_word name
           /\ Literal (cp "c5") = Literal ch
           /\ In ch (firstn 5 (EntityNormalizer.source_chunks e))).
Proof.
  assert (H : (KnowledgeGraphBuilder._create_entity_uri ascii_lower
                 is_ascii_word (cp "Gradient Boosting"),
               ML "sourceChunk", Literal (cp "c5"))
              ∈ KnowledgeGraphBuilder.graph
                  (EntityGraph.add_entities ascii_lower is_ascii_word
                     no_literal KnowledgeGraphBuilder.new_builder
                     boosting_items)).
  { refine (bool_decide_unpack _ _). vm_compute. exact I. }
  split; [exact H|].
  exact (add_entities_caps_source_chunks ascii_lower is_ascii_word no_literal
           boosting_items KnowledgeGraphBuilder.new_builder _ _ H).
Defined.
End MoreWitnesses.
